(** * P2P crypto-market collectors: a shallow embedding of the collection,
      storage, premium and correlation code, with the properties of its
      specification.

    The Python sources are embedded as Rocq functions.  Conventions:

    - the arguments of the premium calculation are Python numbers: an [int]
      is a [Z], a [float] is an IEEE 754 binary64 value ([spec_float], with
      its signed zeros, infinities and NaN), each operation is rounded to
      nearest-even as the interpreter does it and raises what it raises
      (ZeroDivisionError, OverflowError);
    - elsewhere (adapters, rate collection, analysis) a [float] is idealised
      as an exact rational ([Q]): what an operation raises is kept, what it
      rounds away is not;
    - a call that can raise returns a [result]: [Ok v] or [Raise e]; only
      subclasses of [Exception] are modelled;
    - a [str] is a [string], a sequence of code points below 256 (Latin-1);
      [lower], [upper] and [strip] follow [str.lower], [str.upper] and
      [str.strip] on all of them, and since the upper case of a Latin-1
      letter can lie outside Latin-1, [upper] yields a list of code points;
    - a [dict] that is only read (a JSON payload) is an association list, a
      [dict] that is built and queried by key is a [gmap];
    - the network, the clock and the file system are explicit arguments or an
      explicit store. *)

From Stdlib Require Import ZArith QArith Qround Qabs String Ascii List Bool Lia Lqa.
From Stdlib Require Import Floats.SpecFloat.
From stdpp Require Import base gmap strings list pretty.
From Equations Require Import Equations.

Set Warnings "-register-all".
Local Open Scope string_scope.
Local Open Scope list_scope.

(** ** The Python runtime the sources rely on *)

Module Py.

(** The exception classes the sources raise or catch. *)
Inductive exn_kind :=
| ValueError
| TypeError
| AttributeError
| KeyError
| ZeroDivisionError
| OverflowError
| RequestException
| JSONDecodeError.

Record exn := Exn { exn_class : exn_kind; exn_msg : string }.

Inductive result (A : Type) :=
| Ok (a : A)
| Raise (e : exn).
Arguments Ok {A} a.
Arguments Raise {A} e.

Definition bind {A B} (r : result A) (k : A -> result B) : result B :=
  match r with
  | Ok a => k a
  | Raise e => Raise e
  end.

Definition is_ok {A} (r : result A) : bool :=
  match r with Ok _ => true | Raise _ => false end.

(** [except ValueError]: ValueError and its subclass JSONDecodeError. *)
Definition is_ValueError (e : exn) : bool :=
  match exn_class e with
  | ValueError | JSONDecodeError => true
  | _ => false
  end.

(** *** int and float *)

(** Nearest integer, ties to the even one. *)
Definition round_half_even (x : Q) : Z :=
  let f := Qfloor x in
  match (x - inject_Z f ?= 1 # 2)%Q with
  | Lt => f
  | Gt => (f + 1)%Z
  | Eq => if Z.even f then f else (f + 1)%Z
  end.

(** A float is a binary64 value: 53 bits of precision, exponents below
    1024. *)
Definition prec : Z := 53.
Definition emax : Z := 1024.

(** A number as the premium calculation receives it. *)
Inductive number :=
| NInt (z : Z)
| NFloat (x : spec_float).

(** [x == 0] on a float: both zeros are, NaN is not. *)
Definition is_zero (x : spec_float) : bool := SFeqb x (S754_zero false).

(** [a == 0]. *)
Definition eq_zero (a : number) : bool :=
  match a with
  | NInt z => (z =? 0)%Z
  | NFloat x => is_zero x
  end.

(** The float nearest to [n / d], with sign [s]; an infinity when [n / d]
    rounds beyond the largest float. *)
Definition of_ratio (s : bool) (n d : positive) : spec_float :=
  let '(q, e, l) := SFdiv_core_binary prec emax (Zpos n) 0 (Zpos d) 0 in
  binary_round_aux prec emax s q e l.

(** A conversion or an integer division whose result would be infinite
    raises OverflowError. *)
Definition finite_or (msg : string) (x : spec_float) : result spec_float :=
  match x with
  | S754_infinity _ => Raise (Exn OverflowError msg)
  | _ => Ok x
  end.

(** The float operand that an arithmetic operation makes of a number. *)
Definition as_double (a : number) : result spec_float :=
  match a with
  | NInt z => finite_or "int too large to convert to float"
                        (binary_normalize prec emax z 0 false)
  | NFloat x => Ok x
  end.

(** [a / b]: of two ints, the float nearest to the exact quotient; with a
    float on either side, both operands are converted first and the divisor
    is compared with zero next. *)
Definition truediv (a b : number) : result spec_float :=
  match a, b with
  | NInt x, NInt y =>
      let s := xorb (x <? 0)%Z (y <? 0)%Z in
      match y, x with
      | Z0, _ => Raise (Exn ZeroDivisionError "division by zero")
      | _, Z0 => Ok (S754_zero s)
      | _, _ => finite_or "integer division result too large for a float"
                          (of_ratio s (Z.to_pos (Z.abs x)) (Z.to_pos (Z.abs y)))
      end
  | _, _ =>
      bind (as_double a) (fun x =>
      bind (as_double b) (fun y =>
      if is_zero y then Raise (Exn ZeroDivisionError "float division by zero")
      else Ok (SFdiv prec emax x y)))
  end.

(** [x - b] and [x * b] for a float [x]. *)
Definition sub (x : spec_float) (b : number) : result spec_float :=
  bind (as_double b) (fun y => Ok (SFsub prec emax x y)).

Definition mul (x : spec_float) (b : number) : result spec_float :=
  bind (as_double b) (fun y => Ok (SFmul prec emax x y)).

(** The exact value of the finite float with mantissa [m] and exponent
    [e], sign apart. *)
Definition magnitude (m : positive) (e : Z) : Q :=
  match e with
  | Z0 => Zpos m # 1
  | Zpos k => Zpos m * 2 ^ Zpos k # 1
  | Zneg k => Zpos m # 2 ^ k
  end.

(** The float nearest to [n / 100], with sign [s]. *)
Definition hundredths (s : bool) (n : Z) : spec_float :=
  match n with
  | Zpos k => of_ratio s k 100
  | _ => S754_zero s
  end.

(** [round(x, 2)]: the exact value of [x] is rounded to a whole number of
    hundredths, ties to the even one, and the float nearest to that decimal
    is returned; zeros, infinities and NaN are returned as they are. *)
Definition round2 (x : spec_float) : spec_float :=
  match x with
  | S754_finite s m e => hundredths s (round_half_even (magnitude m e * 100))
  | _ => x
  end.

(** The float that the decimal literal [n / d] denotes ([d] a power of
    ten). *)
Definition literal (n : Z) (d : positive) : spec_float :=
  match n with
  | Z0 => S754_zero false
  | Zpos k => of_ratio false k d
  | Zneg k => of_ratio true k d
  end.

(** The float 100.0, which [x * 100] makes of the int 100. *)
Definition hundred : spec_float := S754_finite false 7036874417766400 (-46).

(** The exact value of a finite float (0 for the others). *)
Definition to_Q (x : spec_float) : Q :=
  match x with
  | S754_finite s m e => if s then (- magnitude m e)%Q else magnitude m e
  | _ => 0%Q
  end.

(** *** str *)

(** The capital letters with a small one 32 places up: A to Z, and the
    Latin-1 capitals 192 to 222 but for the multiplication sign 215. *)
Definition is_upper (c : ascii) : bool :=
  let n := nat_of_ascii c in
  ((65 <=? n)%nat && (n <=? 90)%nat)
  || ((192 <=? n)%nat && (n <=? 222)%nat && negb (n =? 215)%nat).

(** The small letters with a capital 32 places down: a to z, and the
    Latin-1 small letters 224 to 254 but for the division sign 247. *)
Definition is_lower (c : ascii) : bool :=
  let n := nat_of_ascii c in
  ((97 <=? n)%nat && (n <=? 122)%nat)
  || ((224 <=? n)%nat && (n <=? 254)%nat && negb (n =? 247)%nat).

Definition lower_char (c : ascii) : ascii :=
  if is_upper c then ascii_of_nat (nat_of_ascii c + 32) else c.

(** The upper case of a character, as code points: the sharp s (223)
    becomes "SS", and the capitals of the micro sign (181) and of the y with
    diaeresis (255) are the code points 924 and 376. *)
Definition upper_char (c : ascii) : list N :=
  let n := nat_of_ascii c in
  if is_lower c then [N.of_nat (n - 32)]
  else if (n =? 223)%nat then [83; 83]%N
  else if (n =? 181)%nat then [924%N]
  else if (n =? 255)%nat then [376%N]
  else [N.of_nat n].

Fixpoint map_chars (f : ascii -> ascii) (s : string) : string :=
  match s with
  | EmptyString => EmptyString
  | String c s' => String (f c) (map_chars f s')
  end.

(** [s.lower()]. *)
Definition lower (s : string) : string := map_chars lower_char s.

(** [s.upper()]. *)
Fixpoint upper (s : string) : list N :=
  match s with
  | EmptyString => []
  | String c s' => upper_char c ++ upper s'
  end.

(** The characters [str.isspace] accepts: tab to carriage return, the
    separators 28 to 31, the space, the next-line control 133 and the
    no-break space 160. *)
Definition is_space (c : ascii) : bool :=
  let n := nat_of_ascii c in
  ((9 <=? n)%nat && (n <=? 13)%nat) || ((28 <=? n)%nat && (n <=? 32)%nat)
  || (n =? 133)%nat || (n =? 160)%nat.

Fixpoint lstrip (s : string) : string :=
  match s with
  | EmptyString => EmptyString
  | String c s' => if is_space c then lstrip s' else s
  end.

Fixpoint rstrip (s : string) : string :=
  match s with
  | EmptyString => EmptyString
  | String c s' =>
      match rstrip s' with
      | EmptyString => if is_space c then EmptyString else String c EmptyString
      | r => String c r
      end
  end.

(** [s.strip()]. *)
Definition strip (s : string) : string := rstrip (lstrip s).

(** *** Values decoded from JSON (and the [str] of [json.dumps]) *)

Inductive value :=
| VNone
| VBool (b : bool)
| VInt (z : Z)
| VFloat (q : Q)
| VStr (s : string)
| VList (l : list value)
| VDict (kvs : list (string * value)).

(** [bool(v)]. *)
Definition truthy (v : value) : bool :=
  match v with
  | VNone => false
  | VBool b => b
  | VInt z => negb (z =? 0)%Z
  | VFloat q => negb (Qeq_bool q 0)
  | VStr s => negb (String.eqb s EmptyString)
  | VList l => match l with [] => false | _ => true end
  | VDict kvs => match kvs with [] => false | _ => true end
  end.

Fixpoint assoc (k : string) (kvs : list (string * value)) : option value :=
  match kvs with
  | [] => None
  | (k', v) :: rest => if String.eqb k' k then Some v else assoc k rest
  end.

Definition type_name (v : value) : string :=
  match v with
  | VNone => "NoneType"
  | VBool _ => "bool"
  | VInt _ => "int"
  | VFloat _ => "float"
  | VStr _ => "str"
  | VList _ => "list"
  | VDict _ => "dict"
  end.

(** [v.get(key, default)]: only a dict has the method. *)
Definition get (v : value) (key : string) (default : value) : result value :=
  match v with
  | VDict kvs => Ok (match assoc key kvs with Some x => x | None => default end)
  | _ => Raise (Exn AttributeError (type_name v +:+ " object has no attribute get"))
  end.

Fixpoint chars (s : string) : list value :=
  match s with
  | EmptyString => []
  | String c s' => VStr (String c EmptyString) :: chars s'
  end.

(** [for x in v]: the items a loop over [v] sees. *)
Definition iter (v : value) : result (list value) :=
  match v with
  | VList l => Ok l
  | VDict kvs => Ok (map (fun kv => VStr (fst kv)) kvs)
  | VStr s => Ok (chars s)
  | _ => Raise (Exn TypeError (type_name v +:+ " object is not iterable"))
  end.

(** Truncation towards zero, as [int(x)] does on a float. *)
Definition trunc (q : Q) : Z := Z.quot (Qnum q) (Zpos (Qden q)).

(** The library functions the model leaves abstract: how [float(s)] and
    [int(s)] read a [str] ([None] when they raise ValueError), how a float
    and a non-string value print ([repr], [str]), how the JSON scanner reads
    a number at the head of a text, and the square root. *)
Class Lib := {
  float_of_str : string -> option Q;
  int_of_str : string -> option Z;
  float_repr : Q -> string;
  str_of_value : value -> string;
  scan_number : string -> option (value * string);
  (** the square root of a non-negative float *)
  fsqrt : Q -> Q }.

Section Conversions.
Context `{Lib}.

(** [float(v)]. *)
Definition float (v : value) : result Q :=
  match v with
  | VInt z => Ok (inject_Z z)
  | VFloat q => Ok q
  | VBool b => Ok (if b then 1 else 0)%Q
  | VStr s =>
      match float_of_str s with
      | Some q => Ok q
      | None => Raise (Exn ValueError ("could not convert string to float: " +:+ s))
      end
  | _ => Raise (Exn TypeError "float() argument must be a string or a real number")
  end.

(** [int(v)]. *)
Definition int (v : value) : result Z :=
  match v with
  | VInt z => Ok z
  | VFloat q => Ok (trunc q)
  | VBool b => Ok (if b then 1 else 0)%Z
  | VStr s =>
      match int_of_str s with
      | Some z => Ok z
      | None => Raise (Exn ValueError ("invalid literal for int() with base 10: " +:+ s))
      end
  | _ => Raise (Exn TypeError "int() argument must be a string or a real number")
  end.
End Conversions.

(** *** Code that reads and writes a state [S] and may raise *)

Definition M (S A : Type) : Type := S -> result A * S.

Definition ret {S A} (a : A) : M S A := fun s => (Ok a, s).

Definition raise {S A} (e : exn) : M S A := fun s => (Raise e, s).

Definition bind_m {S A B} (m : M S A) (k : A -> M S B) : M S B :=
  fun s =>
    match m s with
    | (Ok a, s') => k a s'
    | (Raise e, s') => (Raise e, s')
    end.

(** A pure computation run inside stateful code. *)
Definition lift {S A} (r : result A) : M S A := fun s => (r, s).

(** [try: body  except <handles>: handler]. *)
Definition try_except {S A} (body : M S A) (handles : exn -> bool)
    (handler : exn -> M S A) : M S A :=
  fun s =>
    match body s with
    | (Ok a, s') => (Ok a, s')
    | (Raise e, s') => if handles e then handler e s' else (Raise e, s')
    end.

(** [except Exception]: every modelled class. *)
Definition is_Exception (e : exn) : bool := true.

Definition is_RequestException (e : exn) : bool :=
  match exn_class e with
  | RequestException => true
  | _ => false
  end.

End Py.

#[global] Instance result_ret : MRet Py.result := @Py.Ok.
#[global] Instance result_bind : MBind Py.result := fun A B k r => Py.bind r k.
#[global] Instance M_ret {S} : MRet (Py.M S) := fun A => @Py.ret S A.
#[global] Instance M_bind {S} : MBind (Py.M S) := fun A B k m => Py.bind_m m k.

(** ** utils/country_profiles.py *)

Module CountryProfiles.
Import Py.

(** One entry of [config/countries.yml]. *)
Record profile := Profile {
  country_code : string;
  name : string;
  fiat : string;
  stablecoins : list string;
  expected_payment_methods : list string;
  exchange_rate_sources : list string;
  p2p_platforms : list string;
  start_date : string;
  notes : string }.

(** [get_profile_by_country_code]; [profiles] is what [load_profiles]
    returns. *)
Definition get_profile_by_country_code (profiles : list profile) (code : string)
  : result profile :=
  let search_code := upper (strip code) in
  match List.find (fun p => bool_decide (upper (country_code p) = search_code))
                  profiles with
  | Some p => Ok p
  | None => Raise (Exn ValueError ("No profile found for country code: " +:+ code))
  end.

(** [get_profile_by_country_name]. *)
Definition get_profile_by_country_name (profiles : list profile) (query : string)
  : result profile :=
  let search_name := lower (strip query) in
  match List.find (fun p => String.eqb (lower (name p)) search_name) profiles with
  | Some p => Ok p
  | None => Raise (Exn ValueError ("No profile found for country name: " +:+ query))
  end.

(** [list_supported_countries]. *)
Definition list_supported_countries (profiles : list profile) : list profile := profiles.

End CountryProfiles.

(** ** The records the collectors exchange *)

(** A standardized advertisement: the dict [standardize_ad] builds.  The
    key [collection_id] is absent ([None]) until [save_raw_ads] sets it;
    [premium_pct] holds Python's [None] as [None]. *)
Module Ad.
Record t := Make {
  platform : string;
  timestamp : string;
  asset : Py.value;
  fiat : Py.value;
  price : Q;
  min_amount : Q;
  max_amount : Q;
  available_amount : Q;
  trade_type : string;
  country_code : string;
  payment_methods : Py.value;
  advertiser_name : Py.value;
  completion_rate : Q;
  order_count : Z;
  ad_id : Py.value;
  premium_pct : option Q;
  collection_id : option string }.

(** [ad["collection_id"] = cid]. *)
Definition set_collection_id (cid : string) (ad : t) : t :=
  Make (platform ad) (timestamp ad) (asset ad) (fiat ad) (price ad) (min_amount ad)
       (max_amount ad) (available_amount ad) (trade_type ad) (country_code ad)
       (payment_methods ad) (advertiser_name ad) (completion_rate ad) (order_count ad)
       (ad_id ad) (premium_pct ad) (Some cid).

(** [ad["payment_methods"] = v]. *)
Definition set_payment_methods (v : Py.value) (ad : t) : t :=
  Make (platform ad) (timestamp ad) (asset ad) (fiat ad) (price ad) (min_amount ad)
       (max_amount ad) (available_amount ad) (trade_type ad) (country_code ad)
       v (advertiser_name ad) (completion_rate ad) (order_count ad)
       (ad_id ad) (premium_pct ad) (collection_id ad).
End Ad.

(** One row of [metadata/collection_log.csv]. *)
Module LogEntry.
Record t := Make {
  collection_id : string;
  timestamp : string;
  platform : string;
  country_code : string;
  country_name : string;
  fiat_currency : string;
  ads_collected : nat;
  buy_ads : nat;
  sell_ads : nat;
  status : string;
  error_message : string }.
End LogEntry.

(** One exchange-rate record. *)
Module Rate.
Record t := Make {
  timestamp : string;
  fiat_currency : string;
  usd_rate : Q;
  source : string;
  collection_id : string }.

Definition set_collection_id (cid : string) (r : t) : t :=
  Make (timestamp r) (fiat_currency r) (usd_rate r) (source r) cid.
End Rate.

(** ** What lies outside the program *)

Module World.
Import Py.

(** The files under the data directory: the raw advertisement files by
    path, the collection log and the exchange-rate files by path, each as the
    list of its data rows. *)
Record Store := MkStore {
  raw_files : gmap string (list Ad.t);
  collection_log : list LogEntry.t;
  rate_files : gmap string (list Rate.t) }.

Definition empty_store : Store := MkStore ∅ [] ∅.

(** The clock, the network and the configuration, over a world state [W]
    that every call may change. *)
Class Env (W : Type) := {
  (** [load_profiles()]: the table of [config/countries.yml], read once *)
  load_profiles : list CountryProfiles.profile;
  (** [datetime.utcnow().isoformat()] *)
  utcnow_isoformat : W -> string * W;
  (** [datetime.now().isoformat()] *)
  now_isoformat : W -> string * W;
  (** [datetime.now().strftime('%Y%m%d_%H%M%S')] *)
  now_stamp : W -> string * W;
  (** [date.today().strftime("%Y-%m-%d")] *)
  today_str : W -> string * W;
  (** [datetime.now().date()], as a day number *)
  today_ordinal : W -> Z * W;
  (** [datetime.strptime(s, "%Y-%m-%d")] as a day number, ValueError on a
      malformed date; [dt.strftime("%Y-%m-%d")] *)
  strptime : string -> result Z;
  strftime : Z -> string;
  (** [session.get(url, params, timeout)], [raise_for_status()],
      [response.json()] and the reading of the body's "rates" object (empty
      when the body has none) *)
  rates_get : string -> list (string * string) -> W ->
              result (list (string * Q)) * W;
  (** the same for the POST of the Binance search endpoint, by
      (asset, fiat, tradeType, page, rows, timestamp) *)
  binance_post : string -> string -> string -> nat -> nat -> option string ->
                 W -> result value * W;
  (** one GET of an OKX endpoint by (url, cryptoCurrency, fiatCurrency,
      side, page, limit): the status code and the decoded body *)
  okx_get : string -> string -> string -> string -> nat -> nat ->
            W -> result (Z * value) * W }.

(** The state the program runs in. *)
Record State (W : Type) := MkState {
  world : W;
  store : Store;
  (** ghost: the dates the rate sources were asked for, oldest first *)
  requested : list string }.
Arguments MkState {W} world store requested.
Arguments world {W} s.
Arguments store {W} s.
Arguments requested {W} s.

(** A call on the outside world. *)
Definition ask {W A} (f : W -> A * W) : M (State W) A :=
  fun s => let '(a, w) := f (world s) in (Ok a, MkState w (store s) (requested s)).

(** A call on the outside world that may raise. *)
Definition call {W A} (f : W -> result A * W) : M (State W) A :=
  fun s => let '(r, w) := f (world s) in (r, MkState w (store s) (requested s)).

Definition get_store {W} : M (State W) Store :=
  fun s => (Ok (store s), s).

Definition put_store {W} (st : Store) : M (State W) unit :=
  fun s => (Ok tt, MkState (world s) st (requested s)).

(** ghost: note that the rate sources are asked for [date_str]. *)
Definition note_request {W} (date_str : string) : M (State W) unit :=
  fun s => (Ok tt, MkState (world s) (store s) (requested s ++ [date_str])).

End World.

(** ** The [json] module, as the store uses it *)

Module Json.
Import Py.

Definition dquote : ascii := "034"%char.
Definition backslash : ascii := "092"%char.

Definition hex_digit (n : nat) : ascii :=
  match String.get n "0123456789abcdef" with
  | Some c => c
  | None => "0"%char
  end.

(** The value of a hexadecimal digit, either case. *)
Definition hex_value (c : ascii) : option nat :=
  let n := nat_of_ascii c in
  if (48 <=? n)%nat && (n <=? 57)%nat then Some (n - 48)
  else if (97 <=? n)%nat && (n <=? 102)%nat then Some (n - 87)
  else if (65 <=? n)%nat && (n <=? 70)%nat then Some (n - 55)
  else None.

(** How [json.dumps] (with [ensure_ascii]) writes one character of a
    string: the short escapes, the printable ASCII characters as they are,
    everything else as a [\uXXXX] escape. *)
Definition escape_char (c : ascii) : string :=
  let n := nat_of_ascii c in
  if Ascii.eqb c dquote then String backslash (String dquote EmptyString)
  else if Ascii.eqb c backslash then String backslash (String backslash EmptyString)
  else if (n =? 10)%nat then "\n"
  else if (n =? 13)%nat then "\r"
  else if (n =? 9)%nat then "\t"
  else if (n =? 8)%nat then "\b"
  else if (n =? 12)%nat then "\f"
  else if (32 <=? n)%nat && (n <=? 126)%nat then String c EmptyString
  else "\u00" +:+ String (hex_digit (n / 16)) (String (hex_digit (n mod 16)) EmptyString).

Fixpoint escape (s : string) : string :=
  match s with
  | EmptyString => EmptyString
  | String c s' => escape_char c +:+ escape s'
  end.

(** [json.dumps] of a [str]. *)
Definition encode_str (s : string) : string :=
  String dquote (escape s +:+ String dquote EmptyString).

(** [sep.join(parts)]. *)
Fixpoint join (sep : string) (parts : list string) : string :=
  match parts with
  | [] => EmptyString
  | [p] => p
  | p :: rest => p +:+ sep +:+ join sep rest
  end.

Section Dumps.
Context `{Lib}.

(** [json.dumps(v)] with the default separators. *)
Fixpoint dumps (v : value) : string :=
  match v with
  | VNone => "null"
  | VBool true => "true"
  | VBool false => "false"
  | VInt z => pretty z
  | VFloat q => float_repr q
  | VStr s => encode_str s
  | VList l => "[" +:+ join ", " (map dumps l) +:+ "]"
  | VDict kvs =>
      "{" +:+ join ", " (map (fun '(k, x) => encode_str k +:+ ": " +:+ dumps x) kvs) +:+ "}"
  end.

(** The white space the decoder skips. *)
Definition is_ws (c : ascii) : bool :=
  let n := nat_of_ascii c in
  (n =? 32)%nat || (n =? 9)%nat || (n =? 10)%nat || (n =? 13)%nat.

Fixpoint skip_ws (s : string) : string :=
  match s with
  | EmptyString => EmptyString
  | String c s' => if is_ws c then skip_ws s' else s
  end.

(** The character an escape letter stands for. *)
Definition unescape (e : ascii) : option ascii :=
  if Ascii.eqb e dquote then Some dquote
  else if Ascii.eqb e backslash then Some backslash
  else if Ascii.eqb e "/" then Some "/"%char
  else if Ascii.eqb e "b" then Some (ascii_of_nat 8)
  else if Ascii.eqb e "f" then Some (ascii_of_nat 12)
  else if Ascii.eqb e "n" then Some (ascii_of_nat 10)
  else if Ascii.eqb e "r" then Some (ascii_of_nat 13)
  else if Ascii.eqb e "t" then Some (ascii_of_nat 9)
  else None.

(** The code point of four hexadecimal digits. *)
Definition hex4 (a b c d : ascii) : option nat :=
  match hex_value a, hex_value b, hex_value c, hex_value d with
  | Some x, Some y, Some z, Some w => Some (((x * 16 + y) * 16 + z) * 16 + w)
  | _, _, _, _ => None
  end.

(** The strict string scanner, from just after the opening quote: the
    string and the text after its closing quote.  A raw control character,
    an unknown escape or a missing closing quote is an error; so is, in this
    model, an escape for a code point above 255, which a [string] cannot
    hold. *)
Fixpoint scanstring (s : string) : option (string * string) :=
  match s with
  | EmptyString => None
  | String c rest =>
      if Ascii.eqb c dquote then Some (EmptyString, rest)
      else if Ascii.eqb c backslash then
        match rest with
        | EmptyString => None
        | String e rest' =>
            if Ascii.eqb e "u" then
              match rest' with
              | String h1 (String h2 (String h3 (String h4 rest''))) =>
                  match hex4 h1 h2 h3 h4 with
                  | Some n =>
                      if (n <? 256)%nat then
                        match scanstring rest'' with
                        | Some (str, r) => Some (String (ascii_of_nat n) str, r)
                        | None => None
                        end
                      else None
                  | None => None
                  end
              | _ => None
              end
            else
              match unescape e with
              | Some x =>
                  match scanstring rest' with
                  | Some (str, r) => Some (String x str, r)
                  | None => None
                  end
              | None => None
              end
        end
      else if (nat_of_ascii c <? 32)%nat then None
      else
        match scanstring rest with
        | Some (str, r) => Some (String c str, r)
        | None => None
        end
  end.

(** [d[k] = v] on a dict under construction. *)
Fixpoint dict_set (k : string) (v : value) (kvs : list (string * value))
  : list (string * value) :=
  match kvs with
  | [] => [(k, v)]
  | (k', v') :: rest =>
      if String.eqb k' k then (k', v) :: rest else (k', v') :: dict_set k v rest
  end.

Definition starts_with (p s : string) : option string :=
  if String.prefix p s then Some (String.substring (String.length p) (String.length s - String.length p) s)
  else None.

(** The scanner: one value at the head of the text, and the rest of the
    text.  [fuel] bounds the number of values and array or object items that
    are opened. *)
Fixpoint parse_value (fuel : nat) (s : string) : option (value * string) :=
  match fuel with
  | O => None
  | S fuel' =>
      match s with
      | EmptyString => None
      | String c rest =>
          if Ascii.eqb c dquote then
            match scanstring rest with
            | Some (str, r) => Some (VStr str, r)
            | None => None
            end
          else if Ascii.eqb c "[" then
            match skip_ws rest with
            | EmptyString => None
            | String c' r =>
                if Ascii.eqb c' "]" then Some (VList [], r)
                else
                  match parse_items fuel' (String c' r) with
                  | Some (l, r') => Some (VList l, r')
                  | None => None
                  end
            end
          else if Ascii.eqb c "{" then
            match skip_ws rest with
            | EmptyString => None
            | String c' r =>
                if Ascii.eqb c' "}" then Some (VDict [], r)
                else
                  match parse_members fuel' [] (String c' r) with
                  | Some (kvs, r') => Some (VDict kvs, r')
                  | None => None
                  end
            end
          else
            match starts_with "null" s, starts_with "true" s, starts_with "false" s with
            | Some r, _, _ => Some (VNone, r)
            | _, Some r, _ => Some (VBool true, r)
            | _, _, Some r => Some (VBool false, r)
            | _, _, _ => scan_number s
            end
      end
  end
(** the items of an array, from its first item to its closing bracket *)
with parse_items (fuel : nat) (s : string) : option (list value * string) :=
  match fuel with
  | O => None
  | S fuel' =>
      match parse_value fuel' s with
      | Some (v, r) =>
          match skip_ws r with
          | EmptyString => None
          | String c r' =>
              if Ascii.eqb c "]" then Some ([v], r')
              else if Ascii.eqb c "," then
                match parse_items fuel' (skip_ws r') with
                | Some (l, r'') => Some (v :: l, r'')
                | None => None
                end
              else None
          end
      | None => None
      end
  end
(** the members of an object, from its first key to its closing brace *)
with parse_members (fuel : nat) (acc : list (string * value)) (s : string)
  : option (list (string * value) * string) :=
  match fuel with
  | O => None
  | S fuel' =>
      match s with
      | EmptyString => None
      | String c rest =>
          if Ascii.eqb c dquote then
            match scanstring rest with
            | Some (k, r) =>
                match skip_ws r with
                | EmptyString => None
                | String c1 r1 =>
                    if Ascii.eqb c1 ":" then
                      match parse_value fuel' (skip_ws r1) with
                      | Some (v, r2) =>
                          match skip_ws r2 with
                          | EmptyString => None
                          | String c3 r3 =>
                              if Ascii.eqb c3 "}" then Some (dict_set k v acc, r3)
                              else if Ascii.eqb c3 "," then
                                parse_members fuel' (dict_set k v acc) (skip_ws r3)
                              else None
                          end
                      | None => None
                      end
                    else None
                end
            | None => None
            end
          else None
      end
  end.

(** [json.loads(s)]. *)
Definition loads (s : string) : result value :=
  match parse_value (S (String.length s)) (skip_ws s) with
  | Some (v, rest) =>
      match skip_ws rest with
      | EmptyString => Ok v
      | _ => Raise (Exn JSONDecodeError "Extra data")
      end
  | None => Raise (Exn JSONDecodeError "Expecting value")
  end.

End Dumps.
End Json.

(** ** utils/csv_data_manager.py *)

Module CSVDataManager.
Import Py World.

Section Manager.
Context `{Lib} {W : Type} `{Env W}.

(** [generate_collection_id]. *)
Definition generate_collection_id : M (State W) string :=
  stamp ← ask now_stamp;
  mret ("collection_" +:+ stamp).

(** [if not collection_id: collection_id = self.generate_collection_id()]. *)
Definition collection_id_or_new (collection_id : option string) : M (State W) string :=
  match collection_id with
  | Some cid => if String.eqb cid EmptyString then generate_collection_id else mret cid
  | None => generate_collection_id
  end.

(** The body of the loop of [save_raw_ads]: what it does to one of the
    caller's dicts. *)
Definition tag_ad (collection_id : string) (ad : Ad.t) : Ad.t :=
  let ad := Ad.set_collection_id collection_id ad in
  match Ad.payment_methods ad with
  | VList l => Ad.set_payment_methods (VStr (Json.dumps (VList l))) ad
  | _ => ad
  end.

(** [_write_csv]: the file is replaced. *)
Definition _write_csv (filepath : string) (data : list Ad.t) : M (State W) unit :=
  st ← get_store;
  put_store (MkStore (<[filepath := data]> (raw_files st)) (collection_log st) (rate_files st)).

(** [save_raw_ads].  The loop writes into the dicts of the caller's list,
    so the call returns, next to the path, the caller's list as the loop
    leaves it. *)
Definition save_raw_ads (ads : list Ad.t) (platform country_code : string)
    (collection_id : option string) : M (State W) (string * list Ad.t) :=
  collection_id ← collection_id_or_new collection_id;
  today ← ask today_str;
  let filename := platform +:+ "_p2p_" +:+ country_code +:+ "_" +:+ today +:+ ".csv" in
  let filepath := today +:+ "/" +:+ filename in
  let ads := map (tag_ad collection_id) ads in
  _ ← _write_csv filepath ads;
  mret (filepath, ads).

(** [log_collection_run]: one row is appended to the collection log. *)
Definition log_collection_run (platform country_code country_name fiat_currency : string)
    (ads_collected buy_ads sell_ads : nat) (status error_message : string)
    (collection_id : option string) : M (State W) unit :=
  collection_id ← collection_id_or_new collection_id;
  now ← ask now_isoformat;
  let log_entry :=
    LogEntry.Make collection_id now platform country_code country_name fiat_currency
                  ads_collected buy_ads sell_ads status error_message in
  st ← get_store;
  put_store (MkStore (raw_files st) (collection_log st ++ [log_entry]) (rate_files st)).

(** [save_exchange_rates]: the rates are appended to the day's file; as in
    [save_raw_ads] the caller's records are written into. *)
Definition save_exchange_rates (rates : list Rate.t) (collection_id : option string)
  : M (State W) (list Rate.t) :=
  collection_id ← collection_id_or_new collection_id;
  let rates := map (Rate.set_collection_id collection_id) rates in
  today ← ask today_str;
  let filepath := "rates_" +:+ today +:+ ".csv" in
  st ← get_store;
  let old := default [] (rate_files st !! filepath) in
  _ ← put_store (MkStore (raw_files st) (collection_log st)
                         (<[filepath := old ++ rates]> (rate_files st)));
  mret rates.

(** *** The payment-methods cell *)

(** The text [csv.DictWriter] writes for a value: a [str] as it is,
    [None] as the empty cell, anything else through [str]. *)
Definition csv_text (v : value) : string :=
  match v with
  | VStr s => s
  | VNone => EmptyString
  | _ => str_of_value v
  end.

(** The cell texts [pandas.read_csv] reads as NaN. *)
Definition na_values : list string :=
  [ ""; "#N/A"; "#N/A N/A"; "#NA"; "-1.#IND"; "-1.#QNAN"; "-NaN"; "-nan";
    "1.#IND"; "1.#QNAN"; "<NA>"; "N/A"; "NA"; "NULL"; "NaN"; "None"; "n/a";
    "nan"; "null" ].

(** What [pandas.read_csv] hands back for a text cell: [None] is NaN. *)
Definition read_cell (text : string) : option string :=
  if existsb (String.eqb text) na_values then None else Some text.

(** [lambda x: json.loads(x) if pd.notna(x) else []] of [load_raw_ads]. *)
Definition decode_payment_methods (cell : option string) : result value :=
  match cell with
  | Some x => Json.loads x
  | None => Ok (VList [])
  end.

End Manager.
End CSVDataManager.

(** ** utils/exchange_rates.py *)

Module ExchangeRates.
Import Py World CountryProfiles CSVDataManager.

Record ExchangeRateCollector := { api_key : option string }.

(** [calculate_premium]. *)
Definition calculate_premium (crypto_price official_rate base_value : number)
  : result spec_float :=
  if eq_zero official_rate then Ok (S754_zero false)
  else
    implied_usd_price ← truediv crypto_price official_rate;
    difference ← sub implied_usd_price base_value;
    ratio ← truediv (NFloat difference) base_value;
    premium_pct ← mul ratio (NInt 100);
    Ok (round2 premium_pct).

(** The day number of [datetime.max], 31 December 9999: a [datetime] has a
    day number from 1 up to it. *)
Definition max_ordinal : Z := 3652059.

(** [days_to_add = 7 if (end_dt - start_dt).days > 90 else 1]. *)
Definition days_to_add (start_dt end_dt : Z) : Z :=
  if decide (end_dt - start_dt > 90)%Z then 7%Z else 1%Z.

(** The days the sampling visits from [current_dt] on: [current_dt],
    [current_dt + step], ... up to [end_dt]. *)
Definition dates_from (current_dt end_dt step : Z) : list Z :=
  map (fun k => current_dt + step * Z.of_nat k)%Z
      (seq 0 (Z.to_nat ((end_dt - current_dt) / step + 1))).

Section Collector.
Context `{Lib} {W : Type} `{Env W}.
Variable self : ExchangeRateCollector.

(** [self.api_key] as a condition, and as the text put in the query. *)
Definition has_key : bool :=
  match api_key self with
  | Some k => negb (String.eqb k EmptyString)
  | None => false
  end.

Definition key : string := default EmptyString (api_key self).

(** [_fetch_from_source]. *)
Definition _fetch_from_source (source base_currency : string)
  : M (State W) (list (string * Q)) :=
  if String.eqb source "exchangerate_api" then
    call (rates_get "https://api.exchangerate-api.com/v4/latest/USD" [])
  else if String.eqb source "openexchangerates" then
    if negb has_key then mret []
    else call (rates_get "https://openexchangerates.org/api/latest.json" [("app_id", key)])
  else if String.eqb source "fixer" then
    call (rates_get "http://data.fixer.io/api/latest"
                    (if has_key then [("access_key", key)] else []))
  else mret [].

(** [rates.update(source_rates)]. *)
Definition update (rates : gmap string Q) (source_rates : list (string * Q))
  : gmap string Q :=
  foldl (fun m kv => <[fst kv := snd kv]> m) rates source_rates.

(** The loop of [get_current_rates] over the sources that are left. *)
Fixpoint current_rates_from (sources : list string) (base_currency : string)
    (rates : gmap string Q) : M (State W) (gmap string Q) :=
  match sources with
  | [] => mret rates
  | source :: sources' =>
      got ← try_except
              (source_rates ← _fetch_from_source source base_currency;
               match source_rates with
               | [] => mret None
               | _ => mret (Some (update rates source_rates))
               end)
              is_Exception
              (fun _ => mret None);
      match got with
      | Some rates' => mret rates'
      | None => current_rates_from sources' base_currency rates
      end
  end.

(** [get_current_rates]. *)
Definition get_current_rates (base_currency : string) : M (State W) (gmap string Q) :=
  current_rates_from ["exchangerate_api"; "openexchangerates"; "fixer"] base_currency ∅.

(** The loop of [get_historical_rates] over the sources that are left. *)
Fixpoint historical_rates_from (sources : list string) (date : string)
  : M (State W) (gmap string Q) :=
  match sources with
  | [] => mret ∅
  | source :: sources' =>
      got ← try_except
              (if String.eqb source "openexchangerates" && has_key then
                 rates ← call (rates_get ("https://openexchangerates.org/api/historical/"
                                            +:+ date +:+ ".json") [("app_id", key)]);
                 mret (match rates with [] => None | _ => Some rates end)
               else if String.eqb source "fixer" then
                 rates ← call (rates_get ("http://data.fixer.io/api/" +:+ date)
                                         (if has_key then [("access_key", key)] else []));
                 mret (match rates with [] => None | _ => Some rates end)
               else mret None)
              is_Exception
              (fun _ => mret None);
      match got with
      | Some rates => mret (update ∅ rates)
      | None => historical_rates_from sources' date
      end
  end.

(** [get_historical_rates]. *)
Definition get_historical_rates (date base_currency : string)
  : M (State W) (gmap string Q) :=
  historical_rates_from ["openexchangerates"; "fixer"] date.

(** The body of the loop of [collect_crisis_period_rates] for the day
    [current_dt], up to the step to the next day. *)
Definition rates_for_day (fiat : string) (current_dt : Z) (rates_data : list Rate.t)
  : M (State W) (list Rate.t) :=
  let date_str := strftime current_dt in
  today ← ask today_ordinal;
  _ ← note_request date_str;
  rates ← (if decide (current_dt = today) then get_current_rates "USD"
           else get_historical_rates date_str "USD");
  match rates !! fiat with
  | Some rate =>
      collection_id ← generate_collection_id;
      mret (rates_data ++
            [Rate.Make (date_str +:+ "T12:00:00Z") fiat rate "api_composite" collection_id])
  | None => mret rates_data
  end.

(** [while current_dt <= end_dt: ...] of [collect_crisis_period_rates];
    [current_dt += timedelta(days=days_to_add)] raises OverflowError when the
    sum is past [datetime.max]. *)
Equations? rates_loop (fiat : string) (start_dt end_dt current_dt : Z)
    (rates_data : list Rate.t) (s : State W) : result (list Rate.t) * State W
    by wf (Z.to_nat (end_dt - current_dt + 1)) lt :=
rates_loop fiat start_dt end_dt current_dt rates_data s
    with decide (current_dt ≤ end_dt)%Z := {
  | left _ with rates_for_day fiat current_dt rates_data s := {
      | (Ok rates_data', s')
          with decide (current_dt + days_to_add start_dt end_dt ≤ max_ordinal)%Z := {
          | left _ =>
              rates_loop fiat start_dt end_dt (current_dt + days_to_add start_dt end_dt)
                         rates_data' s'
          | right _ => (Raise (Exn OverflowError "date value out of range"), s') }
      | (Raise e, s') => (Raise e, s') }
  | right _ => (Ok rates_data, s) }.
Proof.
  unfold days_to_add. destruct (decide _); lia.
Qed.

(** [collect_crisis_period_rates]. *)
Definition collect_crisis_period_rates (country_code start_date end_date : string)
  : M (State W) (list Rate.t) :=
  try_except
    (profile ← lift (get_profile_by_country_code load_profiles country_code);
     let fiat := fiat profile in
     start_dt ← lift (strptime start_date);
     end_dt ← lift (strptime end_date);
     rates_data ← rates_loop fiat start_dt end_dt start_dt [];
     match rates_data with
     | [] => mret rates_data
     | _ => save_exchange_rates rates_data None
     end)
    is_ValueError
    (fun _ => mret []).

(** [collect_all_current_rates]. *)
Definition collect_all_current_rates : M (State W) (list Rate.t) :=
  let countries := list_supported_countries load_profiles in
  current_rates ← get_current_rates "USD";
  collection_id ← generate_collection_id;
  rates_data ←
    foldl (fun acc country =>
             rates_data ← acc;
             match current_rates !! fiat country with
             | Some rate =>
                 now ← ask now_isoformat;
                 mret (rates_data ++
                       [Rate.Make (now +:+ "Z") (fiat country) rate "api_current" collection_id])
             | None => mret rates_data
             end)
          (mret []) countries;
  match rates_data with
  | [] => mret rates_data
  | _ => save_exchange_rates rates_data None
  end.

End Collector.
End ExchangeRates.

(** ** scrapers/binance_p2p.py *)

Module BinanceP2P.
Import Py World CountryProfiles CSVDataManager.

Section Scraper.
Context `{Lib} {W : Type} `{Env W}.

(** [[f(x) for x in xs]] for an [f] that may raise. *)
Fixpoint for_each {A B} (f : A -> result B) (xs : list A) : result (list B) :=
  match xs with
  | [] => Ok []
  | x :: xs' => y ← f x; ys ← for_each f xs'; Ok (y :: ys)
  end.

(** [get_ads]: a failed request is an empty response. *)
Definition get_ads (asset fiat trade_type : string) (page rows : nat)
    (timestamp : option string) : M (State W) value :=
  try_except (call (binance_post asset fiat trade_type page rows timestamp))
             is_RequestException
             (fun _ => mret (VDict [])).

(** [standardize_ad]. *)
Definition standardize_ad (ad_data : value) (country_code trade_type : string)
  : M (State W) Ad.t :=
  adv ← lift (get ad_data "adv" (VDict []));
  advertiser ← lift (get ad_data "advertiser" (VDict []));
  now ← ask utcnow_isoformat;
  asset ← lift (get adv "asset" (VStr ""));
  fiat ← lift (get adv "fiatUnit" (VStr ""));
  price ← lift (get adv "price" (VInt 0) ≫= float);
  min_amount ← lift (get adv "minSingleTransAmount" (VInt 0) ≫= float);
  max_amount ← lift (get adv "dynamicMaxSingleTransAmount" (VInt 0) ≫= float);
  available_amount ← lift (get adv "surplusAmount" (VInt 0) ≫= float);
  payment_methods ←
    lift (methods ← get adv "tradeMethods" (VList []) ≫= iter;
          for_each (fun method => get method "tradeMethodName" (VStr "")) methods);
  advertiser_name ← lift (get advertiser "nickName" (VStr ""));
  completion_rate ← lift (get advertiser "monthFinishRate" (VInt 0) ≫= float);
  order_count ← lift (get advertiser "monthOrderCount" (VInt 0) ≫= int);
  ad_id ← lift (get adv "advNo" (VStr ""));
  mret (Ad.Make "binance" (now +:+ "Z") asset fiat price min_amount max_amount
                available_amount trade_type country_code (VList payment_methods)
                advertiser_name completion_rate order_count ad_id None None).

(** The local variables of [collect_country_data] that its loops update. *)
Record counters := Counters {
  all_ads : list Ad.t;
  buy_count : nat;
  sell_count : nat }.

(** [for ad in ads: ...]: standardize, append, count. *)
Fixpoint standardize_page (ads : list value) (country_code trade_type : string)
    (c : counters) : M (State W) counters :=
  match ads with
  | [] => mret c
  | ad :: ads' =>
      standardized ← standardize_ad ad country_code trade_type;
      let all_ads := all_ads c ++ [standardized] in
      let c :=
        if String.eqb trade_type "BUY"
        then Counters all_ads (buy_count c + 1) (sell_count c)
        else Counters all_ads (buy_count c) (sell_count c + 1) in
      standardize_page ads' country_code trade_type c
  end.

(** [while page <= 5: ...], with [pages_left] pages still allowed, the
    next one being [page]. *)
Fixpoint collect_pages (pages_left page : nat) (asset fiat country_code trade_type : string)
    (c : counters) : M (State W) counters :=
  match pages_left with
  | O => mret c
  | S pages_left' =>
      response ← get_ads asset fiat trade_type page 20 None;
      if negb (truthy response) then mret c
      else
        data ← lift (get response "data" VNone);
        if negb (truthy data) then mret c
        else
          ads ← lift (iter data);
          c ← standardize_page ads country_code trade_type c;
          collect_pages pages_left' (page + 1) asset fiat country_code trade_type c
  end.

(** [for trade_type in ["BUY", "SELL"]: ...]. *)
Fixpoint collect_sides (sides : list string) (asset fiat country_code : string)
    (c : counters) : M (State W) counters :=
  match sides with
  | [] => mret c
  | trade_type :: sides' =>
      c ← collect_pages 5 1 asset fiat country_code trade_type c;
      collect_sides sides' asset fiat country_code c
  end.

(** [collect_country_data].  The list it returns is the one
    [save_raw_ads] has written into. *)
Definition collect_country_data (country_code asset : string) (save_to_csv : bool)
  : M (State W) (list Ad.t) :=
  try_except
    (profile ← lift (get_profile_by_country_code load_profiles country_code);
     let fiat := fiat profile in
     collection_id ← generate_collection_id;
     c ← collect_sides ["BUY"; "SELL"] asset fiat country_code (Counters [] 0 0);
     match save_to_csv, all_ads c with
     | true, _ :: _ =>
         '(_, saved) ← save_raw_ads (all_ads c) "binance" country_code (Some collection_id);
         _ ← log_collection_run "binance" country_code (name profile) fiat
               (length saved) (buy_count c) (sell_count c) "success" "" (Some collection_id);
         mret saved
     | _, _ => mret (all_ads c)
     end)
    is_ValueError
    (fun _ => mret []).

End Scraper.
End BinanceP2P.

(** ** scrapers/platforms/okx_p2p.py *)

Module OKXP2P.
Import Py World CountryProfiles CSVDataManager.

Definition base_urls : list string :=
  [ "https://www.okx.com/api/v5/mktdata/exchange-rate";
    "https://www.okx.com/priapi/v1/otc/c2c/orders";
    "https://www.okx.com/v3/c2c/tradingOrders/getOrders";
    "https://www.okx.com/api/v5/market/exchange-rate" ].

(** [data and ("data" in data or "orders" in data or len(data) > 0)]: a
    non-empty dict, list or str passes; on a non-zero number [in] raises. *)
Definition usable (data : value) : result bool :=
  if truthy data then
    match data with
    | VDict _ | VList _ | VStr _ => Ok true
    | _ => Raise (Exn TypeError ("argument of type " +:+ type_name data +:+ " is not iterable"))
    end
  else Ok false.

Section Scraper.
Context `{Lib} {W : Type} `{Env W}.

(** The loop of [get_ads] over the endpoints that are left. *)
Fixpoint get_ads_from (urls : list string) (crypto_currency fiat_currency side : string)
    (page limit : nat) : M (State W) value :=
  match urls with
  | [] => mret (VDict [])
  | base_url :: urls' =>
      got ← try_except
              ('(status_code, data) ←
                 call (okx_get base_url crypto_currency fiat_currency side page limit);
               if (status_code =? 200)%Z then
                 ok ← lift (usable data);
                 mret (if ok : bool then Some data else None)
               else mret None)
              is_RequestException
              (fun _ => mret None);
      match got with
      | Some data => mret data
      | None => get_ads_from urls' crypto_currency fiat_currency side page limit
      end
  end.

(** [get_ads]. *)
Definition get_ads (crypto_currency fiat_currency side : string) (page limit : nat)
  : M (State W) value :=
  get_ads_from base_urls crypto_currency fiat_currency side page limit.

(** [standardize_ad]. *)
Definition standardize_ad (ad_data : value) (country_code trade_type : string)
  : M (State W) Ad.t :=
  let standard_trade_type :=
    if String.eqb (lower trade_type) "buy" then "BUY" else "SELL" in
  now ← ask utcnow_isoformat;
  asset ← lift (get ad_data "cryptoCurrency" (VStr ""));
  fiat ← lift (get ad_data "fiatCurrency" (VStr ""));
  price ← lift (get ad_data "price" (VInt 0) ≫= float);
  min_amount ← lift (get ad_data "minQuoteAmount" (VInt 0) ≫= float);
  max_amount ← lift (get ad_data "maxQuoteAmount" (VInt 0) ≫= float);
  available_amount ← lift (get ad_data "availableAmount" (VInt 0) ≫= float);
  payment_methods ← lift (get ad_data "paymentMethodList" (VList []));
  advertiser_name ← lift (get ad_data "merchantName" (VStr ""));
  completion_rate ← lift (get ad_data "completionRate" (VInt 0) ≫= float);
  order_count ← lift (get ad_data "orderCount" (VInt 0) ≫= int);
  ad_id ← lift (get ad_data "id" (VStr ""));
  mret (Ad.Make "okx" (now +:+ "Z") asset fiat price min_amount max_amount
                available_amount standard_trade_type country_code payment_methods
                advertiser_name completion_rate order_count ad_id None None).

(** [for ad in ads: ...]. *)
Fixpoint standardize_page (ads : list value) (country_code trade_type : string)
    (c : BinanceP2P.counters) : M (State W) BinanceP2P.counters :=
  match ads with
  | [] => mret c
  | ad :: ads' =>
      standardized ← standardize_ad ad country_code trade_type;
      let all_ads := BinanceP2P.all_ads c ++ [standardized] in
      let c :=
        if String.eqb trade_type "buy"
        then BinanceP2P.Counters all_ads (BinanceP2P.buy_count c + 1) (BinanceP2P.sell_count c)
        else BinanceP2P.Counters all_ads (BinanceP2P.buy_count c) (BinanceP2P.sell_count c + 1) in
      standardize_page ads' country_code trade_type c
  end.

(** [while page <= 3: ...]. *)
Fixpoint collect_pages (pages_left page : nat) (asset fiat country_code trade_type : string)
    (c : BinanceP2P.counters) : M (State W) BinanceP2P.counters :=
  match pages_left with
  | O => mret c
  | S pages_left' =>
      response ← get_ads asset fiat trade_type page 20;
      if negb (truthy response) then mret c
      else
        data ← lift (get response "data" VNone);
        if negb (truthy data) then mret c
        else
          data ← lift (get response "data" (VDict []));
          orders ← lift (get data "orders" (VList []));
          if negb (truthy orders) then mret c
          else
            ads ← lift (iter orders);
            c ← standardize_page ads country_code trade_type c;
            collect_pages pages_left' (page + 1) asset fiat country_code trade_type c
  end.

(** [for trade_type in ["buy", "sell"]: ...]. *)
Fixpoint collect_sides (sides : list string) (asset fiat country_code : string)
    (c : BinanceP2P.counters) : M (State W) BinanceP2P.counters :=
  match sides with
  | [] => mret c
  | trade_type :: sides' =>
      c ← collect_pages 3 1 asset fiat country_code trade_type c;
      collect_sides sides' asset fiat country_code c
  end.

(** [collect_country_data]. *)
Definition collect_country_data (country_code asset : string) (save_to_csv : bool)
  : M (State W) (list Ad.t) :=
  try_except
    (profile ← lift (get_profile_by_country_code load_profiles country_code);
     let fiat := fiat profile in
     collection_id ← generate_collection_id;
     c ← collect_sides ["buy"; "sell"] asset fiat country_code (BinanceP2P.Counters [] 0 0);
     match save_to_csv, BinanceP2P.all_ads c with
     | true, _ :: _ =>
         '(_, saved) ← save_raw_ads (BinanceP2P.all_ads c) "okx" country_code
                         (Some collection_id);
         _ ← log_collection_run "okx" country_code (name profile) fiat
               (length saved) (BinanceP2P.buy_count c) (BinanceP2P.sell_count c)
               "success" "" (Some collection_id);
         mret saved
     | _, _ => mret (BinanceP2P.all_ads c)
     end)
    is_ValueError
    (fun _ => mret []).

End Scraper.
End OKXP2P.

(** ** scrapers/data_orchestrator.py *)

Module Orchestrator.
Import Py World CountryProfiles.

(** What the orchestrator needs of a platform scraper: its
    [collect_country_data] method, when it has one ([hasattr]). *)
Record Scraper (W : Type) := {
  collect_country_data : option (string -> M (State W) (list Ad.t)) }.
Arguments collect_country_data {W} s.

(** The collaborators [__init__] installs: the exchange-rate collector,
    through the one method that is called on it, and the platform scrapers
    in the order of the dict [self.scrapers]. *)
Record DataCollectionOrchestrator (W : Type) := {
  collect_all_current_rates : M (State W) (list Rate.t);
  scrapers : list (string * Scraper W) }.
Arguments collect_all_current_rates {W} d.
Arguments scrapers {W} d.

Record PlatformStats := {
  ads_collected : nat;
  countries_successful : nat }.

(** The dict [collection_summary]. *)
Record Summary := {
  timestamp : string;
  countries_processed : nat;
  total_ads_collected : nat;
  platform_stats : gmap string PlatformStats;
  errors : list string }.

Section Run.
Context `{Lib} {W : Type} `{Env W}.
Variable self : DataCollectionOrchestrator W.

(** The orchestrator as [__init__] builds it: Binance only. *)
Definition production (collector : ExchangeRates.ExchangeRateCollector)
  : DataCollectionOrchestrator W :=
  {| collect_all_current_rates := ExchangeRates.collect_all_current_rates collector;
     scrapers :=
       [ ("binance",
          {| collect_country_data :=
               Some (fun country_code =>
                       BinanceP2P.collect_country_data country_code "USDT" true) |}) ] |}.

(** [if not countries: countries = [c["country_code"] for c in ...]]. *)
Definition countries_or_all (countries : option (list string)) : list string :=
  match countries with
  | Some (c :: cs) => c :: cs
  | _ => map country_code (list_supported_countries load_profiles)
  end.

(** The body of the [try] of one (platform, country) cell: the
    advertisements the cell collects. *)
Definition cell (scraper : Scraper W) (country_code : string) : M (State W) (list Ad.t) :=
  country_profile ← lift (get_profile_by_country_code load_profiles country_code);
  match collect_country_data scraper with
  | Some collect => collect country_code
  | None => mret []
  end.

(** The local variables of the platform loop. *)
Record tally := Tally {
  platform_ads : nat;
  platform_countries : nat;
  errors_so_far : list string }.

(** [for country_code in countries: try: ... except Exception ...]. *)
Fixpoint collect_countries (platform_name : string) (scraper : Scraper W)
    (countries : list string) (t : tally) : M (State W) tally :=
  match countries with
  | [] => mret t
  | country_code :: countries' =>
      t ← try_except
            (ads ← cell scraper country_code;
             mret (Tally (platform_ads t + length ads)
                         (match ads with
                          | [] => platform_countries t
                          | _ => platform_countries t + 1
                          end)
                         (errors_so_far t)))
            is_Exception
            (fun e =>
               let error_msg :=
                 platform_name +:+ " failed for " +:+ country_code +:+ ": " +:+ exn_msg e in
               mret (Tally (platform_ads t) (platform_countries t)
                           (errors_so_far t ++ [error_msg])));
      collect_countries platform_name scraper countries' t
  end.

(** [for platform_name, scraper in self.scrapers.items(): ...]. *)
Fixpoint collect_platforms (platforms : list (string * Scraper W)) (countries : list string)
    (summary : Summary) : M (State W) Summary :=
  match platforms with
  | [] => mret summary
  | (platform_name, scraper) :: platforms' =>
      t ← collect_countries platform_name scraper countries (Tally 0 0 (errors summary));
      let summary :=
        {| timestamp := timestamp summary;
           countries_processed := countries_processed summary;
           total_ads_collected := total_ads_collected summary + platform_ads t;
           platform_stats :=
             <[platform_name := {| ads_collected := platform_ads t;
                                   countries_successful := platform_countries t |}]>
               (platform_stats summary);
           errors := errors_so_far t |} in
      collect_platforms platforms' countries summary
  end.

(** The first step of [collect_current_snapshot]: the exchange rates,
    and the error entry when their collection raises. *)
Definition collect_rates : M (State W) (list string) :=
  try_except
    (_ ← collect_all_current_rates self; mret [])
    is_Exception
    (fun e => mret ["Exchange rate collection failed: " +:+ exn_msg e]).

(** [collect_current_snapshot]. *)
Definition collect_current_snapshot (countries : option (list string))
  : M (State W) Summary :=
  let countries := countries_or_all countries in
  now ← ask now_isoformat;
  rate_errors ← collect_rates;
  summary ← collect_platforms (scrapers self) countries
              {| timestamp := now; countries_processed := 0; total_ads_collected := 0;
                 platform_stats := ∅; errors := rate_errors |};
  mret {| timestamp := timestamp summary;
          countries_processed := length countries;
          total_ads_collected := total_ads_collected summary;
          platform_stats := platform_stats summary;
          errors := errors summary |}.

(** *** The cells of a run, one after the other *)

(** What a cell did: how many advertisements it collected, or the
    exception it raised. *)
Record outcome := Outcome {
  cell_platform : string;
  cell_country : string;
  cell_result : result nat }.

(** The outcomes of the cells of one platform, run in order from state
    [s], and the state they leave. *)
Fixpoint country_outcomes (platform_name : string) (scraper : Scraper W)
    (countries : list string) (s : State W) : list outcome * State W :=
  match countries with
  | [] => ([], s)
  | country_code :: countries' =>
      let '(r, s') := cell scraper country_code s in
      let o := Outcome platform_name country_code
                       (match r with Ok ads => Ok (length ads) | Raise e => Raise e end) in
      let '(os, s'') := country_outcomes platform_name scraper countries' s' in
      (o :: os, s'')
  end.

(** The same over all platforms. *)
Fixpoint platform_outcomes (platforms : list (string * Scraper W)) (countries : list string)
    (s : State W) : list outcome * State W :=
  match platforms with
  | [] => ([], s)
  | (platform_name, scraper) :: platforms' =>
      let '(os, s') := country_outcomes platform_name scraper countries s in
      let '(os', s'') := platform_outcomes platforms' countries s' in
      (os ++ os', s'')
  end.

(** The error entry of a cell that raised. *)
Definition error_entry (o : outcome) : list string :=
  match cell_result o with
  | Ok _ => []
  | Raise e => [cell_platform o +:+ " failed for " +:+ cell_country o +:+ ": " +:+ exn_msg e]
  end.

(** The advertisements a cell contributed. *)
Definition collected (o : outcome) : nat :=
  match cell_result o with
  | Ok n => n
  | Raise _ => 0
  end.

Definition raised (o : outcome) : bool := negb (is_ok (cell_result o)).

(** The outcomes of the cells of platform [platform_name]. *)
Definition of_platform (platform_name : string) (os : list outcome) : list outcome :=
  List.filter (fun o => String.eqb (cell_platform o) platform_name) os.

Definition total_collected (os : list outcome) : nat :=
  fold_right Nat.add 0%nat (map collected os).

(** The cells that returned at least one advertisement. *)
Definition successful (os : list outcome) : list outcome :=
  List.filter (fun o => (0 <? collected o)%nat) os.

End Run.
End Orchestrator.

(** ** The correlation of price series with crisis events *)

Module Analysis.
Import Py.

(** A numpy float: [None] stands for a value that is not finite (nan or
    an infinity), which is what a division by zero yields there. *)
Definition fnum := option Q.

Definition fdiv (a b : fnum) : fnum :=
  match a, b with
  | Some x, Some y => if Qeq_bool y 0 then None else Some (x / y)%Q
  | _, _ => None
  end.

Definition fsub (a b : fnum) : fnum :=
  match a, b with
  | Some x, Some y => Some (x - y)%Q
  | _, _ => None
  end.

Definition fmul (a b : fnum) : fnum :=
  match a, b with
  | Some x, Some y => Some (x * y)%Q
  | _, _ => None
  end.

(** [x > 0]: false on nan. *)
Definition fpos (a : fnum) : bool :=
  match a with
  | Some x => negb (Qle_bool x 0)
  | None => false
  end.

Definition qsum (xs : list Q) : Q := fold_right Qplus 0%Q xs.

(** [Series.mean()]. *)
Definition mean (xs : list Q) : fnum :=
  match xs with
  | [] => None
  | _ => Some (qsum xs / inject_Z (Z.of_nat (length xs)))%Q
  end.

Section Statistics.
Context `{Lib}.

(** [Series.std()]: the sample standard deviation, nan below two values. *)
Definition std (xs : list Q) : fnum :=
  match xs with
  | [] | [_] => None
  | _ =>
      let n := inject_Z (Z.of_nat (length xs)) in
      let m := (qsum xs / n)%Q in
      Some (fsqrt (qsum (map (fun x => (x - m) * (x - m))%Q xs) / (n - 1))%Q)
  end.

(** A price series: the rows of a historical file, date (a day number)
    and close. *)
Definition series := list (Z * Q).

Definition closes (rows : series) : list Q := map snd rows.

(** [df[(df.Date >= lo) & (df.Date <= hi)]]. *)
Definition between (lo hi : Z) (rows : series) : series :=
  List.filter (fun r => (lo <=? fst r)%Z && (fst r <=? hi)%Z) rows.

Definition before (d : Z) (rows : series) : series :=
  List.filter (fun r => (fst r <? d)%Z) rows.

Definition from (d : Z) (rows : series) : series :=
  List.filter (fun r => (d <=? fst r)%Z) rows.

(** The rows at most 30 days before the event, and the rows from the
    event to 30 days after it: the pre and the post window. *)
Definition pre_window (event_date : Z) (data : series) : series :=
  List.filter (fun r => (event_date - 30 <=? fst r)%Z && (fst r <? event_date)%Z) data.

Definition post_window (event_date : Z) (data : series) : series :=
  List.filter (fun r => (event_date <=? fst r)%Z && (fst r <=? event_date + 30)%Z) data.

(** *** 4_data_analysis/comprehensive_analyzer.py *)

(** What [correlate_with_historical_data] stores for one instrument of
    one event: nothing when the window is empty, the pair of [None]s when
    one side of the event is, the two numbers otherwise. *)
Inductive instrument_analysis :=
| NotSet
| BothNone
| Measured (price_change_pct volatility : fnum).

(** The body of the loop over the instruments. *)
Definition analyze_instrument (event_date : Z) (data : series) : instrument_analysis :=
  let start_date := (event_date - 30)%Z in
  let end_date := (event_date + 30)%Z in
  let period_data := between start_date end_date data in
  match period_data with
  | [] => NotSet
  | _ =>
      let pre_crisis := closes (before event_date period_data) in
      let post_crisis := closes (from event_date period_data) in
      match List.last (map Some pre_crisis) None, List.head post_crisis with
      | Some pre_last, Some post_first =>
          let price_change :=
            fmul (fdiv (fsub (Some post_first) (Some pre_last)) (Some pre_last)) (Some 100%Q) in
          let volatility :=
            fmul (fdiv (std (closes period_data)) (mean (closes period_data))) (Some 100%Q) in
          Measured price_change volatility
      | _, _ => BothNone
      end
  end.

Record CrisisEvent := {
  date : Z;
  country_code : string;
  event_type : string;
  title : string;
  impact_severity : Z }.

(** [correlate_with_historical_data], from the loaded series on: one
    row per event, with the analysis of every instrument. *)
Definition correlate_with_historical_data (crisis_events : list CrisisEvent)
    (historical_data : list (string * series))
  : list (CrisisEvent * list (string * instrument_analysis)) :=
  map (fun event =>
         (event,
          map (fun '(crypto, data) => (crypto, analyze_instrument (date event) data))
              historical_data))
      crisis_events.

(** *** 4_data_analysis/phase3_coordinator.py *)

Record crisis_result := {
  pre_crisis_price : fnum;
  post_crisis_price : fnum;
  price_change_pct : fnum;
  pre_volatility : fnum;
  post_volatility : fnum;
  volatility_change_pct : fnum;
  data_points : nat }.

(** The body of the loop of [analyze_crisis_correlations] for one crisis:
    the row it appends, if any. *)
Definition analyze_crisis (crisis_date : Z) (btc_data : series) : option crisis_result :=
  let start_window := (crisis_date - 30)%Z in
  let end_window := (crisis_date + 30)%Z in
  let window_data := between start_window end_window btc_data in
  if (10 <? length window_data)%nat then
    let pre_crisis := closes (before crisis_date window_data) in
    let post_crisis := closes (from crisis_date window_data) in
    match pre_crisis, post_crisis with
    | _ :: _, _ :: _ =>
        let pre_avg := mean pre_crisis in
        let post_avg := mean post_crisis in
        let change_pct := fmul (fdiv (fsub post_avg pre_avg) pre_avg) (Some 100%Q) in
        let pre_vol := std pre_crisis in
        let post_vol := std post_crisis in
        let vol_change :=
          if fpos pre_vol
          then fmul (fdiv (fsub post_vol pre_vol) pre_vol) (Some 100%Q)
          else Some 0%Q in
        Some {| pre_crisis_price := pre_avg; post_crisis_price := post_avg;
                price_change_pct := change_pct; pre_volatility := pre_vol;
                post_volatility := post_vol; volatility_change_pct := vol_change;
                data_points := length window_data |}
    | _, _ => None
    end
  else None.

End Statistics.
End Analysis.

(** ** The vocabulary of the properties *)

Module Spec.
Import Py World CountryProfiles.

(** The premium of the specification, ((p / r) - b) / b * 100 rounded to
    two decimals, with Python's arithmetic. *)
Definition premium_formula (p r b : number) : result spec_float :=
  implied ← truediv p r;
  difference ← sub implied b;
  ratio ← truediv (NFloat difference) b;
  pct ← mul ratio (NInt 100);
  Ok (round2 pct).

(** Two lookups end the same way: with the same profile, or both with a
    ValueError. *)
Definition same_outcome (a b : result profile) : Prop :=
  match a, b with
  | Ok p, Ok q => p = q
  | Raise e, Raise e' => exn_class e = ValueError /\ exn_class e' = ValueError
  | _, _ => False
  end.

(** A collection-log row whose total is the sum of its two sides. *)
Definition balanced (e : LogEntry.t) : Prop :=
  LogEntry.ads_collected e = (LogEntry.buy_ads e + LogEntry.sell_ads e)%nat.

(** An advertisement as the specification wants it at creation. *)
Definition fresh (ad : Ad.t) : Prop :=
  (Ad.trade_type ad = "BUY" \/ Ad.trade_type ad = "SELL") /\ Ad.premium_pct ad = None.

(** The counters of a collection run agree with its list. *)
Definition counted (c : BinanceP2P.counters) : Prop :=
  length (BinanceP2P.all_ads c) = (BinanceP2P.buy_count c + BinanceP2P.sell_count c)%nat /\
  Forall fresh (BinanceP2P.all_ads c).

Section Stateful.
Context {W : Type}.

(** [m] never changes the log of requested dates. *)
Definition keeps {A} (m : M (State W) A) : Prop :=
  forall s, requested (snd (m s)) = requested s.

(** [m] moreover returns normally. *)
Definition quiet {A} (m : M (State W) A) : Prop :=
  forall s, is_ok (fst (m s)) = true /\ requested (snd (m s)) = requested s.

(** [m] returns normally and adds the dates [l] to the log. *)
Definition appends {A} (l : list string) (m : M (State W) A) : Prop :=
  forall s, is_ok (fst (m s)) = true /\ requested (snd (m s)) = requested s ++ l.

(** From a state in [P], [m] ends in [Q] when it returns and in [R] when
    it raises. *)
Definition triple {A} (P : State W -> Prop) (m : M (State W) A)
    (Q : A -> State W -> Prop) (R : State W -> Prop) : Prop :=
  forall s, P s ->
    match m s with
    | (Ok a, s') => Q a s'
    | (Raise _, s') => R s'
    end.

(** A property of the state that the outside world cannot break. *)
Definition world_blind (P : State W -> Prop) : Prop :=
  forall s w, P s -> P (MkState w (store s) (requested s)).

(** From [s0] on, the collection log has only grown, by balanced rows. *)
Definition grown (s0 s : State W) : Prop :=
  exists rows, collection_log (store s) = collection_log (store s0) ++ rows /\
               Forall balanced rows.

End Stateful.
End Spec.

(** ** A small concrete world, to run the model on *)

Module Demo.
Import Py World CountryProfiles.

Fixpoint lookup {A} (k : string) (table : list (string * A)) : option A :=
  match table with
  | [] => None
  | (k', a) :: rest => if String.eqb k' k then Some a else lookup k rest
  end.

#[export] Instance lib : Lib := {|
  float_of_str := fun s =>
    lookup s [("1050.25", 105025 # 100); ("2900", 2900 # 1); ("100", 100 # 1);
              ("5000", 5000 # 1); ("2500", 2500 # 1); ("0.955", 955 # 1000)]%Q;
  int_of_str := fun s => lookup s [("150", 150); ("7", 7)]%Z;
  float_repr := fun q => pretty (Qnum q) +:+ "/" +:+ pretty (Zpos (Qden q));
  str_of_value := fun v => type_name v;
  scan_number := fun _ => None;
  fsqrt := fun q => (Z.sqrt (Qnum q * 1000000 / Zpos (Qden q)) # 1000)%Q |}.

Definition sudan : profile :=
  Profile "SD" "Sudan" "SDG" ["USDT"] ["MTN"; "Zain"; "Bank Transfer"]
          ["https://xe.com"] ["binance"; "okx"; "paxful"] "2019-01-01"
          "Conflict zone, high mobile money use, USD scarcity".

Definition venezuela : profile :=
  Profile "VE" "Venezuela" "VES" ["USDT"] ["Pago Movil"] ["https://xe.com"]
          ["binance"] "2019-01-01" "Hyperinflation".

Definition nigeria : profile :=
  Profile "NG" "Nigeria" "NGN" ["USDT"] ["Bank Transfer"] ["https://xe.com"]
          ["binance"] "2021-02-01" "Crypto ban".

Definition calendar : list (string * Z) :=
  [ ("2021-10-01", 738064); ("2021-10-31", 738094); ("2021-12-30", 738154);
    ("2021-12-31", 738155); ("2022-04-19", 738264); ("9999-12-30", 3652058);
    ("9999-12-31", 3652059) ]%Z.

Definition raw_ad (price : string) (methods : list string) : value :=
  VDict [ ("adv",
           VDict [ ("asset", VStr "USDT"); ("fiatUnit", VStr "SDG");
                   ("price", VStr price); ("minSingleTransAmount", VStr "100");
                   ("dynamicMaxSingleTransAmount", VStr "5000");
                   ("surplusAmount", VStr "2500");
                   ("tradeMethods",
                    VList (map (fun m => VDict [("tradeMethodName", VStr m)]) methods));
                   ("advNo", VStr "test_001") ]);
          ("advertiser",
           VDict [ ("nickName", VStr "TestUser"); ("monthFinishRate", VStr "0.955");
                   ("monthOrderCount", VInt 150) ]) ].

Definition okx_order : value :=
  VDict [ ("cryptoCurrency", VStr "USDT"); ("fiatCurrency", VStr "SDG");
          ("price", VStr "2900"); ("paymentMethodList", VList [VStr "MTN"]);
          ("merchantName", VStr "Trader"); ("id", VStr "okx_7") ].

(** The world is a clock tick; every call advances it.  Binance serves
    two BUY offers and one SELL offer for SDG on the first page and nothing
    else, is unreachable for VES, and answers NGN with a body that is not a
    dict; OKX serves one order under its third endpoint; the first rate
    source knows the Sudanese pound. *)
#[export] Instance env : Env nat := {|
  load_profiles := [sudan; venezuela; nigeria];
  utcnow_isoformat := fun w => ("2025-07-29T10:00:00", S w);
  now_isoformat := fun w => ("2025-07-29T12:00:00", S w);
  now_stamp := fun w => ("20250729_120000", S w);
  today_str := fun w => ("2025-07-29", S w);
  today_ordinal := fun w => (739461%Z, S w);
  strptime := fun s =>
    match lookup s calendar with
    | Some d => Ok d
    | None => Raise (Exn ValueError ("time data " +:+ s +:+ " does not match format"))
    end;
  strftime := fun d =>
    match List.find (fun kv => (snd kv =? d)%Z) calendar with
    | Some kv => fst kv
    | None => "day " +:+ pretty d
    end;
  rates_get := fun url params w =>
    if String.eqb url "https://api.exchangerate-api.com/v4/latest/USD"
    then (Ok [("SDG", 600 # 1); ("NGN", 1500 # 1)]%Q, S w)
    else (Raise (Exn RequestException "401 Client Error"), S w);
  binance_post := fun asset fiat trade_type page rows timestamp w =>
    if String.eqb fiat "SDG" then
      if (page =? 1)%nat then
        if String.eqb trade_type "BUY"
        then (Ok (VDict [("data", VList [raw_ad "1050.25" ["MTN"; "Bank Transfer"];
                                          raw_ad "2900" []])]), S w)
        else (Ok (VDict [("data", VList [raw_ad "2900" ["Zain"]])]), S w)
      else (Ok (VDict [("data", VList [])]), S w)
    else if String.eqb fiat "VES" then
      (Raise (Exn RequestException "Connection refused"), S w)
    else (Ok (VList [VStr "unexpected"]), S w);
  okx_get := fun url crypto fiat side page limit w =>
    if String.eqb url "https://www.okx.com/v3/c2c/tradingOrders/getOrders" then
      if (page =? 1)%nat && String.eqb side "buy"
      then (Ok (200%Z, VDict [("data", VDict [("orders", VList [okx_order])])]), S w)
      else (Ok (200%Z, VDict [("data", VDict [("orders", VList [])])]), S w)
    else (Ok (404%Z, VNone), S w) |}.

Definition start : State nat := MkState 0 empty_store [].

Definition collector : ExchangeRates.ExchangeRateCollector :=
  {| ExchangeRates.api_key := None |}.

(** An orchestrator whose second platform has no [collect_country_data]. *)
Definition orchestrator : Orchestrator.DataCollectionOrchestrator nat :=
  {| Orchestrator.collect_all_current_rates :=
       ExchangeRates.collect_all_current_rates collector;
     Orchestrator.scrapers :=
       Orchestrator.scrapers (Orchestrator.production collector)
       ++ [("okx", {| Orchestrator.collect_country_data :=
                        Some (fun country_code =>
                                OKXP2P.collect_country_data country_code "USDT" true) |})] |}.

(** A series flat at 100 before day 1000 and flat at 110 from it on. *)
Definition flat_series : Analysis.series :=
  map (fun d => (d, if (d <? 1000)%Z then 100 # 1 else 110 # 1)%Q)
      (map (fun k => 990 + Z.of_nat k)%Z (seq 0 20)).

(** A series that rises by 100 a day across day 1000. *)
Definition rising_series : Analysis.series :=
  [ (998, 100 # 1); (999, 200 # 1); (1000, 300 # 1); (1001, 400 # 1) ]%Z%Q.

End Demo.


(** ** Further vocabulary *)

Module RunSpec.
Import Py World CountryProfiles.

(** The records of a list that are on one side of the market. *)
Definition count_side (side : string) (ads : list Ad.t) : nat :=
  length (List.filter (fun ad => String.eqb (Ad.trade_type ad) side) ads).

(** A record as an adapter builds it: its platform, the country code the
    caller gave, one of the two sides, and no collection id yet. *)
Definition built_by (platform country_code : string) (ad : Ad.t) : Prop :=
  Ad.platform ad = platform /\
  Ad.country_code ad = country_code /\
  (Ad.trade_type ad = "BUY" \/ Ad.trade_type ad = "SELL") /\
  Ad.collection_id ad = None.

(** The counters of a run count the records of its list side by side. *)
Definition tallied (platform country_code : string) (c : BinanceP2P.counters) : Prop :=
  BinanceP2P.buy_count c = count_side "BUY" (BinanceP2P.all_ads c) /\
  BinanceP2P.sell_count c = count_side "SELL" (BinanceP2P.all_ads c) /\
  Forall (built_by platform country_code) (BinanceP2P.all_ads c).

Section Runs.
Context {W : Type} `{Env W}.

(** Files and request log are as in [s0]. *)
Definition same_store (s0 s : State W) : Prop :=
  store s = store s0 /\ requested s = requested s0.

(** What a collection run of [platform] for [country_code], started in
    [s], leaves behind when it ends with [out]. *)
Definition run_outcome (platform country_code : string) (save_to_csv : bool)
    (s : State W) (out : result (list Ad.t) * State W) : Prop :=
  rate_files (store (snd out)) = rate_files (store s) /\
  requested (snd out) = requested s /\
  match fst out with
  | Ok [] => store (snd out) = store s
  | Ok ads =>
      Forall (fun ad => Ad.platform ad = platform /\
                        Ad.country_code ad = country_code /\
                        (Ad.trade_type ad = "BUY" \/ Ad.trade_type ad = "SELL")) ads /\
      if save_to_csv then
        exists p cid today now,
          get_profile_by_country_code load_profiles country_code = Ok p /\
          Forall (fun ad => Ad.collection_id ad = Some cid) ads /\
          raw_files (store (snd out))
          = <[ today +:+ "/" +:+ (platform +:+ "_p2p_" +:+ country_code +:+ "_"
                                  +:+ today +:+ ".csv") := ads ]>
              (raw_files (store s)) /\
          collection_log (store (snd out))
          = collection_log (store s)
            ++ [LogEntry.Make cid now platform country_code (name p) (fiat p)
                  (length ads) (count_side "BUY" ads) (count_side "SELL" ads)
                  "success" ""]
      else
        store (snd out) = store s /\
        Forall (fun ad => Ad.collection_id ad = None) ads
  | Raise e => store (snd out) = store s /\ is_ValueError e = false
  end.

End Runs.

End RunSpec.

(** ** A world without network *)

(** The clock and the country table of [Demo]; every rate source and
    Binance refuse the connection, every OKX endpoint answers 503. *)
Module Offline.
Import Py World.

Definition env : Env nat := {|
  load_profiles := @load_profiles nat Demo.env;
  utcnow_isoformat := @utcnow_isoformat nat Demo.env;
  now_isoformat := @now_isoformat nat Demo.env;
  now_stamp := @now_stamp nat Demo.env;
  today_str := @today_str nat Demo.env;
  today_ordinal := @today_ordinal nat Demo.env;
  strptime := @strptime nat Demo.env;
  strftime := @strftime nat Demo.env;
  rates_get := fun url params w =>
    (Raise (Exn RequestException "Connection refused"), S w);
  binance_post := fun asset fiat trade_type page rows timestamp w =>
    (Raise (Exn RequestException "Connection refused"), S w);
  okx_get := fun url crypto fiat side page limit w => (Ok (503%Z, VNone), S w) |}.

End Offline.

(** The clock and the country table of [Demo]; of the rate sources only
    the archive of fixer answers, and only for the first and the last day of
    October 2021. *)
Module Archive.
Import Py World.

Definition env : Env nat := {|
  load_profiles := @load_profiles nat Demo.env;
  utcnow_isoformat := @utcnow_isoformat nat Demo.env;
  now_isoformat := @now_isoformat nat Demo.env;
  now_stamp := @now_stamp nat Demo.env;
  today_str := @today_str nat Demo.env;
  today_ordinal := @today_ordinal nat Demo.env;
  strptime := @strptime nat Demo.env;
  strftime := @strftime nat Demo.env;
  rates_get := fun url params w =>
    if String.eqb url "http://data.fixer.io/api/2021-10-01"
    then (Ok [("SDG", 440 # 1); ("NGN", 410 # 1)]%Q, S w)
    else if String.eqb url "http://data.fixer.io/api/2021-10-31"
    then (Ok [("NGN", 414 # 1); ("SDG", 437 # 1)]%Q, S w)
    else (Raise (Exn RequestException "Connection refused"), S w);
  binance_post := fun asset fiat trade_type page rows timestamp w =>
    (Raise (Exn RequestException "Connection refused"), S w);
  okx_get := fun url crypto fiat side page limit w => (Ok (503%Z, VNone), S w) |}.

End Archive.

(** ** utils/exchange_rates.py: the days of a crisis period that have a rate *)

Module CrisisRatesSpec.
Import Py World CountryProfiles CSVDataManager ExchangeRates.

Section Collector.
Context `{Lib} {W : Type} `{Env W}.
Variable self : ExchangeRateCollector.

(** The table of rates that the sources give for the day [current_dt]:
    today's comes from the current sources, another day's from the
    historical ones. *)
Definition day_rates (current_dt : Z) : M (State W) (gmap string Q) :=
  today ← ask today_ordinal;
  _ ← note_request (strftime current_dt);
  if decide (current_dt = today) then get_current_rates self "USD"
  else get_historical_rates self (strftime current_dt) "USD".

(** The days of [dates] for which the sources give a rate of [fiat], in
    order and each with that rate, and the state after the last request; a
    day with a rate takes a collection identifier. *)
Fixpoint quoted (fiat : string) (dates : list Z) (s : State W)
  : list (Z * Q) * State W :=
  match dates with
  | [] => ([], s)
  | d :: dates' =>
      match day_rates d s with
      | (Ok rates, s1) =>
          match rates !! fiat with
          | Some rate =>
              let '(rest, s') := quoted fiat dates' (snd (generate_collection_id s1)) in
              ((d, rate) :: rest, s')
          | None => quoted fiat dates' s1
          end
      | (Raise _, s1) => ([], s1)
      end
  end.

(** The record of the day [d] with the rate [rate]. *)
Definition record_of (fiat collection_id : string) (quote : Z * Q) : Rate.t :=
  Rate.Make (strftime (fst quote) +:+ "T12:00:00Z") fiat (snd quote) "api_composite"
            collection_id.

End Collector.
End CrisisRatesSpec.

(** ** utils/csv_data_manager.py: the file selection of [load_raw_ads] *)

Module LoadRawAds.
Import Py.

(** [s.split(sep)] for a separator of one character. *)
Fixpoint split (sep : ascii) (s : string) : list string :=
  match s with
  | EmptyString => [EmptyString]
  | String c s' =>
      if Ascii.eqb c sep then EmptyString :: split sep s'
      else
        match split sep s' with
        | part :: parts => String c part :: parts
        | [] => [String c EmptyString]
        end
  end.

(** [sep in s]. *)
Fixpoint contains (sep : ascii) (s : string) : bool :=
  match s with
  | EmptyString => false
  | String c s' => Ascii.eqb c sep || contains sep s'
  end.

(** A filter argument as a condition: [None] and the empty text are
    false. *)
Definition given (filter : option string) : bool :=
  match filter with
  | Some text => negb (String.eqb text EmptyString)
  | None => false
  end.

(** The stem of the file [save_raw_ads] writes. *)
Definition raw_stem (platform country_code today : string) : string :=
  platform +:+ "_p2p_" +:+ country_code +:+ "_" +:+ today.

(** The body of the loop of [load_raw_ads] over the files, up to the
    reading: whether the file with this stem is read ([true]) or skipped by a
    [continue]. *)
Definition selected (platform country_code : option string) (stem : string) : bool :=
  let parts := split "_" stem in
  if (3 <=? length parts)%nat then
    let file_platform := nth 0 parts EmptyString in
    let file_country := nth 2 parts EmptyString in
    if given platform && negb (String.eqb file_platform (default EmptyString platform))
    then false
    else if given country_code
            && negb (String.eqb file_country (default EmptyString country_code))
    then false
    else true
  else true.

End LoadRawAds.

(** ** scrapers/data_orchestrator.py: the other collections *)

Module Orchestration.
Import Py World CountryProfiles.

(** A value of the dict [collection_summary], and the empty dict. *)
Inductive item :=
| IStr (s : string)
| INat (n : nat)
| IStats (stats : gmap string Orchestrator.PlatformStats)
| IErrors (errors : list string)
| IEmptyDict.

(** [summary.get(key, default)] on the dict [collect_current_snapshot]
    returns: it has the five keys below and no other. *)
Definition summary_get (summary : Orchestrator.Summary) (key : string) (default : item)
  : item :=
  if String.eqb key "timestamp" then IStr (Orchestrator.timestamp summary)
  else if String.eqb key "countries_processed"
  then INat (Orchestrator.countries_processed summary)
  else if String.eqb key "total_ads_collected"
  then INat (Orchestrator.total_ads_collected summary)
  else if String.eqb key "platform_stats" then IStats (Orchestrator.platform_stats summary)
  else if String.eqb key "errors" then IErrors (Orchestrator.errors summary)
  else default.

(** A market-context scraper, through the one method that is called on
    it. *)
Record ContextScraper (W : Type) := {
  collect_crisis_context_data : M (State W) value }.
Arguments collect_crisis_context_data {W} c.

(** The dict [results] of [collect_comprehensive_snapshot]. *)
Record Results := {
  timestamp : string;
  p2p_data : Orchestrator.Summary;
  market_context : gmap string value;
  exchange_rates : item;
  total_ads_collected : item;
  errors : list string }.

(** What [collect_crisis_period_data] records for a platform. *)
Record PlatformResult := {
  ads_collected : nat;
  status : string;
  error : option string }.

(** The dict [crisis_summary]. *)
Record CrisisSummary := {
  country_code : string;
  country_name : string;
  crisis_start : string;
  crisis_end : string;
  platforms_attempted : list string;
  total_historical_ads : nat;
  exchange_rates_collected : nat;
  platform_results : gmap string PlatformResult;
  crisis_errors : list string }.

(** The dict [comprehensive_summary], without its three clock fields. *)
Record ComprehensiveSummary := {
  current_snapshot : option Orchestrator.Summary;
  historical_collections : list CrisisSummary;
  all_ads_collected : nat;
  all_countries_processed : nat;
  all_errors : list string }.

(** The crisis periods [run_comprehensive_collection] asks for. *)
Definition priority_crises : list (string * string * string) :=
  [ ("SD", "2021-10-01", "2022-04-01");
    ("AF", "2021-08-01", "2022-02-01");
    ("VE", "2019-01-01", "2020-12-31");
    ("NG", "2021-02-01", "2021-08-01") ].

Section Run.
Context `{Lib} {W : Type} `{Env W}.

(** The orchestrator with the collaborators these methods use: next to
    the ones of [collect_current_snapshot], the crisis-period method of the
    exchange-rate collector, the [collect_historical_data] method of a
    platform scraper (by platform name, when the scraper has one) and the
    market-context scrapers in the order of their dict. *)
Record Collaborators := {
  base : Orchestrator.DataCollectionOrchestrator W;
  collect_crisis_period_rates : string -> string -> string -> M (State W) (list Rate.t);
  collect_historical_data :
    string -> option (string -> string -> string -> M (State W) (list Ad.t));
  context_scrapers : list (string * ContextScraper W) }.

Variable self : Collaborators.

(** [for api_name, scraper in self.context_scrapers.items(): ...]. *)
Fixpoint collect_context (scrapers : list (string * ContextScraper W)) (results : Results)
  : M (State W) Results :=
  match scrapers with
  | [] => mret results
  | (api_name, scraper) :: scrapers' =>
      results ← try_except
                  (context_data ← collect_crisis_context_data scraper;
                   mret {| timestamp := timestamp results;
                           p2p_data := p2p_data results;
                           market_context :=
                             <[api_name := context_data]> (market_context results);
                           exchange_rates := exchange_rates results;
                           total_ads_collected := total_ads_collected results;
                           errors := errors results |})
                  is_Exception
                  (fun e =>
                     let error_msg :=
                       "Error collecting " +:+ api_name +:+ " context: " +:+ exn_msg e in
                     mret {| timestamp := timestamp results;
                             p2p_data := p2p_data results;
                             market_context := market_context results;
                             exchange_rates := exchange_rates results;
                             total_ads_collected := total_ads_collected results;
                             errors := errors results ++ [error_msg] |});
      collect_context scrapers' results
  end.

(** [collect_comprehensive_snapshot]. *)
Definition collect_comprehensive_snapshot (countries : option (list string))
  : M (State W) Results :=
  now ← ask now_isoformat;
  p2p_results ← Orchestrator.collect_current_snapshot (base self) countries;
  let results :=
    {| timestamp := now;
       p2p_data := p2p_results;
       market_context := ∅;
       exchange_rates := IEmptyDict;
       total_ads_collected := summary_get p2p_results "total_ads" (INat 0);
       errors := [] |} in
  results ← collect_context (context_scrapers self) results;
  mret {| timestamp := timestamp results;
          p2p_data := p2p_data results;
          market_context := market_context results;
          exchange_rates := summary_get p2p_results "exchange_rates" IEmptyDict;
          total_ads_collected := total_ads_collected results;
          errors := errors results |}.

(** [self.scrapers[platform]]. *)
Fixpoint scraper_of (platform : string) (scrapers : list (string * Orchestrator.Scraper W))
  : result (Orchestrator.Scraper W) :=
  match scrapers with
  | [] => Raise (Exn KeyError ("'" +:+ platform +:+ "'"))
  | (name, scraper) :: scrapers' =>
      if String.eqb name platform then Ok scraper else scraper_of platform scrapers'
  end.

(** The body of the [try] for one platform: the advertisements it
    yields. *)
Definition historical_ads (platform country_code crisis_start crisis_end : string)
  : M (State W) (list Ad.t) :=
  scraper ← lift (scraper_of platform (Orchestrator.scrapers (base self)));
  match String.eqb platform "paxful", collect_historical_data self platform with
  | true, Some collect => collect country_code crisis_start crisis_end
  | _, _ =>
      match Orchestrator.collect_country_data scraper with
      | Some collect => collect country_code
      | None => mret []
      end
  end.

(** [crisis_summary] with one more platform result, total and error
    list. *)
Definition with_platform (summary : CrisisSummary) (platform : string)
    (r : PlatformResult) (new_errors : list string) : CrisisSummary :=
  {| country_code := country_code summary;
     country_name := country_name summary;
     crisis_start := crisis_start summary;
     crisis_end := crisis_end summary;
     platforms_attempted := platforms_attempted summary;
     total_historical_ads := total_historical_ads summary + ads_collected r;
     exchange_rates_collected := exchange_rates_collected summary;
     platform_results := <[platform := r]> (platform_results summary);
     crisis_errors := crisis_errors summary ++ new_errors |}.

(** [for platform in platforms: try: ... except Exception ...]. *)
Fixpoint collect_historical (platforms : list string)
    (country_code crisis_start crisis_end : string) (summary : CrisisSummary)
  : M (State W) CrisisSummary :=
  match platforms with
  | [] => mret summary
  | platform :: platforms' =>
      summary ← try_except
                  (ads ← historical_ads platform country_code crisis_start crisis_end;
                   mret (with_platform summary platform
                           {| ads_collected := length ads;
                              status := match ads with [] => "no_data" | _ => "success" end;
                              error := None |} []))
                  is_Exception
                  (fun e =>
                     let error_msg :=
                       "Historical " +:+ platform +:+ " collection failed: " +:+ exn_msg e in
                     mret (with_platform summary platform
                             {| ads_collected := 0; status := "error";
                                error := Some (exn_msg e) |} [error_msg]));
      collect_historical platforms' country_code crisis_start crisis_end summary
  end.

(** [if not platforms: platforms = list(self.scrapers.keys())]. *)
Definition platforms_or_all (platforms : option (list string)) : list string :=
  match platforms with
  | Some (p :: ps) => p :: ps
  | _ => map fst (Orchestrator.scrapers (base self))
  end.

(** [collect_crisis_period_data]. *)
Definition collect_crisis_period_data (country_code crisis_start crisis_end : string)
    (platforms : option (list string)) : M (State W) CrisisSummary :=
  let platforms := platforms_or_all platforms in
  country_profile ← lift (get_profile_by_country_code load_profiles country_code);
  '(collected, rate_errors) ←
    try_except
      (rates ← collect_crisis_period_rates self country_code crisis_start crisis_end;
       mret (length rates, []))
      is_Exception
      (fun e => mret (0%nat, ["Crisis exchange rates failed: " +:+ exn_msg e]));
  collect_historical platforms country_code crisis_start crisis_end
    {| country_code := country_code;
       country_name := name country_profile;
       crisis_start := crisis_start;
       crisis_end := crisis_end;
       platforms_attempted := platforms;
       total_historical_ads := 0;
       exchange_rates_collected := collected;
       platform_results := ∅;
       crisis_errors := rate_errors |}.

(** [for country_code, start_date, end_date in priority_crises: try: ...
    except Exception ...]. *)
Fixpoint collect_crises (crises : list (string * string * string))
    (summary : ComprehensiveSummary) : M (State W) ComprehensiveSummary :=
  match crises with
  | [] => mret summary
  | (country_code, start_date, end_date) :: crises' =>
      summary ← try_except
                  (crisis_results ←
                     collect_crisis_period_data country_code start_date end_date None;
                   mret {| current_snapshot := current_snapshot summary;
                           historical_collections :=
                             historical_collections summary ++ [crisis_results];
                           all_ads_collected :=
                             all_ads_collected summary + total_historical_ads crisis_results;
                           all_countries_processed := all_countries_processed summary;
                           all_errors := all_errors summary |})
                  is_Exception
                  (fun e =>
                     let error_msg :=
                       "Crisis collection " +:+ country_code +:+ " failed: " +:+ exn_msg e in
                     mret {| current_snapshot := current_snapshot summary;
                             historical_collections := historical_collections summary;
                             all_ads_collected := all_ads_collected summary;
                             all_countries_processed := all_countries_processed summary;
                             all_errors := all_errors summary ++ [error_msg] |});
      collect_crises crises' summary
  end.

(** [run_comprehensive_collection]; the clock is read at its start and at
    its end. *)
Definition run_comprehensive_collection (include_historical : bool)
  : M (State W) ComprehensiveSummary :=
  _ ← ask now_isoformat;
  summary ← try_except
              (snapshot_results ← Orchestrator.collect_current_snapshot (base self) None;
               mret {| current_snapshot := Some snapshot_results;
                       historical_collections := [];
                       all_ads_collected :=
                         0 + Orchestrator.total_ads_collected snapshot_results;
                       all_countries_processed := 0;
                       all_errors := [] |})
              is_Exception
              (fun e =>
                 mret {| current_snapshot := None;
                         historical_collections := [];
                         all_ads_collected := 0;
                         all_countries_processed := 0;
                         all_errors := ["Current snapshot failed: " +:+ exn_msg e] |});
  summary ← (if include_historical then collect_crises priority_crises summary
             else mret summary);
  _ ← ask now_isoformat;
  mret {| current_snapshot := current_snapshot summary;
          historical_collections := historical_collections summary;
          all_ads_collected := all_ads_collected summary;
          all_countries_processed := length (list_supported_countries load_profiles);
          all_errors := all_errors summary |}.

End Run.

Arguments Collaborators W : clear implicits.

End Orchestration.

(** The vocabulary of the properties of these collections. *)
Module OrchestrationSpec.
Import Py World CountryProfiles Orchestration.

(** The platform results of a run, written one after the other into the
    dict: a later result for the same platform replaces the earlier one. *)
Definition record_all (results : gmap string PlatformResult)
    (entries : list (string * PlatformResult)) : gmap string PlatformResult :=
  foldl (fun m entry => <[fst entry := snd entry]> m) results entries.

(** The results that report an error. *)
Definition failed (rs : list PlatformResult) : list PlatformResult :=
  List.filter (fun r => String.eqb (status r) "error") rs.

Section Run.
Context `{Lib} {W : Type} `{Env W}.

(** What [collect_crisis_period_data] may record for a platform: some
    advertisements, none, or an error; and for a platform that is not
    installed the error is the KeyError of the lookup. *)
Definition recorded (self : Collaborators W) (platform : string) (r : PlatformResult)
  : Prop :=
  ((status r = "success" /\ (0 < ads_collected r)%nat /\ error r = None) \/
   (status r = "no_data" /\ ads_collected r = 0%nat /\ error r = None) \/
   (status r = "error" /\ ads_collected r = 0%nat /\ is_Some (error r))) /\
  (is_ok (scraper_of platform (Orchestrator.scrapers (base self))) = false ->
   r = {| ads_collected := 0; status := "error";
          error := Some ("'" +:+ platform +:+ "'") |}).

(** The country codes of the table know [country_code]. *)
Definition known (country_code : string) : bool :=
  is_ok (get_profile_by_country_code load_profiles country_code).

End Run.
End OrchestrationSpec.

(** The orchestrator of [Demo] with the other collaborators: no scraper
    has a historical method; the first market-context scraper answers, the
    second fails. *)
Module DemoOrchestration.
Import Py World Orchestration Demo.

Definition collaborators : Collaborators nat :=
  {| base := Demo.orchestrator;
     collect_crisis_period_rates :=
       ExchangeRates.collect_crisis_period_rates Demo.collector;
     collect_historical_data := fun _ => None;
     context_scrapers :=
       [ ("coingecko", {| collect_crisis_context_data := mret (VDict []) |});
         ("cryptocompare",
          {| collect_crisis_context_data :=
               raise (Exn RequestException "429 Too Many Requests") |}) ] |}.

End DemoOrchestration.

(** ** 4_data_analysis/comprehensive_analyzer.py: the market pattern *)

Module MarketStructure.
Import Py.

(** [stats["sell_ads"] / stats["total_ads"] if stats["total_ads"] > 0
    else 0]. *)
Definition sell_ratio (sell_ads total_ads : nat) : Q :=
  if (0 <? total_ads)%nat
  then (inject_Z (Z.of_nat sell_ads) / inject_Z (Z.of_nat total_ads))%Q
  else 0%Q.

(** [a > b] on floats. *)
Definition fgt (a b : Q) : bool := negb (Qle_bool a b).

(** [a < b] on floats. *)
Definition flt (a b : Q) : bool := negb (Qle_bool b a).

(** The market pattern analysis of [analyze_market_structure]: the
    values of "market_pattern" and "crisis_indicator". *)
Definition market_pattern (sell_ratio : Q) : string * string :=
  if fgt sell_ratio (8 # 10) then ("heavy_sell_pressure", "high")
  else if fgt sell_ratio (6 # 10) then ("moderate_sell_pressure", "medium")
  else if flt sell_ratio (3 # 10) then ("buy_pressure", "low")
  else ("balanced", "low").

End MarketStructure.

(** ** scrapers/binance_p2p.py: the other methods *)

Module BinanceRest.
Import Py World CountryProfiles CSVDataManager.

(** [len(v)]. *)
Definition len (v : value) : result nat :=
  match v with
  | VList l => Ok (length l)
  | VDict kvs => Ok (length kvs)
  | VStr s => Ok (String.length s)
  | _ => Raise (Exn TypeError ("object of type " +:+ type_name v +:+ " has no len()"))
  end.

(** [v[0]] for a [v] that passed [if v] and [len(v)]: a list or a str
    that is not empty gives its first item, a dict of JSON has no key 0. *)
Definition item0 (v : value) : result value :=
  match v with
  | VList (x :: _) => Ok x
  | VStr (String c _) => Ok (VStr (String c EmptyString))
  | VDict _ => Raise (Exn KeyError "0")
  | _ => Raise (Exn TypeError (type_name v +:+ " object is not subscriptable"))
  end.

Section Scraper.
Context `{Lib} {W : Type} `{Env W}.

(** [collect_all_countries]: the loop over the countries that are left,
    [all_data] being what the earlier ones gave. *)
Fixpoint collect_countries (countries : list profile) (all_data : list Ad.t)
  : M (State W) (list Ad.t) :=
  match countries with
  | [] => mret all_data
  | country :: countries' =>
      ads ← BinanceP2P.collect_country_data (country_code country) "USDT" true;
      collect_countries countries' (all_data ++ ads)
  end.

Definition collect_all_countries : M (State W) (list Ad.t) :=
  collect_countries (list_supported_countries load_profiles) [].

(** The timestamps [test_historical_capability] tries. *)
Definition test_timestamps : list (option string) :=
  [ Some "2021-02-05T00:00:00Z"; Some "1612483200000"; Some "2021-02-05"; None ].

(** The body of its loop for one timestamp. *)
Definition probe (fiat : string) (timestamp : option string) : M (State W) unit :=
  response ← BinanceP2P.get_ads "USDT" fiat "SELL" 1 20 timestamp;
  if truthy response then
    data ← lift (get response "data" VNone);
    if truthy data then
      let ads := data in
      _ ← lift (len ads);
      if truthy ads && LoadRawAds.given timestamp then
        first ← lift (item0 ads);
        sample_ad ← lift (get first "adv" (VDict []));
        _ ← lift (get sample_ad "price" (VStr "N/A"));
        mret tt
      else mret tt
    else mret tt
  else mret tt.

Fixpoint probe_all (fiat : string) (timestamps : list (option string))
  : M (State W) unit :=
  match timestamps with
  | [] => mret tt
  | timestamp :: timestamps' =>
      _ ← probe fiat timestamp;
      probe_all fiat timestamps'
  end.

(** [test_historical_capability]. *)
Definition test_historical_capability (country_code : string) : M (State W) bool :=
  try_except
    (profile ← lift (get_profile_by_country_code load_profiles country_code);
     _ ← probe_all (fiat profile) test_timestamps;
     mret false)
    is_Exception
    (fun _ => mret false).

End Scraper.
End BinanceRest.

(** ** crypto_analysis/analysis/crisis_timeline.py *)

Module CrisisTimeline.
Import Py.

(** The dataclass [CrisisEvent]. *)
Record CrisisEvent := {
  date : string;
  country_code : string;
  event_type : string;
  title : string;
  description : string;
  impact_severity : Z;
  expected_crypto_impact : string;
  data_collection_priority : Z;
  sources : list string }.

(** [sorted(l, key=...)], [lt a b] being [key(a) < key(b)]: the sort is
    stable, so its result is the one of inserting each item, from the last to
    the first, in front of the first item that is not smaller. *)
Fixpoint insert {A} (lt : A -> A -> bool) (x : A) (l : list A) : list A :=
  match l with
  | [] => [x]
  | y :: l' => if lt y x then y :: insert lt x l' else x :: y :: l'
  end.

Definition sorted {A} (lt : A -> A -> bool) (l : list A) : list A :=
  fold_right (insert lt) [] l.

(** [sorted(l, key=..., reverse=True)]: the list is reversed, sorted and
    reversed again, which keeps items of equal key in their order. *)
Definition sorted_reverse {A} (lt : A -> A -> bool) (l : list A) : list A :=
  rev (sorted lt (rev l)).

(** [a.date < b.date] on texts. *)
Definition date_lt (a b : CrisisEvent) : bool := String.ltb (date a) (date b).

(** [(a.priority, a.date) < (b.priority, b.date)] on tuples. *)
Definition priority_lt (a b : CrisisEvent) : bool :=
  (data_collection_priority a <? data_collection_priority b)%Z
  || ((data_collection_priority a =? data_collection_priority b)%Z
      && String.ltb (date a) (date b)).

(** [a] may stand before [b] in a list sorted by [lt]: [b] is not
    smaller. *)
Definition ordered {A} (lt : A -> A -> bool) (a b : A) : Prop := lt b a = false.

Section Manager.
(** [self.crisis_events]. *)
Variable crisis_events : list CrisisEvent.

(** [get_events_by_country]. *)
Definition get_events_by_country (country : string) : list CrisisEvent :=
  let country_events :=
    List.filter (fun e => String.eqb (country_code e) country) crisis_events in
  sorted date_lt country_events.

(** [get_priority_events]. *)
Definition get_priority_events (min_priority : Z) : list CrisisEvent :=
  let priority_events :=
    List.filter (fun e => (min_priority <=? data_collection_priority e)%Z) crisis_events in
  sorted_reverse priority_lt priority_events.

(** [get_events_by_type]. *)
Definition get_events_by_type (type : string) : list CrisisEvent :=
  List.filter (fun e => String.eqb (event_type e) type) crisis_events.

(** [generate_country_timelines]: the events written to the file of each
    country, by country code. *)
Definition generate_country_timelines : gmap string (list CrisisEvent) :=
  fold_right (fun e files =>
                <[country_code e := get_events_by_country (country_code e)]> files)
             ∅ crisis_events.

End Manager.
End CrisisTimeline.

(** ** Numbers of the analysis, up to their value *)

Module AnalysisSpec.
Import Analysis.

(** Two numpy floats are the same number (or both are not finite). *)
Definition feq (a b : fnum) : Prop :=
  match a, b with
  | Some x, Some y => (x == y)%Q
  | None, None => True
  | _, _ => False
  end.

End AnalysisSpec.
(** * Properties *)

(** ** Numbers and rounding *)

Module PyFacts.
Import Py.

Lemma round_half_even_near (x : Q) :
  (Qabs (inject_Z (round_half_even x) - x) <= 1 # 2)%Q.
Proof.
  unfold round_half_even.
  pose proof (Qfloor_le x) as Hlo.
  pose proof (Qlt_floor x) as Hhi.
  rewrite inject_Z_plus in Hhi.
  set (f := Qfloor x) in *. clearbody f.
  apply Qabs_case; intros _;
    destruct (x - inject_Z f ?= 1 # 2)%Q eqn:Hc;
    try (destruct (Z.even f));
    rewrite ?inject_Z_plus;
    first [ apply Qeq_alt in Hc | apply Qlt_alt in Hc | apply Qgt_alt in Hc ];
    change (inject_Z 1) with 1%Q in *; lra.
Qed.

(** [round(x, 2)] of a finite float is the float nearest to a whole number
    of hundredths that is at most half a hundredth away from [x]. *)
Lemma round2_near (s : bool) (m : positive) (e : Z) :
  exists n : Z,
    round2 (S754_finite s m e) = hundredths s n /\
    (Qabs ((n # 100) - magnitude m e) <= 1 # 200)%Q.
Proof.
  exists (round_half_even (magnitude m e * 100)). split; [ reflexivity | ].
  pose proof (round_half_even_near (magnitude m e * 100)) as H.
  set (n := round_half_even (magnitude m e * 100)) in *. clearbody n.
  assert (E : (n # 100 == inject_Z n * (1 # 100))%Q).
  { unfold Qeq; cbn. lia. }
  rewrite E. clear E.
  apply Qabs_Qle_condition in H. apply Qabs_Qle_condition.
  destruct H as [H1 H2]. split; lra.
Qed.

Lemma finite_or_raise (msg : string) (x : spec_float) (e : exn) :
  finite_or msg x = Raise e -> exn_class e = OverflowError.
Proof. destruct x; cbn; intros [= <-]; reflexivity. Qed.

Lemma as_double_raise (a : number) (e : exn) :
  as_double a = Raise e -> exn_class e = OverflowError.
Proof. destruct a; cbn; [ apply finite_or_raise | discriminate ]. Qed.

(** A division raises ZeroDivisionError or OverflowError, nothing else. *)
Lemma truediv_raise (a b : number) (e : exn) :
  truediv a b = Raise e ->
  exn_class e = ZeroDivisionError \/ exn_class e = OverflowError.
Proof.
  assert (G : forall x y,
             bind (as_double x) (fun x' =>
             bind (as_double y) (fun y' =>
               if is_zero y'
               then Raise (Exn ZeroDivisionError "float division by zero")
               else Ok (SFdiv prec emax x' y'))) = Raise e ->
             exn_class e = ZeroDivisionError \/ exn_class e = OverflowError).
  { intros x y. destruct (as_double x) as [ x' | e1 ] eqn:Ex; cbn.
    - destruct (as_double y) as [ y' | e2 ] eqn:Ey; cbn.
      + destruct (is_zero y'); intros [= <-]; now left.
      + intros [= <-]. right. eapply as_double_raise, Ey.
    - intros [= <-]. right. eapply as_double_raise, Ex. }
  destruct a as [ x | x ], b as [ y | y ]; try apply G.
  cbn. destruct y, x; try (intros [= <-]; now left); try discriminate;
    intros Hf; right; eapply finite_or_raise, Hf.
Qed.

Lemma sub_raise (x : spec_float) (b : number) (e : exn) :
  sub x b = Raise e -> exn_class e = OverflowError.
Proof.
  unfold sub. destruct (as_double b) eqn:Eb; cbn; [ discriminate | ].
  intros [= <-]. eapply as_double_raise, Eb.
Qed.

Lemma mul_raise (x : spec_float) (b : number) (e : exn) :
  mul x b = Raise e -> exn_class e = OverflowError.
Proof.
  unfold mul. destruct (as_double b) eqn:Eb; cbn; [ discriminate | ].
  intros [= <-]. eapply as_double_raise, Eb.
Qed.

(** Dividing a float by a number equal to zero raises ZeroDivisionError. *)
Lemma truediv_zero (x : spec_float) (b : number) :
  eq_zero b = true ->
  exists e, truediv (NFloat x) b = Raise e /\ exn_class e = ZeroDivisionError.
Proof.
  destruct b as [ y | y ]; cbn.
  - intros Hy. apply Z.eqb_eq in Hy. subst y. cbn. eexists. split; reflexivity.
  - intros ->. eexists. split; reflexivity.
Qed.

(** On floats the operations raise nothing but the division by zero. *)
Lemma truediv_float (x y : spec_float) :
  truediv (NFloat x) (NFloat y)
  = if is_zero y then Raise (Exn ZeroDivisionError "float division by zero")
    else Ok (SFdiv prec emax x y).
Proof. reflexivity. Qed.

Lemma as_double_hundred : as_double (NInt 100) = Ok hundred.
Proof. vm_compute. reflexivity. Qed.

End PyFacts.

(** ** Premium calculation *)

Module ExchangeRatesFacts.
Import Py PyFacts ExchangeRates Spec.

Lemma calculate_premium_zero_rate (p r b : number) :
  eq_zero r = true -> calculate_premium p r b = Ok (S754_zero false).
Proof. intros Hr. unfold calculate_premium. now rewrite Hr. Qed.

Lemma calculate_premium_formula (p r b : number) :
  eq_zero r = false -> calculate_premium p r b = premium_formula p r b.
Proof. intros Hr. unfold calculate_premium. now rewrite Hr. Qed.

Lemma premium_formula_raise (p r b : number) (e : exn) :
  premium_formula p r b = Raise e ->
  exn_class e = ZeroDivisionError \/ exn_class e = OverflowError.
Proof.
  unfold premium_formula, mbind, result_bind.
  destruct (truediv p r) as [ x | e1 ] eqn:E1; cbn [bind].
  2: { intros [= <-]. eapply truediv_raise, E1. }
  destruct (sub x b) as [ d | e2 ] eqn:E2; cbn [bind].
  2: { intros [= <-]. right. eapply sub_raise, E2. }
  destruct (truediv (NFloat d) b) as [ q | e3 ] eqn:E3; cbn [bind].
  2: { intros [= <-]. eapply truediv_raise, E3. }
  destruct (mul q (NInt 100)) as [ z | e4 ] eqn:E4; cbn [bind].
  2: { intros [= <-]. right. eapply mul_raise, E4. }
  discriminate.
Qed.

Lemma premium_formula_zero_base (p r b : number) (x : spec_float) :
  truediv p r = Ok x -> eq_zero b = true ->
  exists e, premium_formula p r b = Raise e /\ exn_class e = ZeroDivisionError.
Proof.
  intros Hx Hb. unfold premium_formula, mbind, result_bind. rewrite Hx. cbn [bind].
  assert (Hs : exists d, sub x b = Ok d).
  { destruct b as [ y | y ]; cbn in *.
    - apply Z.eqb_eq in Hb. subst y. eexists. reflexivity.
    - eexists. reflexivity. }
  destruct Hs as [d ->]. cbn [bind].
  destruct (truediv_zero d b Hb) as (e & -> & He). cbn [bind]. eauto.
Qed.

Lemma premium_formula_float (x y z : spec_float) :
  is_zero y = false -> is_zero z = false ->
  premium_formula (NFloat x) (NFloat y) (NFloat z)
  = Ok (round2 (SFmul prec emax
                  (SFdiv prec emax (SFsub prec emax (SFdiv prec emax x y) z) z)
                  hundred)).
Proof.
  intros Hy Hz. unfold premium_formula, mbind, result_bind.
  rewrite truediv_float, Hy. cbn [bind]. cbn [sub as_double bind].
  rewrite truediv_float, Hz. cbn [bind]. unfold mul. rewrite as_double_hundred.
  reflexivity.
Qed.

Lemma premium_formula_rounded (p r b : number) (v : spec_float) :
  premium_formula p r b = Ok v ->
  exists z, v = round2 z /\
    match z with
    | S754_finite s m e =>
        exists n : Z, v = hundredths s n /\
                      (Qabs ((n # 100) - magnitude m e) <= 1 # 200)%Q
    | _ => v = z
    end.
Proof.
  unfold premium_formula, mbind, result_bind.
  destruct (truediv p r) as [ x | ]; cbn [bind]; [ | discriminate ].
  destruct (sub x b) as [ d | ]; cbn [bind]; [ | discriminate ].
  destruct (truediv (NFloat d) b) as [ q | ]; cbn [bind]; [ | discriminate ].
  destruct (mul q (NInt 100)) as [ z | ]; cbn [bind]; [ | discriminate ].
  intros [= <-]. exists z. split; [ reflexivity | ].
  destruct z as [ s | s | | s m e ]; try reflexivity.
  apply round2_near.
Qed.

(** C1, as stated, fails: the worked example evaluates to 383.33, which
    is 100 away from the 283.33 of the specification; and with a base value
    of zero (and a non-zero rate) the call raises ZeroDivisionError instead
    of returning a number. *)
Lemma calculate_premium_counterexample :
  calculate_premium (NInt 2900) (NInt 600) (NFloat (literal 1 1))
  = Ok (literal 38333 100) /\
  ~ (Qabs (to_Q (literal 38333 100) - (28333 # 100)) <= 1 # 100)%Q /\
  calculate_premium (NInt 2900) (NInt 600) (NFloat (literal 0 1))
  = Raise (Exn ZeroDivisionError "float division by zero").
Proof.
  split; [ vm_compute; reflexivity | split; [ | vm_compute; reflexivity ] ].
  intros H. vm_compute in H. apply H. reflexivity.
Qed.

(** C1 (amended): a rate equal to zero gives 0.0 whatever the other
    arguments are.  For any other rate the call evaluates
    ((p / r) - b) / b * 100 step by step in float arithmetic and rounds the
    product to two decimals: it raises when the base value equals zero
    (ZeroDivisionError) or when an int is too large for a float
    (OverflowError) and nothing else; on floats with a non-zero base value
    it always returns; a finite result is the float nearest to a whole
    number of hundredths at most half a hundredth away from the product.
    The worked example [calculate_premium(2900, 600, 1.0)] is 383.33. *)
Theorem calculate_premium_spec (p r b : number) :
  (eq_zero r = true -> calculate_premium p r b = Ok (S754_zero false)) /\
  (eq_zero r = false -> calculate_premium p r b = premium_formula p r b) /\
  (forall e, calculate_premium p r b = Raise e ->
     exn_class e = ZeroDivisionError \/ exn_class e = OverflowError) /\
  (eq_zero r = false -> eq_zero b = true ->
   forall x, truediv p r = Ok x ->
     exists e, calculate_premium p r b = Raise e /\ exn_class e = ZeroDivisionError) /\
  (forall x y z, p = NFloat x -> r = NFloat y -> b = NFloat z ->
     is_zero y = false -> is_zero z = false ->
     calculate_premium p r b
     = Ok (round2 (SFmul prec emax
                     (SFdiv prec emax (SFsub prec emax (SFdiv prec emax x y) z) z)
                     hundred))) /\
  (eq_zero r = false -> forall v, calculate_premium p r b = Ok v ->
     exists z, v = round2 z /\
       match z with
       | S754_finite s m e =>
           exists n : Z, v = hundredths s n /\
                         (Qabs ((n # 100) - magnitude m e) <= 1 # 200)%Q
       | _ => v = z
       end) /\
  calculate_premium (NInt 2900) (NInt 600) (NFloat (literal 1 1))
  = Ok (literal 38333 100).
Proof.
  repeat apply conj.
  - apply calculate_premium_zero_rate.
  - apply calculate_premium_formula.
  - intros e. destruct (eq_zero r) eqn:Hr.
    + rewrite calculate_premium_zero_rate by assumption. discriminate.
    + rewrite calculate_premium_formula by assumption. apply premium_formula_raise.
  - intros Hr Hb x Hx. rewrite calculate_premium_formula by assumption.
    eapply premium_formula_zero_base; eassumption.
  - intros x y z -> -> -> Hy Hz.
    rewrite calculate_premium_formula by assumption.
    now apply premium_formula_float.
  - intros Hr v. rewrite calculate_premium_formula by assumption.
    apply premium_formula_rounded.
  - vm_compute. reflexivity.
Qed.

Lemma calculate_premium_spec_witness :
  calculate_premium (NInt 0) (NFloat (literal 0 1)) (NInt 1) = Ok (S754_zero false) /\
  calculate_premium (NFloat (literal 1050 1)) (NFloat (literal 890 1)) (NFloat (literal 1 1))
  = Ok (literal 1798 100) /\
  (exists e, calculate_premium (NInt 1050) (NInt 890) (NInt 0) = Raise e /\
             exn_class e = ZeroDivisionError).
Proof.
  split; [ | split ].
  - apply (proj1 (calculate_premium_spec (NInt 0) (NFloat (literal 0 1)) (NInt 1))).
    reflexivity.
  - pose proof (calculate_premium_spec (NFloat (literal 1050 1)) (NFloat (literal 890 1))
                  (NFloat (literal 1 1))) as (_ & _ & _ & _ & Hf & _).
    rewrite (Hf _ _ _ eq_refl eq_refl eq_refl eq_refl eq_refl).
    vm_compute. reflexivity.
  - pose proof (calculate_premium_spec (NInt 1050) (NInt 890) (NInt 0))
      as (_ & _ & _ & Hz & _).
    apply (Hz eq_refl eq_refl (literal 1050 890)). vm_compute. reflexivity.
Defined.

(** The two-decimal rounding acts on the float that the arithmetic
    produced, not on the exact quotient: 803 / 800 is 0.375 % above par and
    20001 / 20000 is 0.005 % above, but the float products lie below 0.375
    and above 0.005. *)
Example calculate_premium_float_rounding :
  calculate_premium (NInt 803) (NInt 800) (NFloat (literal 1 1)) = Ok (literal 37 100) /\
  calculate_premium (NInt 20001) (NInt 20000) (NInt 1) = Ok (literal 1 100) /\
  calculate_premium (NInt 7) (NInt 20000) (NInt 1) = Ok (literal (-9997) 100).
Proof. repeat split; vm_compute; reflexivity. Qed.

(** An int too large for a float is refused. *)
Example calculate_premium_overflow :
  calculate_premium (NInt (10 ^ 400)) (NInt 1) (NFloat (literal 1 1))
  = Raise (Exn OverflowError "integer division result too large for a float") /\
  calculate_premium (NInt (10 ^ 400)) (NFloat (literal 1 1)) (NFloat (literal 1 1))
  = Raise (Exn OverflowError "int too large to convert to float").
Proof. split; vm_compute; reflexivity. Qed.

End ExchangeRatesFacts.
(** ** Country profile lookup *)

Module CountryProfilesFacts.
Import Py CountryProfiles Spec.

Lemma find_first {A} (f : A -> bool) (l : list A) (x : A) :
  List.find f l = Some x ->
  exists l1 l2, l = l1 ++ x :: l2 /\ f x = true /\ Forall (fun y => f y = false) l1.
Proof.
  induction l as [ | a l IH ]; cbn; [ discriminate | ].
  destruct (f a) eqn:Ea.
  - intros [= <-]. exists [], l. repeat split; auto.
  - intros H. destruct (IH H) as (l1 & l2 & -> & Hx & Hl1).
    exists (a :: l1), l2. repeat split; auto.
Qed.

Lemma find_none {A} (f : A -> bool) (l : list A) :
  List.find f l = None -> Forall (fun y => f y = false) l.
Proof.
  induction l as [ | a l IH ]; cbn; [ constructor | ].
  destruct (f a) eqn:Ea; [ discriminate | ]. intros H. constructor; auto.
Qed.

Lemma by_code_same_key (profiles : list profile) (s s' : string) :
  upper (strip s) = upper (strip s') ->
  same_outcome (get_profile_by_country_code profiles s)
               (get_profile_by_country_code profiles s').
Proof.
  intros E. unfold get_profile_by_country_code. rewrite E.
  destruct (List.find _ profiles); cbn; auto.
Qed.

Lemma by_name_same_key (profiles : list profile) (s s' : string) :
  lower (strip s) = lower (strip s') ->
  same_outcome (get_profile_by_country_name profiles s)
               (get_profile_by_country_name profiles s').
Proof.
  intros E. unfold get_profile_by_country_name. rewrite E.
  destruct (List.find _ profiles); cbn; auto.
Qed.

(** C8: lookup by code returns the first profile of the table whose code
    equals the query once the query is stripped and both are upper-cased, and
    raises ValueError exactly when the table has no such profile (it never
    makes a profile up); lookup by name does the same with lower-casing; so
    queries that agree after stripping and case folding end the same way, in
    particular "sd", "SD" and " Sd ".  Stripping and case folding are those
    of [str.strip], [str.upper] and [str.lower] on every character below
    256. *)
Theorem profile_lookup_spec (profiles : list profile) (s : string) :
  match get_profile_by_country_code profiles s with
  | Ok p =>
      exists before after,
        profiles = before ++ p :: after /\
        upper (country_code p) = upper (strip s) /\
        Forall (fun q => upper (country_code q) <> upper (strip s)) before
  | Raise e =>
      exn_class e = ValueError /\
      Forall (fun q => upper (country_code q) <> upper (strip s)) profiles
  end /\
  match get_profile_by_country_name profiles s with
  | Ok p =>
      exists before after,
        profiles = before ++ p :: after /\
        lower (name p) = lower (strip s) /\
        Forall (fun q => lower (name q) <> lower (strip s)) before
  | Raise e =>
      exn_class e = ValueError /\
      Forall (fun q => lower (name q) <> lower (strip s)) profiles
  end /\
  (forall s', upper (strip s) = upper (strip s') ->
     same_outcome (get_profile_by_country_code profiles s)
                  (get_profile_by_country_code profiles s')) /\
  (forall s', lower (strip s) = lower (strip s') ->
     same_outcome (get_profile_by_country_name profiles s)
                  (get_profile_by_country_name profiles s')) /\
  same_outcome (get_profile_by_country_code profiles "sd")
               (get_profile_by_country_code profiles "SD") /\
  same_outcome (get_profile_by_country_code profiles "SD")
               (get_profile_by_country_code profiles " Sd ").
Proof.
  repeat split.
  - unfold get_profile_by_country_code.
    destruct (List.find _ profiles) as [ p | ] eqn:F.
    + apply find_first in F. destruct F as (l1 & l2 & -> & Hp & Hl1).
      exists l1, l2. split; [ reflexivity | split ].
      * now apply bool_decide_eq_true in Hp.
      * eapply List.Forall_impl; [ | exact Hl1 ]. cbn. intros q Hq.
        now apply bool_decide_eq_false in Hq.
    + split; [ reflexivity | ]. apply find_none in F.
      eapply List.Forall_impl; [ | exact F ]. cbn. intros q Hq.
      now apply bool_decide_eq_false in Hq.
  - unfold get_profile_by_country_name.
    destruct (List.find _ profiles) as [ p | ] eqn:F.
    + apply find_first in F. destruct F as (l1 & l2 & -> & Hp & Hl1).
      exists l1, l2. split; [ reflexivity | split ].
      * now apply String.eqb_eq in Hp.
      * eapply List.Forall_impl; [ | exact Hl1 ]. cbn. intros q Hq.
        now apply String.eqb_neq in Hq.
    + split; [ reflexivity | ]. apply find_none in F.
      eapply List.Forall_impl; [ | exact F ]. cbn. intros q Hq.
      now apply String.eqb_neq in Hq.
  - intros s'. apply by_code_same_key.
  - intros s'. apply by_name_same_key.
  - apply by_code_same_key. reflexivity.
  - apply by_code_same_key. reflexivity.
Qed.

Import World Demo.

(** The lookup theorem at work on a table of three countries: a code and a
    name that are found, whatever the case and the surrounding white space
    (here a no-break space as well), and one that is not. *)
Lemma profile_lookup_spec_witness :
  get_profile_by_country_code load_profiles "sd" = Ok sudan /\
  same_outcome (get_profile_by_country_code load_profiles "sd")
               (get_profile_by_country_code load_profiles
                  (" SD " +:+ String (ascii_of_nat 160) "")) /\
  get_profile_by_country_name load_profiles "sudan" = Ok sudan /\
  get_profile_by_country_name load_profiles "  SUDAN " = Ok sudan /\
  same_outcome (get_profile_by_country_name load_profiles "sudan")
               (get_profile_by_country_name load_profiles "  SUDAN ") /\
  (exists e, get_profile_by_country_name load_profiles "sd" = Raise e /\
             exn_class e = ValueError).
Proof.
  pose proof (profile_lookup_spec load_profiles "sd") as (_ & Hr & Hc & _).
  pose proof (profile_lookup_spec load_profiles "sudan") as (_ & _ & _ & Hn & _).
  split; [ reflexivity | ].
  split; [ apply Hc; reflexivity | ].
  split; [ reflexivity | ].
  split; [ reflexivity | ].
  split; [ apply Hn; reflexivity | ].
  destruct (get_profile_by_country_name load_profiles "sd") as [ p | e ] eqn:E;
    [ discriminate E | ].
  exists e. split; [ reflexivity | exact (proj1 Hr) ].
Defined.

(** Lookups outside ASCII: the sharp s has the upper case "SS", so it finds
    South Sudan; a no-break space is stripped; a name is found from its
    upper-case form, accents included; a code is not found from a name. *)
Example lookup_latin_1 :
  let south_sudan := Profile "SS" "South Sudan" "SSP" [] [] [] [] "2013-12-15" "" in
  let ivory_coast :=
    Profile "CI" ("C" +:+ String (ascii_of_nat 244) "te d'Ivoire") "XOF" [] [] [] []
            "2010-11-28" "" in
  let table := [south_sudan; ivory_coast] in
  get_profile_by_country_code table (String (ascii_of_nat 223) "") = Ok south_sudan /\
  get_profile_by_country_code table ("ci" +:+ String (ascii_of_nat 160) "")
  = Ok ivory_coast /\
  get_profile_by_country_name table ("C" +:+ String (ascii_of_nat 212) "TE D'IVOIRE ")
  = Ok ivory_coast /\
  is_ok (get_profile_by_country_code table "South Sudan") = false.
Proof. repeat split; reflexivity. Qed.

End CountryProfilesFacts.
(** ** Stateful code: what leaves the request log alone, what cannot raise *)

Module MFacts.
Import Py World Spec.

Section Frame.
Context {W : Type}.

Lemma quiet_keeps {A} (m : M (State W) A) : quiet m -> keeps m.
Proof. intros Hm s. apply Hm. Qed.

Lemma keeps_ret {A} (a : A) : keeps (mret a : M (State W) A).
Proof. intros s. reflexivity. Qed.

Lemma quiet_ret {A} (a : A) : quiet (mret a : M (State W) A).
Proof. intros s. split; reflexivity. Qed.

Lemma keeps_bind {A B} (m : M (State W) A) (k : A -> M (State W) B) :
  keeps m -> (forall a, keeps (k a)) -> keeps (m ≫= k).
Proof.
  intros Hm Hk s. unfold mbind, M_bind, bind_m.
  specialize (Hm s). destruct (m s) as [[a | e] s']; cbn in *.
  - etransitivity; [ apply (Hk a s') | exact Hm ].
  - exact Hm.
Qed.

Lemma quiet_bind {A B} (m : M (State W) A) (k : A -> M (State W) B) :
  quiet m -> (forall a, quiet (k a)) -> quiet (m ≫= k).
Proof.
  intros Hm Hk s. unfold mbind, M_bind, bind_m.
  destruct (Hm s) as [Ho Hr]. destruct (m s) as [[a | e] s']; cbn in *.
  - destruct (Hk a s') as [Ho' Hr']. split; [ exact Ho' | ].
    etransitivity; [ exact Hr' | exact Hr ].
  - discriminate Ho.
Qed.

Lemma quiet_appends {A} (m : M (State W) A) : quiet m -> appends [] m.
Proof. intros Hm s. destruct (Hm s) as [Ho Hr]. now rewrite app_nil_r. Qed.

Lemma appends_bind {A B} (l1 l2 : list string) (m : M (State W) A)
    (k : A -> M (State W) B) :
  appends l1 m -> (forall a, appends l2 (k a)) -> appends (l1 ++ l2) (m ≫= k).
Proof.
  intros Hm Hk s. unfold mbind, M_bind, bind_m.
  destruct (Hm s) as [Ho Hr]. destruct (m s) as [[a | e] s']; cbn in *.
  - destruct (Hk a s') as [Ho' Hr']. split; [ exact Ho' | ].
    rewrite app_assoc, <- Hr. exact Hr'.
  - discriminate Ho.
Qed.

Lemma appends_note_request (date_str : string) :
  appends [date_str] (@note_request W date_str).
Proof. intros s. split; reflexivity. Qed.

Lemma quiet_lift_ok {A} (a : A) : quiet (lift (Ok a) : M (State W) A).
Proof. intros s. split; reflexivity. Qed.

(** A body that returns normally is not disturbed by its handlers. *)
Lemma appends_try {A} (l : list string) (body : M (State W) A) (handles : exn -> bool)
    (handler : exn -> M (State W) A) :
  appends l body -> appends l (try_except body handles handler).
Proof.
  intros Hb s. unfold try_except. destruct (Hb s) as [Ho Hr].
  destruct (body s) as [[a | e] s']; cbn in *; [ | discriminate Ho ].
  split; [ reflexivity | exact Hr ].
Qed.

Lemma appends_bind_ok {A B} (l : list string) (a : A) (k : A -> M (State W) B) :
  appends l (k a) -> appends l (lift (Ok a) ≫= k).
Proof. intros Hk s. exact (Hk s). Qed.

Lemma appends_bind_quiet {A B} (l : list string) (m : M (State W) A)
    (k : A -> M (State W) B) :
  appends l m -> (forall a, quiet (k a)) -> appends l (m ≫= k).
Proof.
  intros Hm Hk. rewrite <- (app_nil_r l).
  apply appends_bind; [ exact Hm | intros a; apply quiet_appends, Hk ].
Qed.

Lemma keeps_lift {A} (r : result A) : keeps (lift r : M (State W) A).
Proof. intros s. reflexivity. Qed.

Lemma keeps_ask {A} (f : W -> A * W) : keeps (ask f).
Proof. intros s. unfold ask. destruct (f (world s)). reflexivity. Qed.

Lemma quiet_ask {A} (f : W -> A * W) : quiet (ask f).
Proof. intros s. unfold ask. destruct (f (world s)). split; reflexivity. Qed.

Lemma keeps_call {A} (f : W -> result A * W) : keeps (call f).
Proof. intros s. unfold call. destruct (f (world s)). reflexivity. Qed.

Lemma quiet_get_store : quiet (@get_store W).
Proof. intros s. split; reflexivity. Qed.

Lemma quiet_put_store (st : Store) : quiet (@put_store W st).
Proof. intros s. split; reflexivity. Qed.

(** A handler for every exception makes the whole statement quiet. *)
Lemma quiet_try_all {A} (body : M (State W) A) (handler : exn -> M (State W) A) :
  keeps body -> (forall e, quiet (handler e)) ->
  quiet (try_except body is_Exception handler).
Proof.
  intros Hb Hh s. unfold try_except. specialize (Hb s).
  destruct (body s) as [[a | e] s']; cbn in *.
  - split; [ reflexivity | exact Hb ].
  - destruct (Hh e s') as [Ho Hr]. split; [ exact Ho | ].
    etransitivity; [ exact Hr | exact Hb ].
Qed.

Lemma keeps_try {A} (body : M (State W) A) (handles : exn -> bool)
    (handler : exn -> M (State W) A) :
  keeps body -> (forall e, keeps (handler e)) -> keeps (try_except body handles handler).
Proof.
  intros Hb Hh s. unfold try_except. specialize (Hb s).
  destruct (body s) as [[a | e] s']; cbn in *; [ exact Hb | ].
  destruct (handles e); cbn; [ | exact Hb ].
  etransitivity; [ apply (Hh e s') | exact Hb ].
Qed.

End Frame.

Create HintDb frame.
#[export] Hint Resolve keeps_ret quiet_ret keeps_lift keeps_ask quiet_ask keeps_call
  quiet_get_store quiet_put_store quiet_keeps : frame.

End MFacts.

(** ** Pre- and postconditions for code that may raise *)

Module Hoare.
Import Py World Spec.

Section Triples.
Context {W : Type}.

Lemma triple_ret {A} (P : State W -> Prop) (a : A) Q R :
  (forall s, P s -> Q a s) -> triple P (mret a) Q R.
Proof. intros HQ s Hs. apply HQ, Hs. Qed.

Lemma triple_bind {A B} (P : State W -> Prop) (m : M (State W) A)
    (k : A -> M (State W) B) (Q' : A -> State W -> Prop) Q R :
  triple P m Q' R -> (forall a, triple (Q' a) (k a) Q R) -> triple P (m ≫= k) Q R.
Proof.
  intros Hm Hk s Hs. unfold mbind, M_bind, bind_m.
  specialize (Hm s Hs). destruct (m s) as [[a | e] s']; [ | exact Hm ].
  apply (Hk a s' Hm).
Qed.

Lemma triple_conseq {A} (P P' : State W -> Prop) (m : M (State W) A)
    (Q Q' : A -> State W -> Prop) (R R' : State W -> Prop) :
  triple P' m Q' R' ->
  (forall s, P s -> P' s) -> (forall a s, Q' a s -> Q a s) -> (forall s, R' s -> R s) ->
  triple P m Q R.
Proof.
  intros Hm HP HQ HR s Hs. specialize (Hm s (HP s Hs)).
  destruct (m s) as [[a | e] s']; auto.
Qed.

Lemma triple_lift {A} (P : State W -> Prop) (r : result A) Q R :
  (forall a s, r = Ok a -> P s -> Q a s) -> (forall s, P s -> R s) ->
  triple P (lift r) Q R.
Proof. intros HQ HR s Hs. unfold lift. destruct r; auto. Qed.

Lemma triple_ask {A} (P : State W -> Prop) (f : W -> A * W) Q R :
  world_blind P -> (forall a s, P s -> Q a s) -> triple P (ask f) Q R.
Proof.
  intros HP HQ s Hs. unfold ask. destruct (f (world s)) as [a w].
  apply HQ, HP, Hs.
Qed.

Lemma triple_call {A} (P : State W -> Prop) (f : W -> result A * W) Q R :
  world_blind P -> (forall a s, P s -> Q a s) -> (forall s, P s -> R s) ->
  triple P (call f) Q R.
Proof.
  intros HP HQ HR s Hs. unfold call. destruct (f (world s)) as [[a | e] w].
  - apply HQ, HP, Hs.
  - apply HR, HP, Hs.
Qed.

Lemma triple_try {A} (P : State W -> Prop) (body : M (State W) A)
    (handles : exn -> bool) (handler : exn -> M (State W) A)
    Q (R' R : State W -> Prop) :
  triple P body Q R' ->
  (forall e, triple R' (handler e) Q R) ->
  (forall s, R' s -> R s) ->
  triple P (try_except body handles handler) Q R.
Proof.
  intros Hb Hh HR s Hs. unfold try_except. specialize (Hb s Hs).
  destruct (body s) as [[a | e] s']; [ exact Hb | ].
  destruct (handles e); [ apply (Hh e s' Hb) | apply HR, Hb ].
Qed.

(** What the precondition says of values, not of the state, can be
    assumed. *)
Lemma triple_assume {A} (fact : Prop) (P : State W -> Prop) (m : M (State W) A) Q R :
  (fact -> triple P m Q R) -> triple (fun s => P s /\ fact) m Q R.
Proof. intros Hm s [Hs Hf]. apply (Hm Hf s Hs). Qed.

End Triples.
End Hoare.

(** ** Crisis-period sampling *)

Module SamplingFacts.
Import Py World Spec MFacts CountryProfiles CSVDataManager ExchangeRates.

Ltac quiet_step :=
  first
    [ apply quiet_ret | apply quiet_ask | apply quiet_get_store | apply quiet_put_store
    | apply quiet_bind; [ | intros ? ] | apply quiet_try_all; [ | intros ? ] ].

Ltac keeps_step :=
  first
    [ apply keeps_ret | apply keeps_ask | apply keeps_call | apply keeps_lift
    | apply keeps_bind; [ | intros ? ] | apply keeps_try; [ | intros ? ] ].

Lemma dates_from_nil (current_dt end_dt step : Z) :
  (0 < step)%Z -> (end_dt < current_dt)%Z -> dates_from current_dt end_dt step = [].
Proof.
  intros Hs Hlt. unfold dates_from.
  assert (E : ((end_dt - current_dt) / step < 0)%Z).
  { apply Z.div_lt_upper_bound; lia. }
  replace (Z.to_nat ((end_dt - current_dt) / step + 1)) with 0%nat by lia.
  reflexivity.
Qed.

Lemma dates_from_cons (current_dt end_dt step : Z) :
  (0 < step)%Z -> (current_dt <= end_dt)%Z ->
  dates_from current_dt end_dt step
  = current_dt :: dates_from (current_dt + step) end_dt step.
Proof.
  intros Hs Hle. unfold dates_from.
  assert (E : ((end_dt - (current_dt + step)) / step = (end_dt - current_dt) / step - 1)%Z).
  { replace (end_dt - (current_dt + step))%Z with (end_dt - current_dt + (-1) * step)%Z by lia.
    rewrite Z.div_add by lia. lia. }
  rewrite E.
  assert (P : (0 <= (end_dt - current_dt) / step)%Z) by (apply Z.div_pos; lia).
  replace (Z.to_nat ((end_dt - current_dt) / step + 1))
    with (S (Z.to_nat ((end_dt - current_dt) / step - 1 + 1))) by lia.
  cbn [seq map]. f_equal; [ lia | ].
  rewrite <- seq_shift, map_map. apply map_ext. intros k. lia.
Qed.

Lemma dates_from_length (current_dt end_dt step : Z) :
  length (dates_from current_dt end_dt step)
  = Z.to_nat ((end_dt - current_dt) / step + 1).
Proof. unfold dates_from. now rewrite length_map, length_seq. Qed.

Lemma days_to_add_pos (start_dt end_dt : Z) : (0 < days_to_add start_dt end_dt)%Z.
Proof. unfold days_to_add. destruct (decide _); lia. Qed.

Section Collector.
Context `{Lib} {W : Type} `{Env W}.
Variable self : ExchangeRateCollector.

Lemma quiet_generate_collection_id : quiet (generate_collection_id (W := W)).
Proof. unfold generate_collection_id. repeat quiet_step. Qed.

Lemma quiet_collection_id_or_new (c : option string) :
  quiet (collection_id_or_new (W := W) c).
Proof.
  unfold collection_id_or_new. destruct c as [ cid | ].
  - destruct (String.eqb cid EmptyString);
      [ apply quiet_generate_collection_id | apply quiet_ret ].
  - apply quiet_generate_collection_id.
Qed.

Lemma quiet_save_exchange_rates (rates : list Rate.t) (c : option string) :
  quiet (save_exchange_rates (W := W) rates c).
Proof.
  unfold save_exchange_rates.
  apply quiet_bind; [ apply quiet_collection_id_or_new | intros ? ].
  repeat quiet_step.
Qed.

Lemma keeps_fetch_from_source (source base_currency : string) :
  keeps (_fetch_from_source self source base_currency).
Proof.
  unfold _fetch_from_source.
  repeat match goal with |- context [ if ?b then _ else _ ] => destruct b end;
    repeat keeps_step.
Qed.

Lemma quiet_current_rates_from (sources : list string) (base_currency : string)
    (rates : gmap string Q) :
  quiet (current_rates_from self sources base_currency rates).
Proof.
  induction sources as [ | source sources IH ]; cbn [current_rates_from].
  - apply quiet_ret.
  - apply quiet_bind.
    + apply quiet_try_all; [ | intros ?; apply quiet_ret ].
      apply keeps_bind; [ apply keeps_fetch_from_source | ].
      intros [ | ? ? ]; apply keeps_ret.
    + intros [ r | ]; [ apply quiet_ret | exact IH ].
Qed.

Lemma quiet_historical_rates_from (sources : list string) (date : string) :
  quiet (historical_rates_from self sources date).
Proof.
  induction sources as [ | source sources IH ]; cbn [historical_rates_from].
  - apply quiet_ret.
  - apply quiet_bind.
    + apply quiet_try_all; [ | intros ?; apply quiet_ret ].
      repeat match goal with |- context [ if ?b then _ else _ ] => destruct b end;
        repeat keeps_step.
    + intros [ r | ]; [ apply quiet_ret | exact IH ].
Qed.

(** One pass of the loop body asks for exactly one date and returns. *)
Lemma rates_for_day_requests (fiat : string) (current_dt : Z) (rates_data : list Rate.t) :
  appends [strftime current_dt] (rates_for_day self fiat current_dt rates_data).
Proof.
  unfold rates_for_day.
  apply (appends_bind [] [strftime current_dt]);
    [ apply quiet_appends, quiet_ask | intros today ].
  apply (appends_bind [strftime current_dt] []);
    [ apply appends_note_request | intros _ ].
  apply quiet_appends, quiet_bind.
  - destruct (decide _);
      [ apply quiet_current_rates_from | apply quiet_historical_rates_from ].
  - intros rates. destruct (rates !! fiat).
    + apply quiet_bind; [ apply quiet_generate_collection_id | intros ?; apply quiet_ret ].
    + apply quiet_ret.
Qed.

(** The loop asks for exactly the sampled dates.  It returns unless the
    step after the last sampled date leaves the calendar, and then it raises
    OverflowError. *)
Lemma rates_loop_requests (fiat : string) (start_dt end_dt current_dt : Z)
    (rates_data : list Rate.t) (s : State W) :
  (end_dt <= max_ordinal)%Z ->
  requested (snd (rates_loop self fiat start_dt end_dt current_dt rates_data s))
  = requested s
    ++ map strftime (dates_from current_dt end_dt (days_to_add start_dt end_dt)) /\
  (is_ok (fst (rates_loop self fiat start_dt end_dt current_dt rates_data s)) = true <->
   (end_dt < current_dt \/
    current_dt + days_to_add start_dt end_dt
                 * ((end_dt - current_dt) / days_to_add start_dt end_dt + 1)
    <= max_ordinal)%Z) /\
  (forall e, fst (rates_loop self fiat start_dt end_dt current_dt rates_data s) = Raise e ->
             exn_class e = OverflowError).
Proof.
  funelim (rates_loop self fiat start_dt end_dt current_dt rates_data s);
    pose proof (days_to_add_pos start_dt end_dt) as Hstep; intros Hmax.
  - rewrite dates_from_nil by lia. cbn. rewrite app_nil_r.
    split; [ reflexivity | split; [ | discriminate ] ].
    split; [ intros _; left; lia | reflexivity ].
  - match goal with E : rates_for_day _ _ _ _ _ = _ |- _ =>
      pose proof (rates_for_day_requests fiat0 current_dt rates_data s) as [Ho _];
      rewrite E in Ho; discriminate Ho end.
  - match goal with IH : _ -> _ /\ _ |- _ => destruct (IH Hmax) as (IHr & IHo & IHe) end.
    match goal with E : rates_for_day _ _ _ _ _ = _ |- _ =>
      pose proof (rates_for_day_requests fiat0 current_dt rates_data s) as [_ Hr];
      rewrite E in Hr; cbn in Hr end.
    split; [ | split; [ | exact IHe ] ].
    + rewrite IHr, Hr, (dates_from_cons current_dt) by lia. cbn [map].
      now rewrite <- app_assoc.
    + rewrite IHo.
      set (step := days_to_add start_dt end_dt) in *.
      assert (E : ((end_dt - (current_dt + step)) / step
                   = (end_dt - current_dt) / step - 1)%Z).
      { replace (end_dt - (current_dt + step))%Z
          with (end_dt - current_dt + (-1) * step)%Z by lia.
        rewrite Z.div_add by lia. lia. }
      rewrite E.
      assert (Q0 : (0 <= (end_dt - current_dt) / step)%Z) by (apply Z.div_pos; lia).
      assert (Q1 : (step * ((end_dt - current_dt) / step) <= end_dt - current_dt)%Z)
        by (apply Z.mul_div_le; lia).
      split.
      * intros [ Hlt | Hle ]; right; [ | lia ].
        assert (Q2 : ((end_dt - current_dt) / step < 1)%Z)
          by (apply Z.div_lt_upper_bound; lia).
        replace ((end_dt - current_dt) / step)%Z with 0%Z by lia. lia.
      * intros [ Hlt | Hle ]; [ lia | right; lia ].
  - match goal with E : rates_for_day _ _ _ _ _ = _ |- _ =>
      pose proof (rates_for_day_requests fiat0 current_dt rates_data s) as [_ Hr];
      rewrite E in Hr; cbn in Hr end.
    set (step := days_to_add start_dt end_dt) in *.
    assert (Q0 : (0 <= (end_dt - current_dt) / step)%Z) by (apply Z.div_pos; lia).
    cbn [fst snd]. split; [ | split ].
    + rewrite Hr, (dates_from_cons current_dt), dates_from_nil by lia. reflexivity.
    + split; [ discriminate | ]. intros [ Hlt | Hle ]; [ lia | nia ].
    + intros e [= <-]. reflexivity.
Qed.

(** The same of the whole call: the OverflowError is not a ValueError, so
    the handler lets it pass. *)
Lemma collect_crisis_period_rates_requests (country_code start_date end_date : string)
    (p : profile) (start_dt end_dt : Z) (s : State W) :
  get_profile_by_country_code load_profiles country_code = Ok p ->
  strptime start_date = Ok start_dt ->
  strptime end_date = Ok end_dt ->
  (end_dt <= max_ordinal)%Z ->
  requested (snd (collect_crisis_period_rates self country_code start_date end_date s))
  = requested s
    ++ map strftime (dates_from start_dt end_dt (days_to_add start_dt end_dt)) /\
  (is_ok (fst (collect_crisis_period_rates self country_code start_date end_date s))
   = true <->
   (end_dt < start_dt \/
    start_dt + days_to_add start_dt end_dt
               * ((end_dt - start_dt) / days_to_add start_dt end_dt + 1)
    <= max_ordinal)%Z) /\
  (forall e,
     fst (collect_crisis_period_rates self country_code start_date end_date s) = Raise e ->
     exn_class e = OverflowError).
Proof.
  intros Hp Ha Hb Hmax.
  destruct (rates_loop_requests (fiat p) start_dt end_dt start_dt [] s Hmax)
    as (Hr & Ho & He).
  remember (collect_crisis_period_rates self country_code start_date end_date s)
    as out eqn:Eout.
  unfold collect_crisis_period_rates, try_except in Eout.
  rewrite Hp, Ha, Hb in Eout.
  unfold mbind at 1, M_bind at 1, bind_m at 1, lift in Eout.
  unfold mbind at 1, M_bind at 1, bind_m at 1 in Eout.
  unfold mbind at 1, M_bind at 1, bind_m at 1 in Eout.
  unfold mbind at 1, M_bind at 1, bind_m at 1 in Eout.
  destruct (rates_loop self (fiat p) start_dt end_dt start_dt [] s)
    as [[rates | e] s1]; cbn [fst snd] in *.
  - assert (Hq : quiet (match rates with
                        | [] => mret rates
                        | _ :: _ => save_exchange_rates (W := W) rates None
                        end)).
    { destruct rates; [ apply quiet_ret | apply quiet_save_exchange_rates ]. }
    destruct (Hq s1) as [Hqo Hqr].
    destruct (match rates with [] => mret rates | _ :: _ => save_exchange_rates rates None end s1)
      as [[r | e] s2]; [ | discriminate Hqo ].
    subst out. cbn [fst snd] in *.
    split; [ congruence | split; [ | intros e [=] ] ].
    rewrite <- Ho. split; reflexivity.
  - specialize (He e eq_refl). unfold is_ValueError in Eout. rewrite He in Eout.
    subst out. cbn [fst snd].
    split; [ exact Hr | split; [ | intros e' [= <-]; exact He ] ].
    rewrite <- Ho. split; discriminate.
Qed.


End Collector.

Import Demo.



End SamplingFacts.

(** ** The model at work on the concrete world *)

Module DemoRuns.
Import Py World CountryProfiles CSVDataManager Demo.

Example lookup_sudan :
  get_profile_by_country_code load_profiles " Sd " = Ok sudan /\
  get_profile_by_country_name load_profiles "  nigeria " = Ok nigeria /\
  get_profile_by_country_code load_profiles "XX"
  = Raise (Exn ValueError "No profile found for country code: XX").
Proof. repeat split; reflexivity. Qed.

Example dumps_two_labels :
  Json.dumps (VList [VStr "MTN"; VStr "Bank Transfer"])
  = String "["
      (String Json.dquote ("MTN" +:+ String Json.dquote (", " +:+
       String Json.dquote ("Bank Transfer" +:+ String Json.dquote "]")))).
Proof. reflexivity. Qed.

Example loads_two_labels :
  Json.loads (Json.dumps (VList [VStr "MTN"; VStr ("caf" +:+ String (ascii_of_nat 233) "")]))
  = Ok (VList [VStr "MTN"; VStr ("caf" +:+ String (ascii_of_nat 233) "")]).
Proof. vm_compute. reflexivity. Qed.

Example binance_sudan :
  let '(r, s) := BinanceP2P.collect_country_data "SD" "USDT" true start in
  match r with
  | Ok ads => map Ad.trade_type ads = ["BUY"; "BUY"; "SELL"]
  | Raise _ => False
  end /\
  map (fun e => (LogEntry.ads_collected e, LogEntry.buy_ads e, LogEntry.sell_ads e))
      (collection_log (store s)) = [(3, 2, 1)]%nat.
Proof. vm_compute. split; reflexivity. Qed.

End DemoRuns.

(** ** The payment-methods cell: encode at save, decode at load *)

Module JsonFacts.
Import Py Json CSVDataManager.

Lemma append_assoc (a b c : string) : (a +:+ b) +:+ c = a +:+ (b +:+ c).
Proof.
  induction a as [ | x a IH ]; [ reflexivity | ].
  change (String x ((a +:+ b) +:+ c) = String x (a +:+ (b +:+ c))). now rewrite IH.
Qed.
Section Roundtrip.
Context `{Lib}.
Lemma scanstring_escape_char (c : ascii) (tail : string) :
  scanstring (escape_char c +:+ tail)
  = match scanstring tail with
    | Some (str, r) => Some (String c str, r)
    | None => None
    end.
Proof. destruct c as [[] [] [] [] [] [] [] []]; reflexivity. Qed.

(** The scanner reads back an escaped string up to its closing quote. *)
Lemma scanstring_escape (s rest : string) :
  scanstring (escape s +:+ String dquote rest) = Some (s, rest).
Proof.
  induction s as [ | c s IH ]; [ reflexivity | ].
  cbn [escape]. rewrite append_assoc, scanstring_escape_char, IH. reflexivity.
Qed.

Lemma parse_value_quote (fuel : nat) (rest : string) :
  parse_value (S fuel) (String dquote rest)
  = match scanstring rest with
    | Some (str, r) => Some (VStr str, r)
    | None => None
    end.
Proof. reflexivity. Qed.

Lemma parse_encode_str (fuel : nat) (s rest : string) :
  parse_value (S fuel) (encode_str s +:+ rest) = Some (VStr s, rest).
Proof.
  unfold encode_str.
  change (String dquote (escape s +:+ String dquote "") +:+ rest)
    with (String dquote ((escape s +:+ String dquote "") +:+ rest)).
  rewrite parse_value_quote, append_assoc.
  change (String dquote "" +:+ rest) with (String dquote rest).
  now rewrite scanstring_escape.
Qed.

Lemma dumps_labels (labels : list string) :
  dumps (VList (map VStr labels)) = "[" +:+ join ", " (map encode_str labels) +:+ "]".
Proof.
  cbn [dumps]. do 2 f_equal. rewrite map_map. reflexivity.
Qed.

Lemma parse_items_step (fuel : nat) (s : string) :
  parse_items (S fuel) s
  = match parse_value fuel s with
    | Some (v, r) =>
        match skip_ws r with
        | EmptyString => None
        | String c r' =>
            if Ascii.eqb c "]" then Some ([v], r')
            else if Ascii.eqb c "," then
              match parse_items fuel (skip_ws r') with
              | Some (l, r'') => Some (v :: l, r'')
              | None => None
              end
            else None
        end
    | None => None
    end.
Proof. reflexivity. Qed.

Lemma join_cons (sep x y : string) (l : list string) :
  join sep (x :: y :: l) = x +:+ sep +:+ join sep (y :: l).
Proof. reflexivity. Qed.

Lemma skip_ws_quote (t : string) : skip_ws (String dquote t) = String dquote t.
Proof. reflexivity. Qed.

Lemma encode_str_head (s : string) : exists t, encode_str s = String dquote t.
Proof. unfold encode_str. eauto. Qed.

Lemma join_labels_head (x : string) (labels : list string) :
  exists t, join ", " (map encode_str (x :: labels)) = String dquote t.
Proof.
  destruct labels as [ | y labels ].
  - apply encode_str_head.
  - cbn [map]. rewrite join_cons. unfold encode_str at 1. eexists. reflexivity.
Qed.

(** The item loop reads back a non-empty list of encoded labels, given
    one unit of fuel per label and one more. *)
Lemma parse_items_labels (labels : list string) (x : string) (rest : string) (fuel : nat) :
  (length labels + 2 <= fuel)%nat ->
  parse_items fuel (join ", " (map encode_str (x :: labels)) +:+ String "]" rest)
  = Some (map VStr (x :: labels), rest).
Proof.
  revert x fuel. induction labels as [ | y labels IH ]; intros x fuel Hf.
  - destruct fuel as [ | [ | fuel ] ]; [ cbn in Hf; lia .. | ].
    cbn [map join]. rewrite parse_items_step, parse_encode_str. reflexivity.
  - destruct fuel as [ | [ | fuel ] ]; [ cbn in Hf; lia .. | ].
    cbn [map]. rewrite join_cons, parse_items_step, append_assoc, parse_encode_str.
    rewrite append_assoc.
    change (skip_ws (", " +:+ join ", " (encode_str y :: map encode_str labels)
                     +:+ String "]" rest))
      with (String "," (String " " (join ", " (map encode_str (y :: labels))
                                    +:+ String "]" rest))).
    change (Ascii.eqb "," "]") with false. change (Ascii.eqb "," ",") with true.
    cbn iota.
    destruct (join_labels_head y labels) as [t Ht].
    assert (E : skip_ws (String " " (join ", " (map encode_str (y :: labels))
                                     +:+ String "]" rest))
                = join ", " (map encode_str (y :: labels)) +:+ String "]" rest).
    { rewrite Ht. reflexivity. }
    rewrite E, (IH y (S fuel)) by (cbn in *; lia). reflexivity.
Qed.

Lemma length_append (a b : string) :
  String.length (a +:+ b) = (String.length a + String.length b)%nat.
Proof.
  induction a as [ | x a IH ]; [ reflexivity | ].
  change (S (String.length (a +:+ b)) = S (String.length a + String.length b)).
  now rewrite IH.
Qed.

Lemma encode_str_length (s : string) : (2 <= String.length (encode_str s))%nat.
Proof.
  unfold encode_str. cbn [String.length]. rewrite length_append. cbn. lia.
Qed.

Lemma join_labels_length (labels : list string) :
  (length labels <= String.length (join ", " (map encode_str labels)))%nat.
Proof.
  induction labels as [ | x labels IH ]; [ cbn; lia | ].
  destruct labels as [ | y labels ].
  - cbn [map join length]. pose proof (encode_str_length x). lia.
  - cbn [map]. rewrite join_cons, !length_append.
    pose proof (encode_str_length x). cbn [map length] in *. lia.
Qed.

Lemma parse_value_bracket (fuel : nat) (t rest : string) :
  parse_value (S fuel) (String "[" (String dquote t))
  = match parse_items fuel (String dquote t) with
    | Some (l, r') => Some (VList l, r')
    | None => None
    end.
Proof. reflexivity. Qed.

(** [json.loads] undoes [json.dumps] on a list of labels. *)
Lemma loads_dumps_labels (labels : list string) :
  loads (dumps (VList (map VStr labels))) = Ok (VList (map VStr labels)).
Proof.
  rewrite dumps_labels. unfold loads.
  destruct labels as [ | x labels ]; [ reflexivity | ].
  pose proof (join_labels_length (x :: labels)) as Hlen.
  destruct (join_labels_head x labels) as [t Ht].
  set (items := join ", " (map encode_str (x :: labels))) in *.
  change ("[" +:+ items +:+ "]") with (String "[" (items +:+ "]")).
  assert (Hs : skip_ws (String "[" (items +:+ "]")) = String "[" (items +:+ "]"))
    by reflexivity.
  rewrite Hs.
  assert (Hf : (length labels + 2 <= String.length (String "[" (items +:+ "]")))%nat).
  { cbn [String.length length] in *. rewrite length_append. cbn [String.length]. lia. }
  pose proof (parse_items_labels labels x EmptyString _ Hf) as Hi.
  fold items in Hi. clearbody items. subst items.
  change (String dquote t +:+ "]") with (String dquote (t +:+ "]")) in Hi |- *.
  rewrite (parse_value_bracket _ _ EmptyString), Hi. reflexivity.
Qed.

(** The text of an encoded list is never one of the NaN spellings. *)
Lemma read_cell_dumps_list (l : list value) :
  read_cell (dumps (VList l)) = Some (dumps (VList l)).
Proof. cbn [dumps]. reflexivity. Qed.


(** C7: the cell that [save_raw_ads] writes for a list of payment-method
    labels is read back by [load_raw_ads] as the same list, in the same order;
    and a missing cell (an empty one, or NaN) is read as the empty list. *)
Theorem payment_methods_roundtrip (labels : list string) (collection_id : string)
    (ad : Ad.t) :
  let saved := tag_ad collection_id (Ad.set_payment_methods (VList (map VStr labels)) ad) in
  decode_payment_methods (read_cell (csv_text (Ad.payment_methods saved)))
  = Ok (VList (map VStr labels)) /\
  decode_payment_methods (read_cell EmptyString) = Ok (VList []) /\
  decode_payment_methods None = Ok (VList []).
Proof.
  cbn zeta. split; [ | split; reflexivity ].
  unfold tag_ad. cbn [Ad.set_collection_id Ad.set_payment_methods Ad.payment_methods csv_text].
  rewrite read_cell_dumps_list. cbn [decode_payment_methods].
  apply loads_dumps_labels.
Qed.

End Roundtrip.
End JsonFacts.

(** ** The platform adapters and the store *)

Module AdapterFacts.
Import Py World Spec Hoare CountryProfiles CSVDataManager.

Section Adapters.
Context `{Lib} {W : Type} `{Env W}.

Lemma grown_refl (s : State W) : grown s s.
Proof. exists []. split; [ now rewrite app_nil_r | constructor ]. Qed.

Lemma grown_blind (s0 : State W) : world_blind (grown s0).
Proof. intros s w Hs. exact Hs. Qed.

(** Code that only talks to the outside world and runs pure steps keeps
    any world-blind property. *)
Lemma triple_lift_keep {A} (P : State W -> Prop) (r : result A) :
  triple P (lift r) (fun _ => P) P.
Proof. apply triple_lift; auto. Qed.

Lemma triple_ask_keep {A} (P : State W -> Prop) (f : W -> A * W) :
  world_blind P -> triple P (ask f) (fun _ => P) P.
Proof. intros HP. apply triple_ask; auto. Qed.

Lemma triple_call_keep {A} (P : State W -> Prop) (f : W -> result A * W) :
  world_blind P -> triple P (call f) (fun _ => P) P.
Proof. intros HP. apply triple_call; auto. Qed.

Lemma triple_generate_collection_id (P : State W -> Prop) :
  world_blind P -> triple P generate_collection_id (fun _ => P) P.
Proof.
  intros HP. unfold generate_collection_id.
  eapply triple_bind; [ apply triple_ask_keep, HP | intros stamp ].
  apply triple_ret. auto.
Qed.

Lemma triple_collection_id_or_new (P : State W -> Prop) (c : option string) :
  world_blind P -> triple P (collection_id_or_new c) (fun _ => P) P.
Proof.
  intros HP. unfold collection_id_or_new. destruct c as [ cid | ].
  - destruct (String.eqb cid EmptyString);
      [ apply triple_generate_collection_id, HP | apply triple_ret; auto ].
  - apply triple_generate_collection_id, HP.
Qed.

(** Steps that keep [P]: the pure ones, and those on the outside world. *)
Ltac keep_steps HP :=
  repeat (eapply triple_bind;
          [ first [ apply triple_lift_keep | apply triple_ask_keep, HP
                  | apply triple_call_keep, HP | apply triple_generate_collection_id, HP ]
          | intros ? ]).

Lemma binance_get_ads_keep (P : State W -> Prop) asset fiat trade_type page rows ts :
  world_blind P ->
  triple P (BinanceP2P.get_ads asset fiat trade_type page rows ts) (fun _ => P) P.
Proof.
  intros HP. unfold BinanceP2P.get_ads.
  eapply triple_try; [ apply triple_call_keep, HP | | auto ].
  intros e. apply triple_ret. auto.
Qed.

Lemma binance_standardize_ad_spec (P : State W -> Prop) ad_data country_code trade_type :
  world_blind P ->
  triple P (BinanceP2P.standardize_ad ad_data country_code trade_type)
    (fun ad s => P s /\ Ad.trade_type ad = trade_type /\ Ad.premium_pct ad = None /\
                 Ad.collection_id ad = None /\ Ad.country_code ad = country_code)
    P.
Proof.
  intros HP. unfold BinanceP2P.standardize_ad. keep_steps HP.
  apply triple_ret. cbn. auto.
Qed.

Lemma counted_push (c : BinanceP2P.counters) (ad : Ad.t) (buy : bool) :
  counted c -> fresh ad ->
  counted (if buy
           then BinanceP2P.Counters (BinanceP2P.all_ads c ++ [ad])
                  (BinanceP2P.buy_count c + 1) (BinanceP2P.sell_count c)
           else BinanceP2P.Counters (BinanceP2P.all_ads c ++ [ad])
                  (BinanceP2P.buy_count c) (BinanceP2P.sell_count c + 1)).
Proof.
  intros [Hn Hf] Had. unfold counted.
  destruct buy; cbn; rewrite length_app; cbn; (split; [ lia | ]);
    apply Forall_app; split; auto.
Qed.

Lemma binance_standardize_page_spec (P : State W -> Prop) ads country_code trade_type c :
  world_blind P -> trade_type = "BUY" \/ trade_type = "SELL" -> counted c ->
  triple P (BinanceP2P.standardize_page ads country_code trade_type c)
    (fun c' s => P s /\ counted c') P.
Proof.
  intros HP Ht. revert c. induction ads as [ | ad ads IH ]; intros c Hc.
  - apply triple_ret. auto.
  - cbn [BinanceP2P.standardize_page].
    eapply triple_bind; [ apply binance_standardize_ad_spec, HP | intros a ].
    apply triple_assume. intros (Ha & Hp & _). apply IH.
    apply counted_push; [ exact Hc | ]. split; [ now rewrite Ha | exact Hp ].
Qed.

Lemma binance_collect_pages_spec (P : State W -> Prop) pages_left page asset fiat
    country_code trade_type c :
  world_blind P -> trade_type = "BUY" \/ trade_type = "SELL" -> counted c ->
  triple P (BinanceP2P.collect_pages pages_left page asset fiat country_code trade_type c)
    (fun c' s => P s /\ counted c') P.
Proof.
  intros HP Ht. revert page c.
  induction pages_left as [ | n IH ]; intros page c Hc; cbn [BinanceP2P.collect_pages].
  - apply triple_ret. auto.
  - eapply triple_bind; [ apply binance_get_ads_keep, HP | intros response ].
    destruct (negb (truthy response)); [ apply triple_ret; auto | ].
    eapply triple_bind; [ apply triple_lift_keep | intros data ].
    destruct (negb (truthy data)); [ apply triple_ret; auto | ].
    eapply triple_bind; [ apply triple_lift_keep | intros ads ].
    eapply triple_bind; [ apply binance_standardize_page_spec; eauto | intros c' ].
    apply triple_assume. intros Hc'. apply IH, Hc'.
Qed.

Lemma binance_collect_sides_spec (P : State W -> Prop) sides asset fiat country_code c :
  world_blind P -> Forall (fun t => t = "BUY" \/ t = "SELL") sides -> counted c ->
  triple P (BinanceP2P.collect_sides sides asset fiat country_code c)
    (fun c' s => P s /\ counted c') P.
Proof.
  intros HP Hs. revert c.
  induction Hs as [ | t sides Ht Hs IH ]; intros c Hc; cbn [BinanceP2P.collect_sides].
  - apply triple_ret. auto.
  - eapply triple_bind; [ apply binance_collect_pages_spec; eauto | intros c' ].
    apply triple_assume. intros Hc'. apply IH, Hc'.
Qed.

(** What [save_raw_ads] does to the caller's list, and that it leaves
    the collection log alone. *)
Lemma save_raw_ads_spec (s0 : State W) ads platform country_code cid :
  triple (grown s0) (save_raw_ads ads platform country_code cid)
    (fun out s => grown s0 s /\ exists c, snd out = map (tag_ad c) ads)
    (grown s0).
Proof.
  unfold save_raw_ads.
  eapply triple_bind; [ apply triple_collection_id_or_new, grown_blind | intros c ].
  eapply triple_bind; [ apply triple_ask_keep, grown_blind | intros today ].
  eapply triple_bind with (Q' := fun _ => grown s0).
  - unfold _write_csv. intros s Hs. exact Hs.
  - intros _. apply triple_ret. intros s Hs. split; [ exact Hs | ].
    exists c. reflexivity.
Qed.

Lemma log_collection_run_spec (s0 : State W) platform country_code country_name
    fiat_currency ads_collected buy_ads sell_ads status error_message cid :
  ads_collected = (buy_ads + sell_ads)%nat ->
  triple (grown s0)
    (log_collection_run platform country_code country_name fiat_currency
       ads_collected buy_ads sell_ads status error_message cid)
    (fun _ => grown s0) (grown s0).
Proof.
  intros Hsum. unfold log_collection_run.
  eapply triple_bind; [ apply triple_collection_id_or_new, grown_blind | intros c ].
  eapply triple_bind; [ apply triple_ask_keep, grown_blind | intros now ].
  intros s (rows & Hrows & Hb). cbn.
  eexists (rows ++ [_]). split.
  - cbn. rewrite Hrows, <- List.app_assoc. reflexivity.
  - apply Forall_app. split; [ exact Hb | ]. constructor; [ | constructor ].
    exact Hsum.
Qed.

Lemma tag_ad_fresh (cid : string) (ad : Ad.t) : fresh ad -> fresh (tag_ad cid ad).
Proof.
  unfold fresh, tag_ad. destruct ad as [? ? ? ? ? ? ? ? ? ? pm ? ? ? ? ? ?].
  destruct pm; cbn; auto.
Qed.

Lemma binance_collect_country_data_spec (s0 : State W) country_code asset save_to_csv :
  triple (grown s0) (BinanceP2P.collect_country_data country_code asset save_to_csv)
    (fun ads s => grown s0 s /\ Forall fresh ads) (grown s0).
Proof.
  unfold BinanceP2P.collect_country_data.
  eapply triple_try with (R' := grown s0); [ | intros e; apply triple_ret; auto | auto ].
  eapply triple_bind; [ apply triple_lift_keep | intros profile ].
  eapply triple_bind; [ apply triple_generate_collection_id, grown_blind | intros cid ].
  eapply triple_bind.
  { apply binance_collect_sides_spec with (c := BinanceP2P.Counters [] 0 0).
    - apply grown_blind.
    - constructor; [ now left | constructor; [ now right | constructor ] ].
    - split; [ reflexivity | constructor ]. }
  intros c. apply triple_assume. intros [Hn Hf].
  destruct save_to_csv; [ | apply triple_ret; auto ].
  destruct (BinanceP2P.all_ads c) as [ | ad ads ] eqn:Eads; [ apply triple_ret; auto | ].
  eapply triple_bind; [ apply save_raw_ads_spec | intros [path saved] ].
  apply triple_assume. intros [c' Hsaved]. cbn [snd] in Hsaved.
  eapply triple_bind.
  { apply log_collection_run_spec. rewrite Hsaved, length_map. exact Hn. }
  intros ?. apply triple_ret. intros s Hs. split; [ exact Hs | ].
  rewrite Hsaved. apply Forall_map.
  eapply List.Forall_impl; [ | exact Hf ]. intros x. apply tag_ad_fresh.
Qed.

(** *** OKX *)

Lemma okx_get_ads_from_keep (P : State W -> Prop) urls crypto fiat side page limit :
  world_blind P ->
  triple P (OKXP2P.get_ads_from urls crypto fiat side page limit) (fun _ => P) P.
Proof.
  intros HP. induction urls as [ | url urls IH ]; cbn [OKXP2P.get_ads_from].
  - apply triple_ret. auto.
  - eapply triple_bind with (Q' := fun _ => P).
    + eapply triple_try with (R' := P); [ | intros e; apply triple_ret; auto | auto ].
      eapply triple_bind; [ apply triple_call_keep, HP | intros [status data] ].
      destruct (status =? 200)%Z; [ | apply triple_ret; auto ].
      eapply triple_bind; [ apply triple_lift_keep | intros ok ].
      apply triple_ret. auto.
    + intros [ data | ]; [ apply triple_ret; auto | exact IH ].
Qed.

Lemma okx_standardize_ad_spec (P : State W -> Prop) ad_data country_code trade_type :
  world_blind P ->
  triple P (OKXP2P.standardize_ad ad_data country_code trade_type)
    (fun ad s => P s /\
                 Ad.trade_type ad
                 = (if String.eqb (lower trade_type) "buy" then "BUY" else "SELL") /\
                 Ad.premium_pct ad = None /\
                 Ad.collection_id ad = None /\ Ad.country_code ad = country_code)
    P.
Proof.
  intros HP. unfold OKXP2P.standardize_ad. cbn zeta. keep_steps HP.
  apply triple_ret. cbn. auto.
Qed.

Lemma okx_standardize_page_spec (P : State W -> Prop) ads country_code trade_type c :
  world_blind P -> counted c ->
  triple P (OKXP2P.standardize_page ads country_code trade_type c)
    (fun c' s => P s /\ counted c') P.
Proof.
  intros HP. revert c. induction ads as [ | ad ads IH ]; intros c Hc.
  - apply triple_ret. auto.
  - cbn [OKXP2P.standardize_page].
    eapply triple_bind; [ apply okx_standardize_ad_spec, HP | intros a ].
    apply triple_assume. intros (Ha & Hp & _). apply IH.
    apply counted_push; [ exact Hc | ]. split; [ | exact Hp ].
    rewrite Ha. destruct (String.eqb (lower trade_type) "buy"); auto.
Qed.

Lemma okx_collect_pages_spec (P : State W -> Prop) pages_left page asset fiat
    country_code trade_type c :
  world_blind P -> counted c ->
  triple P (OKXP2P.collect_pages pages_left page asset fiat country_code trade_type c)
    (fun c' s => P s /\ counted c') P.
Proof.
  intros HP. revert page c.
  induction pages_left as [ | n IH ]; intros page c Hc; cbn [OKXP2P.collect_pages].
  - apply triple_ret. auto.
  - eapply triple_bind; [ apply okx_get_ads_from_keep, HP | intros response ].
    destruct (negb (truthy response)); [ apply triple_ret; auto | ].
    eapply triple_bind; [ apply triple_lift_keep | intros data ].
    destruct (negb (truthy data)); [ apply triple_ret; auto | ].
    eapply triple_bind; [ apply triple_lift_keep | intros data' ].
    eapply triple_bind; [ apply triple_lift_keep | intros orders ].
    destruct (negb (truthy orders)); [ apply triple_ret; auto | ].
    eapply triple_bind; [ apply triple_lift_keep | intros ads ].
    eapply triple_bind; [ apply okx_standardize_page_spec; eauto | intros c' ].
    apply triple_assume. intros Hc'. apply IH, Hc'.
Qed.

Lemma okx_collect_sides_spec (P : State W -> Prop) sides asset fiat country_code c :
  world_blind P -> counted c ->
  triple P (OKXP2P.collect_sides sides asset fiat country_code c)
    (fun c' s => P s /\ counted c') P.
Proof.
  intros HP. revert c.
  induction sides as [ | t sides IH ]; intros c Hc; cbn [OKXP2P.collect_sides].
  - apply triple_ret. auto.
  - eapply triple_bind; [ apply okx_collect_pages_spec; eauto | intros c' ].
    apply triple_assume. intros Hc'. apply IH, Hc'.
Qed.

Lemma okx_collect_country_data_spec (s0 : State W) country_code asset save_to_csv :
  triple (grown s0) (OKXP2P.collect_country_data country_code asset save_to_csv)
    (fun ads s => grown s0 s /\ Forall fresh ads) (grown s0).
Proof.
  unfold OKXP2P.collect_country_data.
  eapply triple_try with (R' := grown s0); [ | intros e; apply triple_ret; auto | auto ].
  eapply triple_bind; [ apply triple_lift_keep | intros profile ].
  eapply triple_bind; [ apply triple_generate_collection_id, grown_blind | intros cid ].
  eapply triple_bind.
  { apply okx_collect_sides_spec with (c := BinanceP2P.Counters [] 0 0).
    - apply grown_blind.
    - split; [ reflexivity | constructor ]. }
  intros c. apply triple_assume. intros [Hn Hf].
  destruct save_to_csv; [ | apply triple_ret; auto ].
  destruct (BinanceP2P.all_ads c) as [ | ad ads ] eqn:Eads; [ apply triple_ret; auto | ].
  eapply triple_bind; [ apply save_raw_ads_spec | intros [path saved] ].
  apply triple_assume. intros [c' Hsaved]. cbn [snd] in Hsaved.
  eapply triple_bind.
  { apply log_collection_run_spec. rewrite Hsaved, length_map. exact Hn. }
  intros ?. apply triple_ret. intros s Hs. split; [ exact Hs | ].
  rewrite Hsaved. apply Forall_map.
  eapply List.Forall_impl; [ | exact Hf ]. intros x. apply tag_ad_fresh.
Qed.

(** Whether [standardize_ad] returns does not depend on the side it is
    given. *)
Lemma okx_standardize_ad_any_side ad_data country_code side side' (s : State W) :
  is_ok (fst (OKXP2P.standardize_ad ad_data country_code side s))
  = is_ok (fst (OKXP2P.standardize_ad ad_data country_code side' s)).
Proof.
  unfold OKXP2P.standardize_ad, mbind, M_bind, bind_m, lift, ask, mret, M_ret, ret.
  cbn zeta. destruct (utcnow_isoformat (world s)) as [now w].
  repeat match goal with
         | |- context [ match ?r with Ok _ => _ | Raise _ => _ end ] =>
             destruct r; try reflexivity
         end.
Qed.

Lemma binance_standardize_ad_any_side ad_data country_code side side' (s : State W) :
  is_ok (fst (BinanceP2P.standardize_ad ad_data country_code side s))
  = is_ok (fst (BinanceP2P.standardize_ad ad_data country_code side' s)).
Proof.
  unfold BinanceP2P.standardize_ad, mbind, M_bind, bind_m, lift, ask, mret, M_ret, ret.
  repeat match goal with
         | |- context [ match ?r with Ok _ => _ | Raise _ => _ end ] =>
             destruct r; try reflexivity
         | |- context [ let (_, _) := ?p in _ ] => destruct p
         end.
Qed.

(** C5: every advertisement a Binance or OKX collection run returns has
    trade_type "BUY" or "SELL" and a null premium_pct; and whatever side
    [standardize_ad] is given, the record it creates has a null premium_pct
    and no collection_id yet. *)
Theorem standardized_ads_fresh (country_code asset : string) (save_to_csv : bool)
    (ad_data : value) (side : string) (s : State W) :
  match BinanceP2P.collect_country_data country_code asset save_to_csv s with
  | (Ok ads, _) =>
      Forall (fun ad => (Ad.trade_type ad = "BUY" \/ Ad.trade_type ad = "SELL") /\
                        Ad.premium_pct ad = None) ads
  | (Raise _, _) => True
  end /\
  match OKXP2P.collect_country_data country_code asset save_to_csv s with
  | (Ok ads, _) =>
      Forall (fun ad => (Ad.trade_type ad = "BUY" \/ Ad.trade_type ad = "SELL") /\
                        Ad.premium_pct ad = None) ads
  | (Raise _, _) => True
  end /\
  match BinanceP2P.standardize_ad ad_data country_code side s with
  | (Ok ad, _) => Ad.premium_pct ad = None /\ Ad.collection_id ad = None
  | (Raise _, _) => True
  end /\
  match OKXP2P.standardize_ad ad_data country_code side s with
  | (Ok ad, _) =>
      (Ad.trade_type ad = "BUY" \/ Ad.trade_type ad = "SELL") /\
      Ad.premium_pct ad = None /\ Ad.collection_id ad = None
  | (Raise _, _) => True
  end.
Proof.
  repeat apply conj.
  - pose proof (binance_collect_country_data_spec s country_code asset save_to_csv s
                  (grown_refl s)) as Hc.
    destruct (BinanceP2P.collect_country_data _ _ _ s) as [[ads | e] s']; [ apply Hc | exact I ].
  - pose proof (okx_collect_country_data_spec s country_code asset save_to_csv s
                  (grown_refl s)) as Hc.
    destruct (OKXP2P.collect_country_data _ _ _ s) as [[ads | e] s']; [ apply Hc | exact I ].
  - pose proof (binance_standardize_ad_spec (fun _ => True) ad_data country_code side
                  (fun _ _ _ => I) s I) as Hc.
    destruct (BinanceP2P.standardize_ad _ _ _ s) as [[ad | e] s']; [ | exact I ].
    destruct Hc as (_ & _ & Hp & Hi & _). auto.
  - pose proof (okx_standardize_ad_spec (fun _ => True) ad_data country_code side
                  (fun _ _ _ => I) s I) as Hc.
    destruct (OKXP2P.standardize_ad _ _ _ s) as [[ad | e] s']; [ | exact I ].
    destruct Hc as (_ & Ht & Hp & Hi & _). rewrite Ht.
    destruct (String.eqb (lower side) "buy"); auto.
Qed.

(** C6: whatever the pages hold, a Binance or OKX collection run only
    appends to the collection log, and every row it appends has
    ads_collected = buy_ads + sell_ads. *)
Theorem collection_log_balanced (country_code asset : string) (save_to_csv : bool)
    (s : State W) :
  (exists rows,
     collection_log (store (snd (BinanceP2P.collect_country_data
                                   country_code asset save_to_csv s)))
     = collection_log (store s) ++ rows /\
     Forall (fun e => LogEntry.ads_collected e
                      = (LogEntry.buy_ads e + LogEntry.sell_ads e)%nat) rows) /\
  (exists rows,
     collection_log (store (snd (OKXP2P.collect_country_data
                                   country_code asset save_to_csv s)))
     = collection_log (store s) ++ rows /\
     Forall (fun e => LogEntry.ads_collected e
                      = (LogEntry.buy_ads e + LogEntry.sell_ads e)%nat) rows).
Proof.
  split.
  - pose proof (binance_collect_country_data_spec s country_code asset save_to_csv s
                  (grown_refl s)) as Hc.
    destruct (BinanceP2P.collect_country_data _ _ _ s) as [[ads | e] s']; apply Hc.
  - pose proof (okx_collect_country_data_spec s country_code asset save_to_csv s
                  (grown_refl s)) as Hc.
    destruct (OKXP2P.collect_country_data _ _ _ s) as [[ads | e] s']; apply Hc.
Qed.

(** C3 (amended): OKX maps a side to "BUY" when its lower-case form is
    "buy" and to "SELL" in every other case; Binance copies the side it is
    given into the record; neither rejects a record because of its side:
    whether [standardize_ad] returns is the same for every side. *)
Theorem side_mapping_spec (ad_data : value) (country_code side other : string)
    (s : State W) :
  match OKXP2P.standardize_ad ad_data country_code side s with
  | (Ok ad, _) =>
      Ad.trade_type ad = (if String.eqb (lower side) "buy" then "BUY" else "SELL")
  | (Raise _, _) => True
  end /\
  is_ok (fst (OKXP2P.standardize_ad ad_data country_code side s))
  = is_ok (fst (OKXP2P.standardize_ad ad_data country_code other s)) /\
  match BinanceP2P.standardize_ad ad_data country_code side s with
  | (Ok ad, _) => Ad.trade_type ad = side
  | (Raise _, _) => True
  end /\
  is_ok (fst (BinanceP2P.standardize_ad ad_data country_code side s))
  = is_ok (fst (BinanceP2P.standardize_ad ad_data country_code other s)).
Proof.
  repeat apply conj.
  - pose proof (okx_standardize_ad_spec (fun _ => True) ad_data country_code side
                  (fun _ _ _ => I) s I) as Hc.
    destruct (OKXP2P.standardize_ad _ _ _ s) as [[ad | e] s']; [ apply Hc | exact I ].
  - apply okx_standardize_ad_any_side.
  - pose proof (binance_standardize_ad_spec (fun _ => True) ad_data country_code side
                  (fun _ _ _ => I) s I) as Hc.
    destruct (BinanceP2P.standardize_ad _ _ _ s) as [[ad | e] s']; [ apply Hc | exact I ].
  - apply binance_standardize_ad_any_side.
Qed.

(** C10 (amended): [save_raw_ads] returns, having written into each of
    the caller's records the collection id and, where payment_methods was a
    list, its JSON text in place of the list; every other field keeps its
    value, the file of the day holds the records as they now are, and the
    collection log is untouched. *)
Theorem save_raw_ads_frame (ads : list Ad.t) (platform country_code : string)
    (collection_id : option string) (s : State W) :
  match save_raw_ads ads platform country_code collection_id s with
  | (Ok (path, saved), s') =>
      exists cid,
        Forall2
          (fun ad ad' =>
             Ad.platform ad' = Ad.platform ad /\
             Ad.timestamp ad' = Ad.timestamp ad /\
             Ad.asset ad' = Ad.asset ad /\
             Ad.fiat ad' = Ad.fiat ad /\
             Ad.price ad' = Ad.price ad /\
             Ad.min_amount ad' = Ad.min_amount ad /\
             Ad.max_amount ad' = Ad.max_amount ad /\
             Ad.available_amount ad' = Ad.available_amount ad /\
             Ad.trade_type ad' = Ad.trade_type ad /\
             Ad.country_code ad' = Ad.country_code ad /\
             Ad.advertiser_name ad' = Ad.advertiser_name ad /\
             Ad.completion_rate ad' = Ad.completion_rate ad /\
             Ad.order_count ad' = Ad.order_count ad /\
             Ad.ad_id ad' = Ad.ad_id ad /\
             Ad.premium_pct ad' = Ad.premium_pct ad /\
             Ad.collection_id ad' = Some cid /\
             Ad.payment_methods ad'
             = match Ad.payment_methods ad with
               | VList l => VStr (Json.dumps (VList l))
               | v => v
               end)
          ads saved /\
        (match collection_id with
         | Some given => given <> EmptyString -> cid = given
         | None => True
         end) /\
        raw_files (store s') !! path = Some saved /\
        collection_log (store s') = collection_log (store s)
  | (Raise _, _) => False
  end.
Proof.
  unfold save_raw_ads, mbind, M_bind, bind_m.
  destruct (collection_id_or_new collection_id s) as [[cid | e] s1] eqn:Ecid.
  2: { exfalso. revert Ecid. unfold collection_id_or_new, generate_collection_id,
         mbind, M_bind, bind_m, ask, mret, M_ret, ret.
       destruct collection_id as [ given | ];
         [ destruct (String.eqb given EmptyString) | ];
         try destruct (now_stamp (world s)); discriminate. }
  assert (Hlog : collection_log (store s1) = collection_log (store s) /\
                 match collection_id with
                 | Some given => given <> EmptyString -> cid = given
                 | None => True
                 end).
  { revert Ecid. unfold collection_id_or_new, generate_collection_id,
      mbind, M_bind, bind_m, ask, mret, M_ret, ret.
    destruct collection_id as [ given | ].
    - destruct (String.eqb given EmptyString) eqn:Eg.
      + destruct (now_stamp (world s)). intros [= <- <-]. split; [ reflexivity | ].
        apply String.eqb_eq in Eg. congruence.
      + intros [= <- <-]. auto.
    - destruct (now_stamp (world s)). intros [= <- <-]. auto. }
  destruct Hlog as [Hlog Hgiven].
  unfold ask. destruct (today_str (world s1)) as [today w2]. cbn.
  exists cid. repeat apply conj.
  - induction ads as [ | ad ads IH ]; cbn [map]; constructor; [ | exact IH ].
    unfold tag_ad. destruct ad as [? ? ? ? ? ? ? ? ? ? pm ? ? ? ? ? ?].
    destruct pm; cbn; repeat split.
  - exact Hgiven.
  - apply lookup_insert_eq.
  - exact Hlog.
Qed.

End Adapters.

Import Demo.

(** C3, as stated, fails: OKX files the unknown side "hold" under SELL
    and Binance keeps it as it is; neither raises. *)
Lemma unknown_side_accepted :
  (exists ad s,
     OKXP2P.standardize_ad Demo.okx_order "SD" "hold" Demo.start = (Ok ad, s) /\
     Ad.trade_type ad = "SELL") /\
  (exists ad s,
     BinanceP2P.standardize_ad (Demo.raw_ad "2900" []) "SD" "hold" Demo.start = (Ok ad, s) /\
     Ad.trade_type ad = "hold").
Proof. split; do 2 eexists; split; vm_compute; reflexivity. Qed.

(** C10, as stated, fails: after [save_raw_ads] the caller's record no
    longer holds the list of payment methods that standardization put there,
    but a string. *)
Lemma save_raw_ads_rewrites_payment_methods :
  exists ad s path saved s',
    BinanceP2P.standardize_ad (Demo.raw_ad "2900" ["Zain"]) "SD" "SELL" Demo.start
    = (Ok ad, s) /\
    Ad.payment_methods ad = VList [VStr "Zain"] /\
    save_raw_ads [ad] "binance" "SD" (Some "collection_1") s = (Ok (path, [saved]), s') /\
    Ad.payment_methods saved = VStr (Json.dumps (VList [VStr "Zain"])) /\
    Ad.payment_methods saved <> Ad.payment_methods ad.
Proof.
  do 5 eexists. split; [ vm_compute; reflexivity | ].
  split; [ reflexivity | ]. split; [ vm_compute; reflexivity | ].
  split; [ reflexivity | ]. discriminate.
Qed.

End AdapterFacts.

(** ** The orchestrator *)

Module OrchestratorFacts.
Import Py World CountryProfiles Orchestrator.

Section Run.
Context `{Lib} {W : Type} `{Env W}.
Variable self : DataCollectionOrchestrator W.

(** The country loop returns; its tally is the one it started from plus
    what the cells it ran contributed. *)
Lemma collect_countries_outcomes (platform_name : string) (scraper : Scraper W)
    (countries : list string) (t : tally) (s : State W) :
  let '(os, s') := country_outcomes platform_name scraper countries s in
  exists t',
    collect_countries platform_name scraper countries t s = (Ok t', s') /\
    platform_ads t' = (platform_ads t + total_collected os)%nat /\
    platform_countries t' = (platform_countries t + length (successful os))%nat /\
    errors_so_far t' = errors_so_far t ++ flat_map error_entry os.
Proof.
  revert t s. induction countries as [ | country_code countries IH ]; intros t s.
  - cbn. exists t. repeat split; auto. now rewrite app_nil_r.
  - cbn [country_outcomes collect_countries].
    unfold mbind at 1, M_bind at 1, bind_m at 1, try_except.
    unfold mbind at 1, M_bind at 1, bind_m at 1.
    destruct (cell scraper country_code s) as [[ads | e] s1] eqn:Ec.
    + cbn [mret M_ret ret].
      specialize (IH (Tally (platform_ads t + length ads)
                            (match ads with [] => platform_countries t
                                       | _ => platform_countries t + 1 end)
                            (errors_so_far t)) s1).
      destruct (country_outcomes platform_name scraper countries s1) as [os s2].
      destruct IH as (t' & Hrun & Hads & Hc & He). exists t'.
      split; [ exact Hrun | ]. cbn in *. unfold total_collected, successful in *.
      cbn. rewrite Hads, Hc, He. repeat split; try lia.
      destruct ads; cbn; lia.
    + cbn [is_Exception mret M_ret ret].
      specialize (IH (Tally (platform_ads t) (platform_countries t)
                            (errors_so_far t ++
                             [platform_name +:+ " failed for " +:+ country_code +:+ ": "
                              +:+ exn_msg e])) s1).
      destruct (country_outcomes platform_name scraper countries s1) as [os s2].
      destruct IH as (t' & Hrun & Hads & Hc & He). exists t'.
      split; [ exact Hrun | ]. cbn in *. unfold total_collected, successful in *.
      cbn. rewrite Hads, Hc, He. repeat split; try lia.
      now rewrite <- List.app_assoc.
Qed.

Lemma country_outcomes_shape (platform_name : string) (scraper : Scraper W)
    (countries : list string) (s : State W) :
  let os := fst (country_outcomes platform_name scraper countries s) in
  map cell_country os = countries /\
  Forall (fun o => cell_platform o = platform_name) os.
Proof.
  revert s. induction countries as [ | c countries IH ]; intros s.
  - cbn. split; [ reflexivity | constructor ].
  - cbn [country_outcomes]. destruct (cell scraper c s) as [r s1].
    specialize (IH s1).
    destruct (country_outcomes platform_name scraper countries s1) as [os s2].
    cbn in *. destruct IH as [Hc Hp]. split; [ now rewrite Hc | ].
    constructor; [ reflexivity | exact Hp ].
Qed.

Lemma of_platform_same (platform_name : string) (os : list outcome) :
  Forall (fun o => cell_platform o = platform_name) os ->
  of_platform platform_name os = os.
Proof.
  induction 1 as [ | o os Ho Hos IH ]; [ reflexivity | ].
  unfold of_platform in *. cbn. rewrite Ho, String.eqb_refl. now rewrite IH.
Qed.

Lemma of_platform_other (platform_name other : string) (os : list outcome) :
  other <> platform_name ->
  Forall (fun o => cell_platform o = other) os ->
  of_platform platform_name os = [].
Proof.
  intros Hne. induction 1 as [ | o os Ho Hos IH ]; [ reflexivity | ].
  unfold of_platform in *. cbn. rewrite Ho.
  apply String.eqb_neq in Hne. rewrite Hne. exact IH.
Qed.

Lemma of_platform_app (platform_name : string) (os os' : list outcome) :
  of_platform platform_name (os ++ os')
  = of_platform platform_name os ++ of_platform platform_name os'.
Proof. unfold of_platform. apply List.filter_app. Qed.

Lemma total_collected_app (os os' : list outcome) :
  total_collected (os ++ os') = (total_collected os + total_collected os')%nat.
Proof.
  unfold total_collected. induction os as [ | o os IH ]; cbn; [ reflexivity | ].
  rewrite IH. lia.
Qed.

(** The outcomes of platforms none of which is [platform_name]. *)
Lemma of_platform_absent (platform_name : string) (platforms : list (string * Scraper W))
    (countries : list string) (s : State W) :
  ~ In platform_name (map fst platforms) ->
  of_platform platform_name (fst (platform_outcomes platforms countries s)) = [].
Proof.
  revert s. induction platforms as [ | [name scraper] platforms IH ]; intros s Hn.
  - reflexivity.
  - cbn [platform_outcomes].
    pose proof (country_outcomes_shape name scraper countries s) as [_ Hp].
    destruct (country_outcomes name scraper countries s) as [os s1].
    specialize (IH s1). destruct (platform_outcomes platforms countries s1) as [os' s2].
    cbn [fst] in *. rewrite of_platform_app.
    rewrite (of_platform_other platform_name name os), IH; auto.
    + intros Hin. apply Hn. now right.
    + intros ->. apply Hn. now left.
Qed.

(** The platform loop returns; the summary it builds is the one it
    started from plus what the cells contributed. *)
Lemma collect_platforms_outcomes (platforms : list (string * Scraper W))
    (countries : list string) (summary : Summary) (s : State W) :
  let '(os, s') := platform_outcomes platforms countries s in
  exists summary',
    collect_platforms platforms countries summary s = (Ok summary', s') /\
    timestamp summary' = timestamp summary /\
    total_ads_collected summary'
    = (total_ads_collected summary + total_collected os)%nat /\
    errors summary' = errors summary ++ flat_map error_entry os /\
    (forall name, ~ In name (map fst platforms) ->
       platform_stats summary' !! name = platform_stats summary !! name) /\
    (NoDup (map fst platforms) ->
     forall name, In name (map fst platforms) ->
       platform_stats summary' !! name
       = Some {| ads_collected := total_collected (of_platform name os);
                 countries_successful := length (successful (of_platform name os)) |}).
Proof.
  revert summary s.
  induction platforms as [ | [name scraper] platforms IH ]; intros summary s.
  - cbn. exists summary. repeat split; auto.
    + now rewrite app_nil_r.
    + intros _ n [].
  - cbn [platform_outcomes collect_platforms].
    pose proof (collect_countries_outcomes name scraper countries
                  (Tally 0 0 (errors summary)) s) as Hc.
    pose proof (country_outcomes_shape name scraper countries s) as [_ Hp].
    destruct (country_outcomes name scraper countries s) as [os s1].
    destruct Hc as (t & Hrun & Hads & Hcs & He). cbn [fst] in Hp.
    unfold mbind at 1, M_bind at 1, bind_m at 1. rewrite Hrun.
    match goal with |- context [ collect_platforms platforms countries ?sm s1 ] =>
      specialize (IH sm s1) end.
    pose proof (of_platform_absent name platforms countries s1) as Habs.
    destruct (platform_outcomes platforms countries s1) as [os' s2].
    destruct IH as (summary' & Hrun' & Hts & Htot & Herr & Hout & Hin).
    exists summary'. cbn [fst] in Habs.
    cbn [timestamp total_ads_collected errors platform_stats platform_ads
         platform_countries errors_so_far] in *.
    split; [ exact Hrun' | ]. split; [ exact Hts | ].
    split; [ rewrite Htot, Hads, total_collected_app; lia | ].
    split; [ rewrite Herr, He, flat_map_app, List.app_assoc; reflexivity | ].
    split.
    + intros n Hn. rewrite Hout by (intros Hi; apply Hn; now right).
      apply lookup_insert_ne. intros ->. apply Hn. now left.
    + intros Hnd n Hn. cbn [map fst] in Hnd, Hn. apply NoDup_cons in Hnd.
      destruct Hnd as [Hfresh Hnd]. rewrite of_platform_app.
      destruct (String.eqb_spec name n) as [ <- | Hne ].
      * rewrite Hout by (intros Hi; apply Hfresh; apply list_elem_of_In; exact Hi).
        rewrite lookup_insert_eq, (of_platform_same name os Hp), Habs, app_nil_r
          by (intros Hi; apply Hfresh; apply list_elem_of_In; exact Hi).
        rewrite Hads, Hcs. reflexivity.
      * destruct Hn as [ Hn | Hn ]; [ contradiction | ].
        rewrite (of_platform_other n name os Hne Hp). cbn [app].
        apply Hin; [ exact Hnd | exact Hn ].
Qed.

Lemma error_entries_count (os : list outcome) :
  length (flat_map error_entry os) = length (List.filter raised os).
Proof.
  induction os as [ | o os IH ]; [ reflexivity | ].
  cbn [flat_map List.filter]. rewrite length_app, IH.
  unfold error_entry, raised. destruct (cell_result o); reflexivity.
Qed.

Lemma platform_outcomes_length (platforms : list (string * Scraper W))
    (countries : list string) (s : State W) :
  length (fst (platform_outcomes platforms countries s))
  = (length platforms * length countries)%nat.
Proof.
  revert s. induction platforms as [ | [name scraper] platforms IH ]; intros s.
  - reflexivity.
  - cbn [platform_outcomes].
    pose proof (country_outcomes_shape name scraper countries s) as [Hc _].
    destruct (country_outcomes name scraper countries s) as [os s1].
    specialize (IH s1). destruct (platform_outcomes platforms countries s1) as [os' s2].
    cbn [fst length] in *. rewrite length_app, IH, <- Hc, length_map. lia.
Qed.

Lemma collect_rates_returns (s : State W) :
  exists rate_errors,
    fst (collect_rates self s) = Ok rate_errors /\ (length rate_errors <= 1)%nat.
Proof.
  unfold collect_rates, try_except, mbind, M_bind, bind_m.
  destruct (collect_all_current_rates self s) as [[rates | e] s']; cbn;
    eexists; split; try reflexivity; cbn; lia.
Qed.

(** C9: a snapshot run always returns a summary.  Its countries_processed
    is the number of countries of the run (the ones given, or all the
    supported ones when none is given); its error list is the entry of the
    exchange-rate step, if that failed, followed by exactly one entry per cell
    that raised, in the order of the cells; its total is the sum of what the
    other cells collected, and so are, platform by platform, its platform
    statistics. *)
Theorem snapshot_resilient (countries : option (list string)) (s : State W) :
  let run := countries_or_all countries in
  let s1 := snd (collect_rates self (snd (ask now_isoformat s))) in
  let cells := fst (platform_outcomes (scrapers self) run s1) in
  exists summary rate_errors,
    fst (collect_current_snapshot self countries s) = Ok summary /\
    fst (collect_rates self (snd (ask now_isoformat s))) = Ok rate_errors /\
    (length rate_errors <= 1)%nat /\
    length cells = (length (scrapers self) * length run)%nat /\
    countries_processed summary = length run /\
    errors summary = rate_errors ++ flat_map error_entry cells /\
    length (errors summary) = (length rate_errors + length (List.filter raised cells))%nat /\
    total_ads_collected summary = total_collected cells /\
    (NoDup (map fst (scrapers self)) ->
     forall name, In name (map fst (scrapers self)) ->
       platform_stats summary !! name
       = Some {| ads_collected := total_collected (of_platform name cells);
                 countries_successful := length (successful (of_platform name cells)) |}).
Proof.
  intros run s1 cells. subst s1 cells.
  destruct (ask now_isoformat s) as [r0 s0] eqn:E0.
  assert (exists now, r0 = Ok now) as [now ->].
  { revert E0. unfold ask. destruct (now_isoformat (world s)) as [now w].
    intros [= <- _]. eauto. }
  cbn [snd].
  destruct (collect_rates_returns s0) as (rate_errors & Hr & Hlen).
  destruct (collect_rates self s0) as [r1 s1] eqn:E1. cbn [fst snd] in *. subst r1.
  pose proof (collect_platforms_outcomes (scrapers self) run
                {| timestamp := now; countries_processed := 0; total_ads_collected := 0;
                   platform_stats := ∅; errors := rate_errors |} s1) as Hp.
  pose proof (platform_outcomes_length (scrapers self) run s1) as Hl.
  destruct (platform_outcomes (scrapers self) run s1) as [os s2].
  destruct Hp as (summary & Hrun & Hts & Htot & Herr & Hout & Hin).
  cbn [fst] in *.
  unfold collect_current_snapshot. fold run.
  unfold mbind at 1, M_bind at 1, bind_m at 1. rewrite E0.
  unfold mbind at 1, M_bind at 1, bind_m at 1. rewrite E1.
  unfold mbind at 1, M_bind at 1, bind_m at 1. rewrite Hrun. cbn [mret M_ret ret fst].
  eexists. exists rate_errors. split; [ reflexivity | ].
  cbn [countries_processed errors total_ads_collected platform_stats] in *.
  repeat apply conj; auto.
  rewrite Herr, length_app, error_entries_count. reflexivity.
Qed.

End Run.

Import Demo.

(** The resilience theorem at work: two platforms, four countries. *)
Lemma snapshot_resilient_witness :
  exists summary,
    fst (collect_current_snapshot orchestrator (Some ["SD"; "XX"; "VE"; "NG"]) start)
    = Ok summary /\
    countries_processed summary = 4%nat /\
    length (errors summary) = 3%nat /\
    platform_stats summary !! "okx"
    = Some {| ads_collected := 3; countries_successful := 3 |}.
Proof.
  destruct (snapshot_resilient orchestrator (Some ["SD"; "XX"; "VE"; "NG"]) start)
    as (summary & rate_errors & Hrun & Hrates & _ & _ & Hn & _ & Hlen & _ & Hstats).
  exists summary. split; [ exact Hrun | ]. split; [ exact Hn | ].
  split.
  - rewrite Hlen. injection Hrates as <-. vm_compute. reflexivity.
  - assert (Hnd : NoDup (map fst (scrapers orchestrator))).
    { apply (bool_decide_unpack _). vm_compute. exact I. }
    rewrite (Hstats Hnd "okx" ltac:(cbn; auto)).
    vm_compute. reflexivity.
Defined.

End OrchestratorFacts.

(** ** The orchestrator on the concrete world *)

Module OrchestratorRuns.
Import Py World Orchestrator Demo.

(** Four countries on two platforms: the unknown country XX fails on
    both, Nigeria fails on Binance (the body is not a dict), Venezuela yields
    nothing on Binance (the request fails inside the adapter). *)
Example snapshot_run :
  match fst (collect_current_snapshot orchestrator (Some ["SD"; "XX"; "VE"; "NG"]) start) with
  | Ok summary =>
      countries_processed summary = 4%nat /\
      total_ads_collected summary = 6%nat /\
      errors summary
      = [ "binance failed for XX: No profile found for country code: XX";
          "binance failed for NG: list object has no attribute get";
          "okx failed for XX: No profile found for country code: XX" ] /\
      platform_stats summary !! "binance"
      = Some {| ads_collected := 3; countries_successful := 1 |} /\
      platform_stats summary !! "okx"
      = Some {| ads_collected := 3; countries_successful := 3 |}
  | Raise _ => False
  end.
Proof. vm_compute. repeat split; reflexivity. Qed.

End OrchestratorRuns.

(** ** The correlation of prices with crisis events *)

Module AnalysisFacts.
Import Py Analysis.

Lemma filter_filter {A} (f g : A -> bool) (l : list A) :
  List.filter f (List.filter g l) = List.filter (fun x => g x && f x) l.
Proof.
  induction l as [ | x l IH ]; [ reflexivity | ].
  cbn. destruct (g x); cbn; [ destruct (f x) | ]; now rewrite IH.
Qed.

Lemma filter_ext_bool {A} (f g : A -> bool) (l : list A) :
  (forall x, f x = g x) -> List.filter f l = List.filter g l.
Proof. intros E. induction l as [ | x l IH ]; cbn; [ | rewrite E, IH ]; reflexivity. Qed.

Lemma last_some {A} (l : list A) (x : A) :
  List.last (map Some (l ++ [x])) None = Some x.
Proof.
  induction l as [ | y l IH ]; [ reflexivity | ].
  change (List.last (Some y :: map Some (l ++ [x])) None = Some x).
  destruct (l ++ [x]) as [ | z l' ] eqn:E; [ destruct l; discriminate E | ].
  exact IH.
Qed.

Lemma last_none {A} (l : list A) : List.last (map Some l) None = None -> l = [].
Proof.
  destruct l as [ | y l ] using rev_ind; [ reflexivity | ].
  rewrite last_some. discriminate.
Qed.

Section Windows.
Context `{Lib}.

Lemma before_between (event_date : Z) (data : series) :
  before event_date (between (event_date - 30) (event_date + 30) data)
  = pre_window event_date data.
Proof.
  unfold before, between, pre_window. rewrite filter_filter.
  apply filter_ext_bool. intros [d c]. cbn.
  destruct (event_date - 30 <=? d)%Z eqn:E1, (d <? event_date)%Z eqn:E2,
           (d <=? event_date + 30)%Z eqn:E3; cbn; try reflexivity; lia.
Qed.

Lemma from_between (event_date : Z) (data : series) :
  from event_date (between (event_date - 30) (event_date + 30) data)
  = post_window event_date data.
Proof.
  unfold from, between, post_window. rewrite filter_filter.
  apply filter_ext_bool. intros [d c]. cbn.
  destruct (event_date - 30 <=? d)%Z eqn:E1, (event_date <=? d)%Z eqn:E2,
           (d <=? event_date + 30)%Z eqn:E3; cbn; try reflexivity; lia.
Qed.

Lemma between_nil_windows (event_date : Z) (data : series) :
  between (event_date - 30) (event_date + 30) data = [] ->
  pre_window event_date data = [] /\ post_window event_date data = [].
Proof.
  intros E. rewrite <- before_between, <- from_between, E. split; reflexivity.
Qed.

(** C2 (amended).  With [pre] and [post] the closes of the pre and post
    windows of an event and [window] those of the whole 61-day window:
    [correlate_with_historical_data] measures an instrument when both windows
    are non-empty, and then stores price_change_pct = (first post close - last
    pre close) / last pre close * 100 and one volatility, stdev / mean * 100
    over the whole window; it stores no volatility change.
    [analyze_crisis_correlations] appends a row when moreover the window has
    more than 10 rows, and then price_change_pct = (mean(post) - mean(pre)) /
    mean(pre) * 100, the two volatilities are the plain standard deviations
    of [pre] and [post], and volatility_change_pct is their relative change
    in percent, or 0 when the pre volatility is not positive. *)
Theorem correlation_spec (event_date : Z) (data : series) :
  let window := closes (between (event_date - 30) (event_date + 30) data) in
  let pre := closes (pre_window event_date data) in
  let post := closes (post_window event_date data) in
  (forall pre' pre_last post_first post',
     pre = pre' ++ [pre_last] -> post = post_first :: post' ->
     analyze_instrument event_date data
     = Measured
         (fmul (fdiv (Some (post_first - pre_last)%Q) (Some pre_last)) (Some 100%Q))
         (fmul (fdiv (std window) (mean window)) (Some 100%Q))) /\
  (pre = [] \/ post = [] ->
     analyze_instrument event_date data = NotSet \/
     analyze_instrument event_date data = BothNone) /\
  (forall x pre' y post',
     pre = x :: pre' -> post = y :: post' -> (10 < length window)%nat ->
     analyze_crisis event_date data
     = Some {| pre_crisis_price := mean pre;
               post_crisis_price := mean post;
               price_change_pct :=
                 fmul (fdiv (fsub (mean post) (mean pre)) (mean pre)) (Some 100%Q);
               pre_volatility := std pre;
               post_volatility := std post;
               volatility_change_pct :=
                 if fpos (std pre)
                 then fmul (fdiv (fsub (std post) (std pre)) (std pre)) (Some 100%Q)
                 else Some 0%Q;
               data_points := length window |}) /\
  (pre = [] \/ post = [] \/ (length window <= 10)%nat ->
     analyze_crisis event_date data = None).
Proof.
  intros window pre post. subst window pre post.
  pose proof (before_between event_date data) as Eb.
  pose proof (from_between event_date data) as Ef.
  pose proof (between_nil_windows event_date data) as En.
  unfold analyze_instrument, analyze_crisis. cbn zeta.
  set (period := between (event_date - 30) (event_date + 30) data) in *.
  rewrite Eb, Ef. clear Eb Ef.
  set (pre := closes (pre_window event_date data)) in *.
  set (post := closes (post_window event_date data)) in *.
  assert (Hnil : period = [] -> pre = [] /\ post = []).
  { intros E. destruct (En E) as [E1 E2]. subst pre post. now rewrite E1, E2. }
  clearbody pre post. clear En.
  repeat apply conj.
  - intros pre' pre_last post_first post' -> ->.
    destruct period as [ | r period ].
    { destruct (Hnil eq_refl) as [E _]. destruct pre'; discriminate E. }
    rewrite last_some. reflexivity.
  - intros [ -> | -> ].
    + destruct period; [ now left | right; reflexivity ].
    + destruct period; [ now left | right ].
      cbn [List.head]. destruct (List.last (map Some pre) None); reflexivity.
  - intros x pre' y post' -> -> Hlen.
    unfold closes in Hlen. rewrite length_map in Hlen.
    apply Nat.ltb_lt in Hlen. unfold closes at 1. rewrite length_map, Hlen.
    reflexivity.
  - intros [ -> | [ -> | Hlen ] ].
    + destruct (10 <? length period)%nat; reflexivity.
    + destruct (10 <? length period)%nat; [ destruct pre | ]; reflexivity.
    + unfold closes in Hlen. rewrite length_map in Hlen.
      apply Nat.ltb_ge in Hlen. now rewrite Hlen.
Qed.

End Windows.

Import Demo.

(** C2, as stated, fails on [correlate_with_historical_data]: for closes
    100, 200 before the event and 300, 400 from it on, it reports a price
    change of 50 percent, the step from 200 to 300, where the claim's quotient
    of the window means gives 133.33; and for a series flat at 100 before and
    at 110 after the event its one volatility, taken over the whole window, is
    not zero. *)
Lemma correlation_uses_endpoints :
  match analyze_instrument 1000 rising_series with
  | Measured (Some change) _ =>
      (change == 50)%Q /\
      match fmul (fdiv (fsub (mean [300; 400]%Q) (mean [100; 200]%Q))
                       (mean [100; 200]%Q)) (Some 100%Q) with
      | Some claimed => (claimed == 400 # 3)%Q /\ ~ (change == claimed)%Q
      | None => False
      end
  | _ => False
  end /\
  match analyze_instrument 1000 flat_series with
  | Measured (Some change) (Some volatility) =>
      (change == 10)%Q /\ ~ (volatility == 0)%Q
  | _ => False
  end.
Proof.
  vm_compute. repeat split; try reflexivity; intros E; discriminate E.
Qed.

(** The correlation theorem at work on the rising series. *)
Lemma correlation_spec_witness :
  closes (pre_window 1000 rising_series) = [100 # 1; 200 # 1]%Q /\
  closes (post_window 1000 rising_series) = [300 # 1; 400 # 1]%Q /\
  analyze_instrument 1000 rising_series
  = Measured
      (fmul (fdiv (Some ((300 # 1) - (200 # 1))%Q) (Some (200 # 1)%Q)) (Some 100%Q))
      (fmul (fdiv (std (closes (between (1000 - 30) (1000 + 30) rising_series)))
                  (mean (closes (between (1000 - 30) (1000 + 30) rising_series))))
            (Some 100%Q)).
Proof.
  do 2 (split; [ reflexivity | ]).
  apply (proj1 (correlation_spec 1000 rising_series)
               [100 # 1]%Q (200 # 1)%Q (300 # 1)%Q [400 # 1]%Q); reflexivity.
Defined.

(** On the flat series [analyze_crisis_correlations] does report what the
    specification's example expects. *)
Example flat_series_row :
  match analyze_crisis 1000 flat_series with
  | Some r =>
      match price_change_pct r, pre_volatility r, post_volatility r,
            volatility_change_pct r with
      | Some change, Some pre_vol, Some post_vol, Some vol_change =>
          (change == 10)%Q /\ (pre_vol == 0)%Q /\ (post_vol == 0)%Q /\
          (vol_change == 0)%Q /\ data_points r = 20%nat
      | _, _, _, _ => False
      end
  | None => False
  end.
Proof. vm_compute. repeat split; reflexivity. Qed.

End AnalysisFacts.
(** * Further properties of the code *)

(** ** The premium on floats: what raises and what passes through *)

Module PremiumExtras.
Import Py PyFacts ExchangeRates ExchangeRatesFacts Spec.

Lemma calculate_premium_floats (p r b : spec_float) :
  calculate_premium (NFloat p) (NFloat r) (NFloat b)
  = if is_zero r then Ok (S754_zero false)
    else if is_zero b then Raise (Exn ZeroDivisionError "float division by zero")
    else Ok (round2 (SFmul prec emax
                       (SFdiv prec emax (SFsub prec emax (SFdiv prec emax p r) b) b)
                       hundred)).
Proof.
  destruct (is_zero r) eqn:Hr.
  - now apply calculate_premium_zero_rate.
  - rewrite calculate_premium_formula by exact Hr.
    destruct (is_zero b) eqn:Hb; [ | now apply premium_formula_float ].
    unfold premium_formula, mbind, result_bind.
    rewrite truediv_float, Hr. cbn [bind sub as_double].
    rewrite truediv_float, Hb. reflexivity.
Qed.

Lemma SFdiv_nan_l (y : spec_float) : SFdiv prec emax S754_nan y = S754_nan.
Proof. destruct y; reflexivity. Qed.

Lemma SFdiv_nan_r (x : spec_float) : SFdiv prec emax x S754_nan = S754_nan.
Proof. destruct x; reflexivity. Qed.

Lemma SFsub_nan_l (y : spec_float) : SFsub prec emax S754_nan y = S754_nan.
Proof. destruct y; reflexivity. Qed.

Lemma SFsub_nan_r (x : spec_float) : SFsub prec emax x S754_nan = S754_nan.
Proof. destruct x; reflexivity. Qed.

(** X1: on float arguments [calculate_premium] raises in one case only, a
    rate different from zero with a base value equal to zero, and what it
    raises then is ZeroDivisionError.  Nothing checks for NaN: with a rate
    and a base value different from zero, a NaN among the three arguments
    gives NaN (a NaN rate is different from zero); a zero rate gives 0.0 even
    for a NaN price or a zero base value.  An int too large for a float
    raises OverflowError, as 10**400 does. *)
Theorem calculate_premium_on_floats (p r b : spec_float) :
  (is_ok (calculate_premium (NFloat p) (NFloat r) (NFloat b)) = false <->
   is_zero r = false /\ is_zero b = true) /\
  (forall e, calculate_premium (NFloat p) (NFloat r) (NFloat b) = Raise e ->
             exn_class e = ZeroDivisionError) /\
  (is_zero r = false -> is_zero b = false ->
   p = S754_nan \/ r = S754_nan \/ b = S754_nan ->
   calculate_premium (NFloat p) (NFloat r) (NFloat b) = Ok S754_nan) /\
  (is_zero r = true ->
   calculate_premium (NFloat p) (NFloat r) (NFloat b) = Ok (S754_zero false)) /\
  (exists e, calculate_premium (NInt (10 ^ 400)) (NInt 1) (NFloat (literal 1 1)) = Raise e /\
             exn_class e = OverflowError).
Proof.
  rewrite calculate_premium_floats.
  repeat apply conj.
  - destruct (is_zero r), (is_zero b); cbn; intros H; try discriminate H; auto.
  - destruct (is_zero r), (is_zero b); cbn; intros [Hr Hb];
      try discriminate Hr; try discriminate Hb; reflexivity.
  - intros e. destruct (is_zero r); [ discriminate | ].
    destruct (is_zero b); [ | discriminate ]. intros [= <-]. reflexivity.
  - intros -> -> [ -> | [ -> | -> ] ].
    + now rewrite !SFdiv_nan_l.
    + now rewrite SFdiv_nan_r, SFsub_nan_l, SFdiv_nan_l.
    + now rewrite SFsub_nan_r, SFdiv_nan_r.
  - intros ->. reflexivity.
  - eexists. split; [ vm_compute; reflexivity | reflexivity ].
Qed.

Lemma calculate_premium_on_floats_witness :
  is_ok (calculate_premium (NFloat (literal 2900 1)) (NFloat (literal 600 1))
                           (NFloat (S754_zero true))) = false /\
  calculate_premium (NFloat S754_nan) (NFloat (literal 600 1)) (NFloat (literal 1 1))
  = Ok S754_nan /\
  calculate_premium (NFloat S754_nan) (NFloat (S754_zero true)) (NFloat (S754_zero false))
  = Ok (S754_zero false).
Proof.
  split; [ | split ].
  - apply (proj1 (calculate_premium_on_floats (literal 2900 1) (literal 600 1)
                    (S754_zero true))).
    split; reflexivity.
  - apply (proj1 (proj2 (proj2 (calculate_premium_on_floats S754_nan (literal 600 1)
                                  (literal 1 1))))); auto; reflexivity.
  - apply (proj1 (proj2 (proj2 (proj2 (calculate_premium_on_floats
                                         S754_nan (S754_zero true) (S754_zero false)))))).
    reflexivity.
Defined.

End PremiumExtras.

(** ** The rate sources: fallback order and failure *)

Module RateSourceExtras.
Import Py World Spec MFacts Hoare CountryProfiles CSVDataManager ExchangeRates SamplingFacts
       AdapterFacts.

Section Collector.
Context `{Lib} {W : Type} `{Env W}.
Variable self : ExchangeRateCollector.

(** The rate sources only talk to the outside world. *)
Lemma fetch_from_source_io (P : State W -> Prop) (source base_currency : string) :
  world_blind P -> triple P (_fetch_from_source self source base_currency) (fun _ => P) P.
Proof.
  intros HP. unfold _fetch_from_source.
  repeat match goal with |- context [ if ?b then _ else _ ] => destruct b end;
    first [ apply triple_call_keep, HP | apply triple_ret; auto ].
Qed.

Lemma current_rates_from_io (P : State W -> Prop) sources base_currency rates :
  world_blind P ->
  triple P (current_rates_from self sources base_currency rates) (fun _ => P) P.
Proof.
  intros HP. revert rates. induction sources as [ | source sources IH ]; intros rates;
    cbn [current_rates_from].
  - apply triple_ret. auto.
  - eapply triple_bind with (Q' := fun _ => P).
    + eapply triple_try with (R' := P); [ | intros e; apply triple_ret; auto | auto ].
      eapply triple_bind; [ apply fetch_from_source_io, HP | intros [ | kv l ] ];
        apply triple_ret; auto.
    + intros [ r | ]; [ apply triple_ret; auto | apply IH ].
Qed.

Lemma historical_rates_from_io (P : State W -> Prop) sources date :
  world_blind P ->
  triple P (historical_rates_from self sources date) (fun _ => P) P.
Proof.
  intros HP. induction sources as [ | source sources IH ]; cbn [historical_rates_from].
  - apply triple_ret. auto.
  - eapply triple_bind with (Q' := fun _ => P).
    + eapply triple_try with (R' := P); [ | intros e; apply triple_ret; auto | auto ].
      repeat match goal with |- context [ if ?b then _ else _ ] => destruct b end;
        try (apply triple_ret; auto);
        (eapply triple_bind; [ apply triple_call_keep, HP | intros ? ]);
        apply triple_ret; auto.
    + intros [ r | ]; [ apply triple_ret; auto | apply IH ].
Qed.

(** X2: [get_current_rates] stops at the first source that answers with
    a non-empty rate table: when the first source does, the result is exactly
    its table and no other source is asked (the world is the one that request
    left; the files are untouched). *)
Theorem get_current_rates_first_success (base_currency : string) (s : State W)
    (kv : string * Q) (rest : list (string * Q)) (w : W) :
  rates_get "https://api.exchangerate-api.com/v4/latest/USD" [] (world s)
  = (Ok (kv :: rest), w) ->
  get_current_rates self base_currency s
  = (Ok (update ∅ (kv :: rest)), MkState w (store s) (requested s)).
Proof.
  intros Hget. unfold get_current_rates. cbn [current_rates_from].
  unfold mbind at 1, M_bind at 1, bind_m at 1, try_except.
  unfold mbind at 1, M_bind at 1, bind_m at 1.
  unfold _fetch_from_source. cbn [String.eqb Ascii.eqb Bool.eqb].
  unfold call. rewrite Hget. reflexivity.
Qed.

Lemma current_rates_from_all_fail sources base_currency rates (s : State W) :
  (forall url params w, exists r w',
      rates_get url params w = (r, w') /\ (r = Ok [] \/ exists e, r = Raise e)) ->
  fst (current_rates_from self sources base_currency rates s) = Ok rates.
Proof.
  intros Hfail. revert s. induction sources as [ | source sources IH ]; intros s;
    cbn [current_rates_from]; [ reflexivity | ].
  unfold mbind at 1, M_bind at 1, bind_m at 1, try_except.
  unfold mbind at 1, M_bind at 1, bind_m at 1.
  assert (Hf : exists s', _fetch_from_source self source base_currency s = (Ok [], s') \/
                          exists e, _fetch_from_source self source base_currency s = (Raise e, s')).
  { unfold _fetch_from_source.
    repeat match goal with |- context [ if ?b then _ else _ ] => destruct b end;
      try (eexists; left; reflexivity);
      unfold call;
      match goal with |- context [ rates_get ?u ?p ?w ] =>
        destruct (Hfail u p w) as (r & w' & -> & [ -> | [e ->] ]) end;
      first [ eexists; left; reflexivity | eexists; right; eexists; reflexivity ]. }
  destruct Hf as (s' & [ -> | [e ->] ]); cbn; apply IH.
Qed.

(** X3: [get_current_rates] never raises, whatever the sources do, and
    touches neither the files nor the request log; and when no source answers
    with a non-empty table (each fails or is empty) its result is the empty
    map. *)
Theorem get_current_rates_never_raises (base_currency : string) (s : State W) :
  is_ok (fst (get_current_rates self base_currency s)) = true /\
  store (snd (get_current_rates self base_currency s)) = store s /\
  ((forall url params w, exists r w',
       rates_get url params w = (r, w') /\ (r = Ok [] \/ exists e, r = Raise e)) ->
   fst (get_current_rates self base_currency s) = Ok ∅).
Proof.
  split; [ apply quiet_current_rates_from | split ].
  - pose proof (current_rates_from_io (fun s' => store s' = store s)
                  ["exchangerate_api"; "openexchangerates"; "fixer"] base_currency ∅
                  (fun _ _ E => E) s eq_refl) as Ht.
    unfold get_current_rates.
    destruct (current_rates_from self _ base_currency ∅ s) as [[r | e] s']; exact Ht.
  - intros Hfail. apply current_rates_from_all_fail, Hfail.
Qed.

(** X4: without an API key [get_historical_rates] asks one source only,
    the second one, with no parameters: its result is that source's table,
    or the empty map when the request fails or the table is empty; it never
    raises. *)
Theorem get_historical_rates_without_key (date base_currency : string) (s : State W) :
  api_key self = None ->
  get_historical_rates self date base_currency s
  = match rates_get ("http://data.fixer.io/api/" +:+ date) [] (world s) with
    | (Ok (kv :: rest), w) =>
        (Ok (update ∅ (kv :: rest)), MkState w (store s) (requested s))
    | (_, w) => (Ok ∅, MkState w (store s) (requested s))
    end.
Proof.
  intros Hkey. unfold get_historical_rates. cbn [historical_rates_from].
  assert (Hk : has_key self = false) by (unfold has_key; now rewrite Hkey).
  rewrite Hk. cbn [String.eqb Ascii.eqb Bool.eqb andb].
  unfold mbind at 1, M_bind at 1, bind_m at 1, try_except. cbn [mret M_ret ret].
  unfold mbind at 1, M_bind at 1, bind_m at 1, try_except.
  unfold mbind at 1, M_bind at 1, bind_m at 1.
  unfold call. destruct s as [w0 st rq]. cbn [world store requested].
  destruct (rates_get _ [] w0) as [[[ | kv rest ] | e] w]; reflexivity.
Qed.

End Collector.

Import Demo.

Lemma get_current_rates_first_success_witness :
  get_current_rates Demo.collector "USD" Demo.start
  = (Ok (update ∅ [("SDG", 600 # 1); ("NGN", 1500 # 1)]%Q), MkState 1%nat empty_store []).
Proof.
  apply (get_current_rates_first_success Demo.collector "USD" Demo.start
           ("SDG", 600 # 1)%Q [("NGN", 1500 # 1)%Q] 1%nat).
  reflexivity.
Defined.

Lemma get_historical_rates_without_key_witness :
  get_historical_rates Demo.collector "2021-10-01" "USD" Demo.start
  = (Ok ∅, MkState 1%nat empty_store []).
Proof.
  rewrite (get_historical_rates_without_key Demo.collector "2021-10-01" "USD" Demo.start
             eq_refl).
  reflexivity.
Defined.

End RateSourceExtras.

(** ** Crisis-period rates: bad input and the records returned *)

Module CrisisRatesExtras.
Import Py World Spec RunSpec CrisisRatesSpec MFacts Hoare CountryProfiles CSVDataManager
       ExchangeRates SamplingFacts AdapterFacts RateSourceExtras.

Section Collector.
Context `{Lib} {W : Type} `{Env W}.
Variable self : ExchangeRateCollector.

Lemma get_current_rates_store (base_currency : string) (s : State W) :
  exists rates s', get_current_rates self base_currency s = (Ok rates, s') /\
                   store s' = store s.
Proof.
  pose proof (current_rates_from_io self (fun s' => store s' = store s)
                ["exchangerate_api"; "openexchangerates"; "fixer"] base_currency ∅
                (fun _ _ E => E) s eq_refl) as Ht.
  pose proof (quiet_current_rates_from self
                ["exchangerate_api"; "openexchangerates"; "fixer"] base_currency ∅ s)
    as [Ho _].
  unfold get_current_rates.
  destruct (current_rates_from self _ base_currency ∅ s) as [[r | e] s'];
    [ | discriminate Ho ].
  eauto.
Qed.

Lemma get_historical_rates_store (date base_currency : string) (s : State W) :
  exists rates s', get_historical_rates self date base_currency s = (Ok rates, s') /\
                   store s' = store s.
Proof.
  pose proof (historical_rates_from_io self (fun s' => store s' = store s)
                ["openexchangerates"; "fixer"] date (fun _ _ E => E) s eq_refl) as Ht.
  pose proof (quiet_historical_rates_from self ["openexchangerates"; "fixer"] date s)
    as [Ho _].
  unfold get_historical_rates.
  destruct (historical_rates_from self _ date s) as [[r | e] s']; [ | discriminate Ho ].
  eauto.
Qed.

(** One pass of the loop body fetches the table of the day and adds a
    record when the table has the currency; it writes no file. *)
Lemma rates_for_day_quoted (fiat : string) (current_dt : Z) (rates_data : list Rate.t)
    (s : State W) :
  exists rates s1,
    day_rates self current_dt s = (Ok rates, s1) /\
    store s1 = store s /\
    store (snd (generate_collection_id s1)) = store s /\
    match rates !! fiat with
    | Some rate =>
        exists cid,
          rates_for_day self fiat current_dt rates_data s
          = (Ok (rates_data ++ [record_of fiat cid (current_dt, rate)]),
             snd (generate_collection_id s1))
    | None => rates_for_day self fiat current_dt rates_data s = (Ok rates_data, s1)
    end.
Proof.
  unfold rates_for_day, day_rates, mbind, M_bind, bind_m, ask, note_request.
  destruct (today_ordinal (world s)) as [today w1].
  set (s1 := MkState w1 (store s) (requested s ++ [strftime current_dt])).
  assert (Hr : exists rates s2,
             (if decide (current_dt = today) then get_current_rates self "USD"
              else get_historical_rates self (strftime current_dt) "USD") s1
             = (Ok rates, s2) /\ store s2 = store s).
  { destruct (decide _);
      [ destruct (get_current_rates_store "USD" s1) as (r & s2 & E & Hs)
      | destruct (get_historical_rates_store (strftime current_dt) "USD" s1)
          as (r & s2 & E & Hs) ];
      exists r, s2; split; auto. }
  cbn [world store requested]. fold s1.
  destruct Hr as (rates & s2 & -> & Hs2).
  exists rates, s2. split; [ reflexivity | ]. split; [ exact Hs2 | ].
  unfold generate_collection_id, mbind, M_bind, bind_m, ask.
  destruct (rates !! fiat) as [ rate | ];
    cbn beta iota; destruct (now_stamp (world s2)) as [stamp w3];
    cbn [mret M_ret ret snd store world requested];
    (split; [ exact Hs2 | ]); [ | reflexivity ].
  exists ("collection_" +:+ stamp). reflexivity.
Qed.

(** While no step leaves the calendar the loop returns; it adds one record
    for each day for which the sources give a rate of the currency, and
    writes no file. *)
Lemma rates_loop_records (fiat : string) (start_dt end_dt current_dt : Z)
    (rates_data : list Rate.t) (s : State W) :
  (end_dt + days_to_add start_dt end_dt <= max_ordinal)%Z ->
  exists new s',
    rates_loop self fiat start_dt end_dt current_dt rates_data s
    = (Ok (rates_data ++ new), s') /\
    store s' = store s /\
    Forall2 (fun quote r => exists cid, r = record_of fiat cid quote)
            (fst (quoted self fiat
                    (dates_from current_dt end_dt (days_to_add start_dt end_dt)) s))
            new.
Proof.
  funelim (rates_loop self fiat start_dt end_dt current_dt rates_data s);
    pose proof (days_to_add_pos start_dt end_dt) as Hstep; intros Hmax.
  - exists [], s. rewrite app_nil_r, dates_from_nil by lia.
    split; [ reflexivity | ]. split; [ reflexivity | constructor ].
  - exfalso.
    destruct (rates_for_day_quoted fiat0 current_dt rates_data s)
      as (rates & s1 & _ & _ & _ & Hd).
    match goal with E : rates_for_day _ _ _ _ _ = _ |- _ => rewrite E in Hd end.
    destruct (rates !! fiat0); [ destruct Hd as [cid Hd] | ]; discriminate Hd.
  - match goal with IH : _ -> exists _ _, _ |- _ =>
      destruct (IH Hmax) as (new & s2 & -> & Hs & Hf) end.
    destruct (rates_for_day_quoted fiat0 current_dt rates_data s)
      as (rates & s1 & Hday & Hs1 & Hs1' & Hd).
    match goal with E : rates_for_day _ _ _ _ _ = _ |- _ => rewrite E in Hd end.
    rewrite (dates_from_cons current_dt) by lia.
    cbn [quoted]. rewrite Hday.
    destruct (rates !! fiat0) as [ rate | ].
    + destruct Hd as [cid Hd]. injection Hd as -> ->.
      destruct (quoted self fiat0 _ (snd (generate_collection_id s1)))
        as [rest s3]. cbn [fst] in *.
      exists (record_of fiat0 cid (current_dt, rate) :: new), s2.
      rewrite <- List.app_assoc. cbn [app].
      split; [ reflexivity | ]. split; [ congruence | ].
      constructor; [ now exists cid | exact Hf ].
    + injection Hd as -> ->.
      exists new, s2. split; [ reflexivity | ]. split; [ congruence | exact Hf ].
  - exfalso. lia.
Qed.

(** X5: [collect_crisis_period_rates] answers an unknown country or a
    malformed start or end date with the empty list: nothing is raised, no
    source is asked, nothing is written; the state is the one it started
    from. *)
Theorem crisis_rates_bad_input (country_code start_date end_date : string)
    (s : State W) :
  (exists e, get_profile_by_country_code load_profiles country_code = Raise e) \/
  (exists e, strptime start_date = Raise e /\ is_ValueError e = true) \/
  (is_ok (strptime start_date) = true /\
   exists e, strptime end_date = Raise e /\ is_ValueError e = true) ->
  collect_crisis_period_rates self country_code start_date end_date s = (Ok [], s).
Proof.
  intros Hbad. unfold collect_crisis_period_rates, try_except.
  unfold mbind at 1, M_bind at 1, bind_m at 1, lift.
  destruct (get_profile_by_country_code load_profiles country_code) as [ p | e ] eqn:Ep.
  - unfold mbind at 1, M_bind at 1, bind_m at 1.
    destruct Hbad as [ [e He] | [ (e & He & Hv) | (Hok & e & He & Hv) ] ];
      [ discriminate He | rewrite He, Hv; reflexivity | ].
    destruct (strptime start_date) as [ start_dt | e1 ]; [ | discriminate Hok ].
    unfold mbind at 1, M_bind at 1, bind_m at 1. rewrite He, Hv. reflexivity.
  - revert Ep. unfold get_profile_by_country_code.
    destruct (List.find _ _); [ discriminate | ]. intros [= <-]. reflexivity.
Qed.

(** X6: for a known country and well-formed dates, the last of them at
    least one step before the end of the calendar,
    [collect_crisis_period_rates] returns one record for each sampled day for
    which the sources give a rate of the country's currency, in the order of
    the days and for no other day: each carries the day's noon timestamp, the
    currency, that rate and the source "api_composite"; the identifiers
    given record by record are replaced on saving, so all records share one;
    advertisement files and collection log are untouched, and the records
    are appended to the rate file of the day of the run (no file is written
    for an empty result). *)
Theorem crisis_rates_records (country_code start_date end_date : string)
    (p : profile) (start_dt end_dt : Z) (s : State W) :
  get_profile_by_country_code load_profiles country_code = Ok p ->
  strptime start_date = Ok start_dt ->
  strptime end_date = Ok end_dt ->
  (end_dt + days_to_add start_dt end_dt <= max_ordinal)%Z ->
  exists rates s' cid,
    collect_crisis_period_rates self country_code start_date end_date s = (Ok rates, s') /\
    rates = map (record_of (fiat p) cid)
                (fst (quoted self (fiat p)
                        (dates_from start_dt end_dt (days_to_add start_dt end_dt)) s)) /\
    raw_files (store s') = raw_files (store s) /\
    collection_log (store s') = collection_log (store s) /\
    match rates with
    | [] => rate_files (store s') = rate_files (store s)
    | _ :: _ =>
        exists today,
          rate_files (store s')
          = <[ "rates_" +:+ today +:+ ".csv"
               := default [] (rate_files (store s) !! ("rates_" +:+ today +:+ ".csv"))
                  ++ rates ]> (rate_files (store s))
    end.
Proof.
  intros Hp Ha Hb Hmax. unfold collect_crisis_period_rates, try_except.
  rewrite Hp, Ha, Hb.
  unfold mbind at 1, M_bind at 1, bind_m at 1, lift.
  unfold mbind at 1, M_bind at 1, bind_m at 1.
  unfold mbind at 1, M_bind at 1, bind_m at 1.
  unfold mbind at 1, M_bind at 1, bind_m at 1.
  destruct (rates_loop_records (fiat p) start_dt end_dt start_dt [] s Hmax)
    as (new & s1 & -> & Hs1 & Hf).
  set (days := fst (quoted self (fiat p)
                      (dates_from start_dt end_dt (days_to_add start_dt end_dt)) s)) in *.
  clearbody days.
  cbn [app]. destruct new as [ | r new ].
  - inversion Hf; subst. exists [], s1, EmptyString. cbn. rewrite Hs1. repeat split; auto.
  - unfold save_exchange_rates, collection_id_or_new, generate_collection_id,
      mbind, M_bind, bind_m, ask, get_store, put_store.
    destruct (now_stamp (world s1)) as [stamp w2]. cbn [mret M_ret ret world store requested].
    destruct (today_str w2) as [today w3]. cbn [world store requested].
    assert (Hrec : map (Rate.set_collection_id ("collection_" +:+ stamp)) (r :: new)
                   = map (record_of (fiat p) ("collection_" +:+ stamp)) days).
    { clear -Hf. induction Hf as [ | q x qs xs (cid & ->) _ IH ]; [ reflexivity | ].
      cbn [map]. rewrite IH. reflexivity. }
    eexists _, _, ("collection_" +:+ stamp). split; [ reflexivity | ].
    cbn [store raw_files collection_log rate_files]. rewrite Hs1.
    split; [ exact Hrec | ]. repeat split; auto.
    exists today. reflexivity.
Qed.

End Collector.

Import Demo.

Lemma crisis_rates_bad_input_witness :
  collect_crisis_period_rates Demo.collector "XX" "2021-10-01" "2021-10-31" Demo.start
  = (Ok [], Demo.start).
Proof.
  apply (crisis_rates_bad_input Demo.collector "XX" "2021-10-01" "2021-10-31" Demo.start).
  left. eexists. reflexivity.
Defined.

(** Sudan, October 2021, on a world where the archive has the pound on
    the first and on the last day of the month: 31 days are asked for, two
    records come back and are filed. *)
Lemma crisis_rates_records_witness :
  exists rates s' cid,
    collect_crisis_period_rates (H0 := Archive.env) Demo.collector
      "SD" "2021-10-01" "2021-10-31" Demo.start = (Ok rates, s') /\
    rates = [ Rate.Make "2021-10-01T12:00:00Z" "SDG" (440 # 1) "api_composite" cid;
              Rate.Make "2021-10-31T12:00:00Z" "SDG" (437 # 1) "api_composite" cid ] /\
    length (requested s') = 31%nat /\
    exists today, rate_files (store s') !! ("rates_" +:+ today +:+ ".csv") = Some rates.
Proof.
  assert (Hp : get_profile_by_country_code (load_profiles (Env := Archive.env)) "SD"
               = Ok sudan) by reflexivity.
  assert (Ha : strptime (Env := Archive.env) "2021-10-01" = Ok 738064%Z) by reflexivity.
  assert (Hb : strptime (Env := Archive.env) "2021-10-31" = Ok 738094%Z) by reflexivity.
  assert (Hmax : (738094 + days_to_add 738064 738094 <= max_ordinal)%Z)
    by (vm_compute; discriminate).
  destruct (crisis_rates_records (H0 := Archive.env) Demo.collector
              "SD" "2021-10-01" "2021-10-31" sudan
              738064%Z 738094%Z Demo.start Hp Ha Hb Hmax)
    as (rates & s' & cid & E & Hrec & _ & _ & Hfile).
  assert (Hq : fst (quoted (H0 := Archive.env) Demo.collector (fiat sudan)
                      (dates_from 738064 738094 (days_to_add 738064 738094)) Demo.start)
               = [(738064%Z, 440 # 1); (738094%Z, 437 # 1)]%Q)
    by (vm_compute; reflexivity).
  rewrite Hq in Hrec. cbn in Hrec.
  assert (Hmax' : (738094 <= max_ordinal)%Z) by (vm_compute; discriminate).
  pose proof (collect_crisis_period_rates_requests (H0 := Archive.env) Demo.collector
                "SD" "2021-10-01" "2021-10-31" sudan 738064%Z 738094%Z Demo.start
                Hp Ha Hb Hmax') as (Hreq & _).
  rewrite E in Hreq. cbn [snd] in Hreq.
  exists rates, s', cid. split; [ exact E | ]. split; [ exact Hrec | ].
  split; [ rewrite Hreq; reflexivity | ].
  rewrite Hrec in Hfile. destruct Hfile as [today Hfile].
  exists today. rewrite Hfile, lookup_insert_eq, Hrec. reflexivity.
Defined.

End CrisisRatesExtras.

(** ** Collection runs: what a run leaves behind *)

Module AdapterRunExtras.
Import Py World Spec RunSpec Hoare CountryProfiles CSVDataManager AdapterFacts.

Lemma count_side_app (side : string) (l1 l2 : list Ad.t) :
  count_side side (l1 ++ l2) = (count_side side l1 + count_side side l2)%nat.
Proof. unfold count_side. now rewrite List.filter_app, length_app. Qed.

Section Adapters.
Context `{Lib} {W : Type} `{Env W}.

Lemma count_side_tag (side cid : string) (ads : list Ad.t) :
  count_side side (map (tag_ad cid) ads) = count_side side ads.
Proof.
  unfold count_side. induction ads as [ | ad ads IH ]; [ reflexivity | ].
  cbn [map List.filter].
  assert (E : Ad.trade_type (tag_ad cid ad) = Ad.trade_type ad).
  { unfold tag_ad. destruct ad as [? ? ? ? ? ? ? ? ? ? pm ? ? ? ? ? ?].
    destruct pm; reflexivity. }
  rewrite E. destruct (String.eqb _ side); cbn [length]; now rewrite IH.
Qed.

Lemma same_store_refl (s : State W) : same_store s s.
Proof. split; reflexivity. Qed.

Lemma same_store_blind (s0 : State W) : world_blind (same_store s0).
Proof. intros s w Hs. exact Hs. Qed.

Ltac keep_steps HP :=
  repeat (eapply triple_bind;
          [ first [ apply triple_lift_keep | apply triple_ask_keep, HP
                  | apply triple_call_keep, HP | apply triple_generate_collection_id, HP ]
          | intros ? ]).

Lemma tallied_push (platform country_code : string) (c : BinanceP2P.counters)
    (ad : Ad.t) (buy : bool) :
  tallied platform country_code c ->
  Ad.platform ad = platform -> Ad.country_code ad = country_code ->
  Ad.collection_id ad = None ->
  Ad.trade_type ad = (if buy then "BUY" else "SELL") ->
  tallied platform country_code
    (if buy
     then BinanceP2P.Counters (BinanceP2P.all_ads c ++ [ad])
            (BinanceP2P.buy_count c + 1) (BinanceP2P.sell_count c)
     else BinanceP2P.Counters (BinanceP2P.all_ads c ++ [ad])
            (BinanceP2P.buy_count c) (BinanceP2P.sell_count c + 1)).
Proof.
  intros (Hb & Hs & Hf) Hp Hc Hi Ht. unfold tallied.
  assert (Had : built_by platform country_code ad).
  { repeat split; auto. rewrite Ht. destruct buy; auto. }
  destruct buy; cbn [BinanceP2P.all_ads BinanceP2P.buy_count BinanceP2P.sell_count];
    rewrite !count_side_app; unfold count_side at 2 4; cbn [List.filter];
    rewrite Ht; cbn; (split; [ lia | split; [ lia | ] ]);
    apply Forall_app; split; auto.
Qed.

Lemma binance_standardize_ad_built (P : State W -> Prop) ad_data country_code trade_type :
  world_blind P ->
  triple P (BinanceP2P.standardize_ad ad_data country_code trade_type)
    (fun ad s => P s /\ Ad.platform ad = "binance" /\ Ad.country_code ad = country_code /\
                 Ad.collection_id ad = None /\ Ad.trade_type ad = trade_type)
    P.
Proof.
  intros HP. unfold BinanceP2P.standardize_ad. keep_steps HP.
  apply triple_ret. cbn. auto.
Qed.

Lemma binance_standardize_page_tallied (P : State W -> Prop) ads country_code
    (buy : bool) c :
  world_blind P -> tallied "binance" country_code c ->
  triple P (BinanceP2P.standardize_page ads country_code (if buy then "BUY" else "SELL") c)
    (fun c' s => P s /\ tallied "binance" country_code c') P.
Proof.
  intros HP. revert c. induction ads as [ | ad ads IH ]; intros c Hc.
  - apply triple_ret. auto.
  - cbn [BinanceP2P.standardize_page].
    eapply triple_bind; [ apply binance_standardize_ad_built, HP | intros a ].
    apply triple_assume. intros (Hp & Hcc & Hi & Ht). apply IH.
    pose proof (tallied_push "binance" country_code c a buy Hc Hp Hcc Hi Ht) as Hpush.
    destruct buy; exact Hpush.
Qed.

Lemma binance_collect_pages_tallied (P : State W -> Prop) pages_left page asset fiat
    country_code (buy : bool) c :
  world_blind P -> tallied "binance" country_code c ->
  triple P (BinanceP2P.collect_pages pages_left page asset fiat country_code
              (if buy then "BUY" else "SELL") c)
    (fun c' s => P s /\ tallied "binance" country_code c') P.
Proof.
  intros HP. revert page c.
  induction pages_left as [ | n IH ]; intros page c Hc; cbn [BinanceP2P.collect_pages].
  - apply triple_ret. auto.
  - eapply triple_bind; [ apply binance_get_ads_keep, HP | intros response ].
    destruct (negb (truthy response)); [ apply triple_ret; auto | ].
    eapply triple_bind; [ apply triple_lift_keep | intros data ].
    destruct (negb (truthy data)); [ apply triple_ret; auto | ].
    eapply triple_bind; [ apply triple_lift_keep | intros ads ].
    eapply triple_bind; [ apply binance_standardize_page_tallied; eauto | intros c' ].
    apply triple_assume. intros Hc'. apply IH, Hc'.
Qed.

Lemma binance_collect_sides_tallied (P : State W -> Prop) asset fiat country_code :
  world_blind P ->
  triple P (BinanceP2P.collect_sides ["BUY"; "SELL"] asset fiat country_code
              (BinanceP2P.Counters [] 0 0))
    (fun c' s => P s /\ tallied "binance" country_code c') P.
Proof.
  intros HP. cbn [BinanceP2P.collect_sides].
  eapply triple_bind.
  { apply (binance_collect_pages_tallied P 5 1 asset fiat country_code true); auto.
    repeat split. constructor. }
  intros c1. apply triple_assume. intros Hc1.
  eapply triple_bind.
  { apply (binance_collect_pages_tallied P 5 1 asset fiat country_code false); auto. }
  intros c2. apply triple_assume. intros Hc2. apply triple_ret. auto.
Qed.

Lemma okx_standardize_ad_built (P : State W -> Prop) ad_data country_code trade_type :
  world_blind P ->
  triple P (OKXP2P.standardize_ad ad_data country_code trade_type)
    (fun ad s => P s /\ Ad.platform ad = "okx" /\ Ad.country_code ad = country_code /\
                 Ad.collection_id ad = None /\
                 Ad.trade_type ad
                 = (if String.eqb (lower trade_type) "buy" then "BUY" else "SELL"))
    P.
Proof.
  intros HP. unfold OKXP2P.standardize_ad. keep_steps HP.
  apply triple_ret. cbn. auto.
Qed.

Lemma okx_standardize_page_tallied (P : State W -> Prop) ads country_code
    (buy : bool) c :
  world_blind P -> tallied "okx" country_code c ->
  triple P (OKXP2P.standardize_page ads country_code (if buy then "buy" else "sell") c)
    (fun c' s => P s /\ tallied "okx" country_code c') P.
Proof.
  intros HP. revert c. induction ads as [ | ad ads IH ]; intros c Hc.
  - apply triple_ret. auto.
  - cbn [OKXP2P.standardize_page].
    eapply triple_bind; [ apply okx_standardize_ad_built, HP | intros a ].
    apply triple_assume. intros (Hp & Hcc & Hi & Ht). apply IH.
    assert (Ht' : Ad.trade_type a = (if buy then "BUY" else "SELL")).
    { rewrite Ht. destruct buy; reflexivity. }
    pose proof (tallied_push "okx" country_code c a buy Hc Hp Hcc Hi Ht') as Hpush.
    destruct buy; exact Hpush.
Qed.

Lemma okx_collect_pages_tallied (P : State W -> Prop) pages_left page asset fiat
    country_code (buy : bool) c :
  world_blind P -> tallied "okx" country_code c ->
  triple P (OKXP2P.collect_pages pages_left page asset fiat country_code
              (if buy then "buy" else "sell") c)
    (fun c' s => P s /\ tallied "okx" country_code c') P.
Proof.
  intros HP. revert page c.
  induction pages_left as [ | n IH ]; intros page c Hc; cbn [OKXP2P.collect_pages].
  - apply triple_ret. auto.
  - eapply triple_bind; [ apply okx_get_ads_from_keep, HP | intros response ].
    destruct (negb (truthy response)); [ apply triple_ret; auto | ].
    eapply triple_bind; [ apply triple_lift_keep | intros data ].
    destruct (negb (truthy data)); [ apply triple_ret; auto | ].
    eapply triple_bind; [ apply triple_lift_keep | intros data' ].
    eapply triple_bind; [ apply triple_lift_keep | intros orders ].
    destruct (negb (truthy orders)); [ apply triple_ret; auto | ].
    eapply triple_bind; [ apply triple_lift_keep | intros ads ].
    eapply triple_bind; [ apply okx_standardize_page_tallied; eauto | intros c' ].
    apply triple_assume. intros Hc'. apply IH, Hc'.
Qed.

Lemma okx_collect_sides_tallied (P : State W -> Prop) asset fiat country_code :
  world_blind P ->
  triple P (OKXP2P.collect_sides ["buy"; "sell"] asset fiat country_code
              (BinanceP2P.Counters [] 0 0))
    (fun c' s => P s /\ tallied "okx" country_code c') P.
Proof.
  intros HP. cbn [OKXP2P.collect_sides].
  eapply triple_bind.
  { apply (okx_collect_pages_tallied P 3 1 asset fiat country_code true); auto.
    repeat split. constructor. }
  intros c1. apply triple_assume. intros Hc1.
  eapply triple_bind.
  { apply (okx_collect_pages_tallied P 3 1 asset fiat country_code false); auto. }
  intros c2. apply triple_assume. intros Hc2. apply triple_ret. auto.
Qed.

(** [save_raw_ads] and [log_collection_run] under a collection id that
    is given: what they return and the state they leave. *)
Lemma save_raw_ads_run (ads : list Ad.t) (platform country_code cid : string)
    (s : State W) :
  String.eqb cid "" = false ->
  exists today w,
    today_str (world s) = (today, w) /\
    save_raw_ads ads platform country_code (Some cid) s
    = (Ok (today +:+ "/" +:+ (platform +:+ "_p2p_" +:+ country_code +:+ "_" +:+ today
                              +:+ ".csv"),
           map (tag_ad cid) ads),
       MkState w
         (MkStore (<[ today +:+ "/" +:+ (platform +:+ "_p2p_" +:+ country_code +:+ "_"
                                         +:+ today +:+ ".csv")
                      := map (tag_ad cid) ads ]> (raw_files (store s)))
                  (collection_log (store s)) (rate_files (store s)))
         (requested s)).
Proof.
  intros Hne. unfold save_raw_ads, collection_id_or_new, _write_csv,
    mbind, M_bind, bind_m, ask, get_store, put_store.
  rewrite Hne. cbn [mret M_ret ret world store requested].
  destruct (today_str (world s)) as [today w]. exists today, w.
  split; reflexivity.
Qed.

Lemma log_collection_run_run (platform country_code country_name fiat_currency : string)
    (ads_collected buy_ads sell_ads : nat) (status error_message cid : string)
    (s : State W) :
  String.eqb cid "" = false ->
  exists now w,
    now_isoformat (world s) = (now, w) /\
    log_collection_run platform country_code country_name fiat_currency ads_collected
      buy_ads sell_ads status error_message (Some cid) s
    = (Ok tt,
       MkState w
         (MkStore (raw_files (store s))
                  (collection_log (store s)
                   ++ [LogEntry.Make cid now platform country_code country_name
                         fiat_currency ads_collected buy_ads sell_ads status error_message])
                  (rate_files (store s)))
         (requested s)).
Proof.
  intros Hne. unfold log_collection_run, collection_id_or_new,
    mbind, M_bind, bind_m, ask, get_store, put_store.
  rewrite Hne. cbn [mret M_ret ret world store requested].
  destruct (now_isoformat (world s)) as [now w]. exists now, w.
  split; reflexivity.
Qed.

(** The part the two adapters share: look the country up, take a
    collection id, collect both sides, save and log. *)
Lemma run_contract (platform : string)
    (sides : profile -> M (State W) BinanceP2P.counters)
    (country_code : string) (save_to_csv : bool) (s : State W) :
  (forall p s0,
      triple (same_store s0) (sides p)
        (fun c s' => same_store s0 s' /\ tallied platform country_code c)
        (same_store s0)) ->
  run_outcome platform country_code save_to_csv s
    (try_except
       (profile ← lift (get_profile_by_country_code load_profiles country_code);
        collection_id ← generate_collection_id;
        c ← sides profile;
        match save_to_csv, BinanceP2P.all_ads c with
        | true, _ :: _ =>
            '(_, saved) ← save_raw_ads (BinanceP2P.all_ads c) platform country_code
                            (Some collection_id);
            _ ← log_collection_run platform country_code (name profile) (fiat profile)
                  (length saved) (BinanceP2P.buy_count c) (BinanceP2P.sell_count c)
                  "success" "" (Some collection_id);
            mret saved
        | _, _ => mret (BinanceP2P.all_ads c)
        end)
       is_ValueError
       (fun _ => mret []) s).
Proof.
  intros Hsides. unfold try_except.
  unfold mbind at 1, M_bind at 1, bind_m at 1, lift.
  destruct (get_profile_by_country_code load_profiles country_code) as [ p | e ] eqn:Ep.
  2: { revert Ep. unfold get_profile_by_country_code.
       destruct (List.find _ _); [ discriminate | ]. intros [= <-].
       unfold run_outcome. cbn. repeat split. }
  unfold mbind at 1, M_bind at 1, bind_m at 1.
  unfold generate_collection_id at 1, mbind at 1, M_bind at 1, bind_m at 1, ask at 1.
  destruct (now_stamp (world s)) as [stamp w1]. cbn [mret M_ret ret].
  set (s1 := MkState w1 (store s) (requested s)).
  unfold mbind at 1, M_bind at 1, bind_m at 1.
  pose proof (Hsides p s s1 (same_store_refl s)) as Hc.
  destruct (sides p s1) as [[c | e] s2].
  2: { destruct Hc as [Hst Hrq]. unfold run_outcome.
       destruct (is_ValueError e) eqn:Ev; cbn [mret M_ret ret fst snd].
       - rewrite Hst, Hrq. repeat split.
       - rewrite Hst, Hrq. repeat split. exact Ev. }
  destruct Hc as ([Hst Hrq] & Hb & Hs & Hf).
  assert (Hshape : Forall (fun ad => Ad.platform ad = platform /\
                                     Ad.country_code ad = country_code /\
                                     (Ad.trade_type ad = "BUY" \/ Ad.trade_type ad = "SELL"))
                          (BinanceP2P.all_ads c)).
  { eapply List.Forall_impl; [ | exact Hf ]. intros ad (? & ? & ? & _). auto. }
  assert (Hnone : Forall (fun ad => Ad.collection_id ad = None) (BinanceP2P.all_ads c)).
  { eapply List.Forall_impl; [ | exact Hf ]. intros ad (_ & _ & _ & ?). auto. }
  destruct save_to_csv.
  - destruct (BinanceP2P.all_ads c) as [ | ad ads ] eqn:Eads.
    + unfold run_outcome. cbn. rewrite Hst, Hrq. repeat split.
    + unfold mbind at 1, M_bind at 1, bind_m at 1.
      destruct (save_raw_ads_run (ad :: ads) platform country_code ("collection_" +:+ stamp)
                  s2 eq_refl) as (today & w3 & _ & ->).
      unfold mbind at 1, M_bind at 1, bind_m at 1.
      match goal with |- context [ log_collection_run ?a ?b ?c ?d ?e ?f ?g ?h ?i ?j ?st ] =>
        destruct (log_collection_run_run a b c d e f g h i ("collection_" +:+ stamp) st eq_refl)
          as (now & w4 & _ & ->) end.
      unfold run_outcome.
      cbn [mret M_ret ret world store requested raw_files collection_log rate_files
           fst snd].
      rewrite Hst, Hrq. split; [ reflexivity | ]. split; [ reflexivity | ].
      remember (map (tag_ad ("collection_" +:+ stamp)) (ad :: ads)) as saved eqn:Hsaved.
      destruct saved as [ | ad' ads' ]; [ discriminate Hsaved | ].
      rewrite Hsaved. split.
      * apply Forall_map. eapply List.Forall_impl; [ | exact Hshape ].
        intros x. unfold tag_ad. destruct x as [? ? ? ? ? ? ? ? ? ? pm ? ? ? ? ? ?].
        destruct pm; cbn; auto.
      * exists p, ("collection_" +:+ stamp), today, now.
        split; [ exact Ep | ]. split.
        { apply Forall_map, List.Forall_forall. intros x _. unfold tag_ad.
          destruct x as [? ? ? ? ? ? ? ? ? ? pm ? ? ? ? ? ?]. destruct pm; reflexivity. }
        split; [ reflexivity | ].
        rewrite !count_side_tag, <- Hb, <- Hs. reflexivity.
  - unfold run_outcome. cbn. rewrite Hst, Hrq.
    destruct (BinanceP2P.all_ads c) as [ | ad ads ] eqn:Eads; repeat split; auto.
Qed.

(** X7: what a collection run of either adapter leaves behind.  It never
    touches the rate files; a run that raises (never a ValueError), returns
    no advertisement or was told not to save leaves every file as it was; a
    saving run that returns advertisements has replaced exactly one file, the
    day's file of the platform and country, by the list it returns, and has
    appended exactly one row to the collection log: the row and every record
    carry the same collection id, and the row's total and its BUY and SELL
    counts are the numbers of records, of BUY records and of SELL records in
    the list.  The country code on records, in the file name and in the row
    is the caller's text as given. *)
Theorem collection_run_outcome (country_code asset : string) (save_to_csv : bool)
    (s : State W) :
  run_outcome "binance" country_code save_to_csv s
    (BinanceP2P.collect_country_data country_code asset save_to_csv s) /\
  run_outcome "okx" country_code save_to_csv s
    (OKXP2P.collect_country_data country_code asset save_to_csv s).
Proof.
  split.
  - apply (run_contract "binance"
             (fun p => BinanceP2P.collect_sides ["BUY"; "SELL"] asset (fiat p) country_code
                         (BinanceP2P.Counters [] 0 0))).
    intros p s0. apply binance_collect_sides_tallied, same_store_blind.
  - apply (run_contract "okx"
             (fun p => OKXP2P.collect_sides ["buy"; "sell"] asset (fiat p) country_code
                         (BinanceP2P.Counters [] 0 0))).
    intros p s0. apply okx_collect_sides_tallied, same_store_blind.
Qed.

End Adapters.
End AdapterRunExtras.

(** ** Collection runs: an unreachable platform *)

Module UnreachableExtras.
Import Py World Spec RunSpec Hoare CountryProfiles CSVDataManager AdapterFacts.

Section Adapters.
Context `{Lib} {W : Type} `{Env W}.

Lemma binance_get_ads_unreachable (asset fiat : string) :
  (forall side page rows ts w, exists e w',
      binance_post asset fiat side page rows ts w = (Raise e, w') /\
      is_RequestException e = true) ->
  forall side page rows ts (s : State W), exists w',
    BinanceP2P.get_ads asset fiat side page rows ts s
    = (Ok (VDict []), MkState w' (store s) (requested s)).
Proof.
  intros Hdown side page rows ts s. unfold BinanceP2P.get_ads, try_except, call.
  destruct (Hdown side page rows ts (world s)) as (e & w' & -> & ->).
  exists w'. reflexivity.
Qed.

Lemma binance_collect_pages_unreachable (asset fiat country_code : string) :
  (forall side page rows ts w, exists e w',
      binance_post asset fiat side page rows ts w = (Raise e, w') /\
      is_RequestException e = true) ->
  forall pages_left page side c (s : State W), exists w',
    BinanceP2P.collect_pages pages_left page asset fiat country_code side c s
    = (Ok c, MkState w' (store s) (requested s)).
Proof.
  intros Hdown [ | n ] page side c s; cbn [BinanceP2P.collect_pages].
  - exists (world s). destruct s; reflexivity.
  - unfold mbind at 1, M_bind at 1, bind_m at 1.
    destruct (binance_get_ads_unreachable asset fiat Hdown side page 20%nat None s)
      as (w' & ->).
    exists w'. reflexivity.
Qed.

(** X8: when every request to Binance for the country's currency fails
    with a RequestException, a collection run ends normally with no
    advertisement: nothing is raised and no file is written. *)
Theorem binance_unreachable_run (country_code asset : string) (save_to_csv : bool)
    (p : profile) (s : State W) :
  get_profile_by_country_code load_profiles country_code = Ok p ->
  (forall side page rows ts w, exists e w',
      binance_post asset (fiat p) side page rows ts w = (Raise e, w') /\
      is_RequestException e = true) ->
  exists w',
    BinanceP2P.collect_country_data country_code asset save_to_csv s
    = (Ok [], MkState w' (store s) (requested s)).
Proof.
  intros Hp Hdown. unfold BinanceP2P.collect_country_data, try_except.
  rewrite Hp. unfold mbind at 1, M_bind at 1, bind_m at 1, lift.
  unfold mbind at 1, M_bind at 1, bind_m at 1.
  unfold generate_collection_id at 1, mbind at 1, M_bind at 1, bind_m at 1, ask at 1.
  destruct (now_stamp (world s)) as [stamp w1]. cbn [mret M_ret ret].
  unfold mbind at 1, M_bind at 1, bind_m at 1.
  cbn [BinanceP2P.collect_sides].
  unfold mbind at 1, M_bind at 1, bind_m at 1.
  destruct (binance_collect_pages_unreachable asset (fiat p) country_code Hdown 5%nat 1%nat
              "BUY" (BinanceP2P.Counters [] 0 0) (MkState w1 (store s) (requested s)))
    as (w2 & ->).
  cbn [world store requested].
  unfold mbind at 1, M_bind at 1, bind_m at 1.
  destruct (binance_collect_pages_unreachable asset (fiat p) country_code Hdown 5%nat 1%nat
              "SELL" (BinanceP2P.Counters [] 0 0) (MkState w2 (store s) (requested s)))
    as (w3 & ->).
  cbn [world store requested mret M_ret ret BinanceP2P.all_ads].
  exists w3. destruct save_to_csv; reflexivity.
Qed.

Lemma okx_get_ads_from_down (asset fiat : string) :
  (forall url side page limit w,
      match okx_get url asset fiat side page limit w with
      | (Ok (status_code, _), _) => status_code <> 200%Z
      | (Raise e, _) => is_RequestException e = true
      end) ->
  forall urls side page limit (s : State W), exists w',
    OKXP2P.get_ads_from urls asset fiat side page limit s
    = (Ok (VDict []), MkState w' (store s) (requested s)).
Proof.
  intros Hdown urls side page limit.
  induction urls as [ | url urls IH ]; intros s; cbn [OKXP2P.get_ads_from].
  - exists (world s). destruct s; reflexivity.
  - unfold mbind at 1, M_bind at 1, bind_m at 1, try_except.
    unfold mbind at 1, M_bind at 1, bind_m at 1, call.
    specialize (Hdown url side page limit (world s)).
    destruct (okx_get url asset fiat side page limit (world s)) as [[[status data] | e] w1].
    + destruct (Z.eqb_spec status 200) as [ -> | _ ]; [ contradiction | ].
      cbn [mret M_ret ret].
      destruct (IH (MkState w1 (store s) (requested s))) as (w' & ->).
      exists w'. reflexivity.
    + rewrite Hdown. cbn [mret M_ret ret].
      destruct (IH (MkState w1 (store s) (requested s))) as (w' & ->).
      exists w'. reflexivity.
Qed.

Lemma okx_collect_pages_down (asset fiat country_code : string) :
  (forall url side page limit w,
      match okx_get url asset fiat side page limit w with
      | (Ok (status_code, _), _) => status_code <> 200%Z
      | (Raise e, _) => is_RequestException e = true
      end) ->
  forall pages_left page side c (s : State W), exists w',
    OKXP2P.collect_pages pages_left page asset fiat country_code side c s
    = (Ok c, MkState w' (store s) (requested s)).
Proof.
  intros Hdown [ | n ] page side c s; cbn [OKXP2P.collect_pages].
  - exists (world s). destruct s; reflexivity.
  - unfold mbind at 1, M_bind at 1, bind_m at 1, OKXP2P.get_ads.
    destruct (okx_get_ads_from_down asset fiat Hdown OKXP2P.base_urls side page 20%nat s)
      as (w' & ->).
    exists w'. reflexivity.
Qed.

(** X9: when no OKX endpoint answers with status 200 (each answers with
    another status or fails with a RequestException), a collection run ends
    normally with no advertisement: nothing is raised and no file is
    written. *)
Theorem okx_unreachable_run (country_code asset : string) (save_to_csv : bool)
    (p : profile) (s : State W) :
  get_profile_by_country_code load_profiles country_code = Ok p ->
  (forall url side page limit w,
      match okx_get url asset (fiat p) side page limit w with
      | (Ok (status_code, _), _) => status_code <> 200%Z
      | (Raise e, _) => is_RequestException e = true
      end) ->
  exists w',
    OKXP2P.collect_country_data country_code asset save_to_csv s
    = (Ok [], MkState w' (store s) (requested s)).
Proof.
  intros Hp Hdown. unfold OKXP2P.collect_country_data, try_except.
  rewrite Hp. unfold mbind at 1, M_bind at 1, bind_m at 1, lift.
  unfold mbind at 1, M_bind at 1, bind_m at 1.
  unfold generate_collection_id at 1, mbind at 1, M_bind at 1, bind_m at 1, ask at 1.
  destruct (now_stamp (world s)) as [stamp w1]. cbn [mret M_ret ret].
  unfold mbind at 1, M_bind at 1, bind_m at 1.
  cbn [OKXP2P.collect_sides].
  unfold mbind at 1, M_bind at 1, bind_m at 1.
  destruct (okx_collect_pages_down asset (fiat p) country_code Hdown 3%nat 1%nat
              "buy" (BinanceP2P.Counters [] 0 0) (MkState w1 (store s) (requested s)))
    as (w2 & ->).
  cbn [world store requested].
  unfold mbind at 1, M_bind at 1, bind_m at 1.
  destruct (okx_collect_pages_down asset (fiat p) country_code Hdown 3%nat 1%nat
              "sell" (BinanceP2P.Counters [] 0 0) (MkState w2 (store s) (requested s)))
    as (w3 & ->).
  cbn [world store requested mret M_ret ret BinanceP2P.all_ads].
  exists w3. destruct save_to_csv; reflexivity.
Qed.

End Adapters.

Import Demo.

Lemma binance_unreachable_run_witness :
  exists w',
    BinanceP2P.collect_country_data "VE" "USDT" true Demo.start
    = (Ok [], MkState w' empty_store []).
Proof.
  apply (binance_unreachable_run "VE" "USDT" true venezuela Demo.start).
  - reflexivity.
  - intros side page rows ts w. eexists _, _. split; reflexivity.
Defined.

Lemma okx_unreachable_run_witness :
  exists w',
    @OKXP2P.collect_country_data Demo.lib nat Offline.env "SD" "USDT" true Demo.start
    = (Ok [], MkState w' empty_store []).
Proof.
  apply (@okx_unreachable_run Demo.lib nat Offline.env "SD" "USDT" true sudan Demo.start).
  - reflexivity.
  - intros url side page limit w. cbn. discriminate.
Defined.

End UnreachableExtras.

(** ** Standardization: input the adapters do not expect *)

Module StandardizeExtras.
Import Py World Spec RunSpec CountryProfiles CSVDataManager.

Section Adapters.
Context `{Lib} {W : Type} `{Env W}.

(** X10: [standardize_ad] of the Binance adapter on input it does not
    expect.  A dict without the keys "adv" and "advertiser" is not rejected:
    it becomes a record of defaults (empty texts, zero numbers, no payment
    method).  Anything that is not a dict raises AttributeError, before the
    clock is read.  An advertisement whose price is a text that [float]
    cannot read raises ValueError. *)
Theorem binance_standardize_ad_unexpected (ad_data : value)
    (country_code trade_type : string) (s : State W) :
  (forall kvs, ad_data = VDict kvs ->
     assoc "adv" kvs = None -> assoc "advertiser" kvs = None ->
     BinanceP2P.standardize_ad ad_data country_code trade_type s
     = let '(now, w) := utcnow_isoformat (world s) in
       (Ok (Ad.Make "binance" (now +:+ "Z") (VStr "") (VStr "") 0 0 0 0
              trade_type country_code (VList []) (VStr "") 0 0%Z (VStr "") None None),
        MkState w (store s) (requested s))) /\
  ((forall kvs, ad_data <> VDict kvs) ->
   exists e, BinanceP2P.standardize_ad ad_data country_code trade_type s = (Raise e, s) /\
             exn_class e = AttributeError) /\
  (forall kvs adv text, ad_data = VDict kvs ->
     assoc "adv" kvs = Some (VDict adv) ->
     assoc "price" adv = Some (VStr text) -> float_of_str text = None ->
     exists e s', BinanceP2P.standardize_ad ad_data country_code trade_type s = (Raise e, s') /\
                  exn_class e = ValueError).
Proof.
  repeat apply conj.
  - intros kvs -> Hadv Hadvertiser.
    unfold BinanceP2P.standardize_ad, mbind, M_bind, bind_m, result_bind, lift, ask, get.
    rewrite Hadv, Hadvertiser.
    destruct (utcnow_isoformat (world s)) as [now w]. reflexivity.
  - intros Hnot. unfold BinanceP2P.standardize_ad, mbind, M_bind, bind_m, lift, get.
    destruct ad_data; try (eexists; split; reflexivity).
    exfalso. eapply Hnot. reflexivity.
  - intros kvs adv text -> Hadv Hprice Hfloat.
    unfold BinanceP2P.standardize_ad, mbind, M_bind, bind_m, result_bind, lift, ask, get.
    rewrite Hadv. destruct (utcnow_isoformat (world s)) as [now w].
    cbn [world store requested]. rewrite Hprice. cbn [bind float]. rewrite Hfloat.
    eexists _, _. split; reflexivity.
Qed.

(** X11: the same for the OKX adapter, which reads the advertisement's
    own keys: the empty dict becomes a record of defaults, on side SELL
    unless the side given is "buy" in some letter case; anything that is not
    a dict raises AttributeError; a price text that [float] cannot read raises
    ValueError. *)
Theorem okx_standardize_ad_unexpected (ad_data : value)
    (country_code trade_type : string) (s : State W) :
  (ad_data = VDict [] ->
   OKXP2P.standardize_ad ad_data country_code trade_type s
   = let '(now, w) := utcnow_isoformat (world s) in
     (Ok (Ad.Make "okx" (now +:+ "Z") (VStr "") (VStr "") 0 0 0 0
            (if String.eqb (lower trade_type) "buy" then "BUY" else "SELL")
            country_code (VList []) (VStr "") 0 0%Z (VStr "") None None),
      MkState w (store s) (requested s))) /\
  ((forall kvs, ad_data <> VDict kvs) ->
   exists e s', OKXP2P.standardize_ad ad_data country_code trade_type s = (Raise e, s') /\
                exn_class e = AttributeError) /\
  (forall kvs text, ad_data = VDict kvs ->
     assoc "price" kvs = Some (VStr text) -> float_of_str text = None ->
     exists e s', OKXP2P.standardize_ad ad_data country_code trade_type s = (Raise e, s') /\
                  exn_class e = ValueError).
Proof.
  repeat apply conj.
  - intros ->.
    unfold OKXP2P.standardize_ad, mbind, M_bind, bind_m, result_bind, lift, ask, get.
    destruct (utcnow_isoformat (world s)) as [now w]. reflexivity.
  - intros Hnot. unfold OKXP2P.standardize_ad, mbind, M_bind, bind_m, result_bind, lift, ask, get.
    destruct (utcnow_isoformat (world s)) as [now w].
    destruct ad_data; try (eexists _, _; split; reflexivity).
    exfalso. eapply Hnot. reflexivity.
  - intros kvs text -> Hprice Hfloat.
    unfold OKXP2P.standardize_ad, mbind, M_bind, bind_m, result_bind, lift, ask, get.
    destruct (utcnow_isoformat (world s)) as [now w].
    cbn [world store requested]. rewrite Hprice. cbn [bind float]. rewrite Hfloat.
    eexists _, _. split; reflexivity.
Qed.

End Adapters.

Import Demo.

Lemma binance_standardize_ad_unexpected_witness :
  (exists ad s', BinanceP2P.standardize_ad (VDict []) "SD" "BUY" Demo.start = (Ok ad, s') /\
                 Ad.price ad = 0%Q /\ Ad.payment_methods ad = VList []) /\
  (exists e, BinanceP2P.standardize_ad VNone "SD" "BUY" Demo.start = (Raise e, Demo.start) /\
             exn_class e = AttributeError) /\
  (exists e s', BinanceP2P.standardize_ad (raw_ad "n/a" []) "SD" "BUY" Demo.start
                = (Raise e, s') /\
                exn_class e = ValueError).
Proof.
  repeat apply conj.
  - destruct (binance_standardize_ad_unexpected (VDict []) "SD" "BUY" Demo.start)
      as (Ha & _ & _).
    rewrite (Ha [] eq_refl eq_refl eq_refl). eexists _, _. repeat split.
  - destruct (binance_standardize_ad_unexpected VNone "SD" "BUY" Demo.start)
      as (_ & Hb & _).
    apply Hb. discriminate.
  - destruct (binance_standardize_ad_unexpected (raw_ad "n/a" []) "SD" "BUY" Demo.start)
      as (_ & _ & Hc).
    eapply Hc; reflexivity.
Defined.

Lemma okx_standardize_ad_unexpected_witness :
  (exists ad s', OKXP2P.standardize_ad (VDict []) "SD" "hold" Demo.start = (Ok ad, s') /\
                 Ad.trade_type ad = "SELL" /\ Ad.price ad = 0%Q) /\
  (exists e s', OKXP2P.standardize_ad (VList []) "SD" "buy" Demo.start = (Raise e, s') /\
                exn_class e = AttributeError) /\
  (exists e s', OKXP2P.standardize_ad (VDict [("price", VStr "n/a")]) "SD" "buy" Demo.start
                = (Raise e, s') /\
                exn_class e = ValueError).
Proof.
  repeat apply conj.
  - destruct (okx_standardize_ad_unexpected (VDict []) "SD" "hold" Demo.start)
      as (Ha & _ & _).
    rewrite (Ha eq_refl). eexists _, _. repeat split.
  - destruct (okx_standardize_ad_unexpected (VList []) "SD" "buy" Demo.start)
      as (_ & Hb & _).
    apply Hb. discriminate.
  - destruct (okx_standardize_ad_unexpected (VDict [("price", VStr "n/a")]) "SD" "buy"
                Demo.start) as (_ & _ & Hc).
    eapply Hc; reflexivity.
Defined.

End StandardizeExtras.

(** ** Saving and loading: which files a load reads *)

Module LoadRawAdsExtras.
Import Py World CSVDataManager LoadRawAds JsonFacts.

Lemma split_nonempty (sep : ascii) (s : string) : split sep s <> [].
Proof.
  destruct s as [ | c s ]; cbn [split]; [ discriminate | ].
  destruct (Ascii.eqb c sep); [ discriminate | ].
  destruct (split sep s); discriminate.
Qed.

(** Splitting two texts joined by the separator gives the parts of the
    first, then those of the second. *)
Lemma split_join (sep : ascii) (a b : string) :
  split sep (a +:+ String sep b) = split sep a ++ split sep b.
Proof.
  induction a as [ | c a IH ].
  - change (EmptyString +:+ String sep b) with (String sep b).
    cbn [split]. now rewrite Ascii.eqb_refl.
  - change (String c a +:+ String sep b) with (String c (a +:+ String sep b)).
    cbn [split]. rewrite IH. destruct (Ascii.eqb c sep); [ reflexivity | ].
    pose proof (split_nonempty sep a) as Hne.
    destruct (split sep a) as [ | part parts ]; [ contradiction | reflexivity ].
Qed.

Lemma split_whole (sep : ascii) (a : string) :
  contains sep a = false -> split sep a = [a].
Proof.
  induction a as [ | c a IH ]; intros Ha; [ reflexivity | ].
  cbn [contains] in Ha. apply orb_false_iff in Ha. destruct Ha as [Hc Ha].
  cbn [split]. rewrite Hc, (IH Ha). reflexivity.
Qed.

(** The first part of a text that holds the separator is not the text. *)
Lemma split_head_shorter (sep : ascii) (a : string) :
  contains sep a = true -> nth 0 (split sep a) EmptyString <> a.
Proof.
  induction a as [ | c a IH ]; intros Ha; [ discriminate Ha | ].
  cbn [contains] in Ha. cbn [split].
  destruct (Ascii.eqb c sep) eqn:Ec; cbn [orb] in Ha; [ discriminate | ].
  specialize (IH Ha). pose proof (split_nonempty sep a) as Hne.
  destruct (split sep a) as [ | part parts ]; [ contradiction | ].
  cbn [nth] in *. intros [= E]. contradiction.
Qed.

(** The parts of the stem of a saved file: those of the platform, then
    "p2p", then those of the country code, then those of the day. *)
Lemma split_raw_stem (platform country_code today : string) :
  split "_" (raw_stem platform country_code today)
  = split "_" platform ++ "p2p" :: split "_" country_code ++ split "_" today.
Proof.
  unfold raw_stem.
  change (platform +:+ "_p2p_" +:+ country_code +:+ "_" +:+ today)
    with (platform +:+ String "_" ("p2p" +:+ String "_" (country_code +:+ String "_" today))).
  now rewrite !split_join.
Qed.

(** One filter of the loop lets a file through when it is not given or
    is the file's own text. *)
Lemma filter_passes (filter : option string) (own : string) :
  given filter && negb (String.eqb own (default EmptyString filter)) = false
  <-> (given filter = true -> filter = Some own).
Proof.
  destruct filter as [ text | ]; cbn [given default from_option id].
  - destruct (String.eqb_spec text EmptyString) as [ -> | Hne ]; cbn [negb andb].
    + split; [ discriminate | reflexivity ].
    + destruct (String.eqb_spec own text) as [ -> | Hother ]; cbn [negb].
      * split; reflexivity.
      * split; [ discriminate | ]. intros Hsame. specialize (Hsame eq_refl).
        congruence.
  - split; [ discriminate | reflexivity ].
Qed.

Section Manager.
Context `{Lib} {W : Type} `{Env W}.

Lemma save_raw_ads_path (ads : list Ad.t) (platform country_code : string)
    (collection_id : option string) (s : State W) :
  exists today saved s',
    save_raw_ads ads platform country_code collection_id s
    = (Ok (today +:+ "/" +:+ raw_stem platform country_code today +:+ ".csv", saved), s').
Proof.
  unfold save_raw_ads, _write_csv, mbind, M_bind, bind_m, ask, get_store, put_store.
  destruct (collection_id_or_new collection_id s) as [[cid | e] s1] eqn:Ecid.
  2: { exfalso. revert Ecid. unfold collection_id_or_new, generate_collection_id,
         mbind, M_bind, bind_m, ask, mret, M_ret, ret.
       destruct collection_id as [ given | ];
         [ destruct (String.eqb given EmptyString) | ];
         try destruct (now_stamp (world s)); discriminate. }
  destruct (today_str (world s1)) as [today w2]. cbn [mret M_ret ret].
  exists today. eexists _, _. unfold raw_stem.
  rewrite !append_assoc. reflexivity.
Qed.

(** X12: the file [save_raw_ads] writes and the files [load_raw_ads]
    reads.  The file is named <today>/<stem>.csv with stem
    <platform>_p2p_<country_code>_<today>.  When neither the platform nor the
    country code holds an underscore, the loop of [load_raw_ads] reads a file
    of that stem exactly when each filter that is given (not None, not empty)
    is the very text the file was saved under, letter case included.  When the
    platform holds an underscore, asking for that platform skips the file. *)
Theorem saved_file_selected (ads : list Ad.t) (platform country_code : string)
    (collection_id : option string) (s : State W)
    (platform_filter country_filter : option string) :
  exists today saved s',
    save_raw_ads ads platform country_code collection_id s
    = (Ok (today +:+ "/" +:+ raw_stem platform country_code today +:+ ".csv", saved), s') /\
    (contains "_" platform = false -> contains "_" country_code = false ->
     (selected platform_filter country_filter (raw_stem platform country_code today) = true
      <-> (given platform_filter = true -> platform_filter = Some platform) /\
          (given country_filter = true -> country_filter = Some country_code))) /\
    (contains "_" platform = true ->
     selected (Some platform) country_filter (raw_stem platform country_code today) = false).
Proof.
  destruct (save_raw_ads_path ads platform country_code collection_id s)
    as (today & saved & s' & Hpath).
  exists today, saved, s'. split; [ exact Hpath | ].
  unfold selected. rewrite split_raw_stem. split.
  - intros Hp Hc. rewrite (split_whole "_" platform Hp), (split_whole "_" country_code Hc).
    pose proof (split_nonempty "_" today) as Hrest.
    destruct (split "_" today) as [ | r rest ]; [ contradiction | ].
    cbn [app length Nat.leb nth].
    pose proof (filter_passes platform_filter platform) as Hpf.
    pose proof (filter_passes country_filter country_code) as Hcf.
    destruct (given platform_filter && _); [ | destruct (given country_filter && _) ].
    + split; [ discriminate | ]. intros [H1 _]. apply Hpf in H1. discriminate H1.
    + split; [ discriminate | ]. intros [_ H2]. apply Hcf in H2. discriminate H2.
    + split; [ | reflexivity ]. intros _. split; [ now apply Hpf | now apply Hcf ].
  - intros Hp.
    pose proof (split_head_shorter "_" platform Hp) as Hhead.
    pose proof (split_nonempty "_" platform) as Hne.
    pose proof (split_nonempty "_" country_code) as Hnc.
    destruct (split "_" platform) as [ | part parts ]; [ contradiction | ].
    cbn [nth] in Hhead.
    assert (Hlen : (3 <=? length ((part :: parts) ++ "p2p" :: split "_" country_code
                                    ++ split "_" today))%nat = true).
    { apply Nat.leb_le. rewrite length_app. cbn [length]. rewrite length_app.
      destruct (split "_" country_code); [ contradiction | cbn [length]; lia ]. }
    rewrite Hlen. cbn [app nth given default from_option id].
    assert (Hgiven : negb (String.eqb platform EmptyString) = true).
    { destruct platform; [ discriminate Hp | reflexivity ]. }
    rewrite Hgiven. destruct (String.eqb_spec part platform) as [ E | _ ];
      [ contradiction | reflexivity ].
Qed.

End Manager.

Import Demo.

Lemma saved_file_selected_witness :
  (exists today,
     selected (Some "binance") (Some "SD") (raw_stem "binance" "SD" today) = true) /\
  (exists today,
     selected (Some "local_bitcoins") None (raw_stem "local_bitcoins" "SD" today) = false).
Proof.
  split.
  - destruct (saved_file_selected [] "binance" "SD" None Demo.start
                (Some "binance") (Some "SD"))
      as (today & saved & s' & _ & Hsel & _).
    exists today. apply Hsel; [ reflexivity | reflexivity | ]. split; reflexivity.
  - destruct (saved_file_selected [] "local_bitcoins" "SD" None Demo.start
                (Some "local_bitcoins") None)
      as (today & saved & s' & _ & _ & Hskip).
    exists today. apply Hskip. reflexivity.
Defined.

End LoadRawAdsExtras.

(** ** The orchestrator: the other collections *)

Module OrchestrationExtras.
Import Py World CountryProfiles Orchestration OrchestrationSpec OrchestratorFacts.

Section Run.
Context `{Lib} {W : Type} `{Env W}.
Variable self : Collaborators W.

(** [collect_current_snapshot] always returns. *)
Lemma collect_current_snapshot_returns (countries : option (list string)) (s : State W) :
  exists summary s',
    Orchestrator.collect_current_snapshot (base self) countries s = (Ok summary, s').
Proof.
  unfold Orchestrator.collect_current_snapshot.
  unfold mbind at 1, M_bind at 1, bind_m at 1, ask.
  destruct (now_isoformat (world s)) as [now w1].
  unfold mbind at 1, M_bind at 1, bind_m at 1.
  set (s1 := MkState w1 (store s) (requested s)).
  destruct (collect_rates_returns (base self) s1) as (rate_errors & Hr & _).
  destruct (Orchestrator.collect_rates (base self) s1) as [r1 s2]. cbn [fst] in Hr. subst r1.
  unfold mbind at 1, M_bind at 1, bind_m at 1.
  match goal with |- context [ Orchestrator.collect_platforms ?p ?c ?sm s2 ] =>
    pose proof (collect_platforms_outcomes p c sm s2) as Hp end.
  destruct (Orchestrator.platform_outcomes _ _ s2) as [os s3].
  destruct Hp as (summary & -> & _). cbn [mret M_ret ret]. eauto.
Qed.

(** The loop over the market-context scrapers returns; it only adds
    context entries under the scrapers' names and one error entry per scraper
    that raised. *)
Lemma collect_context_returns (scrapers : list (string * ContextScraper W))
    (results : Results) (s : State W) :
  exists results' s' new,
    collect_context scrapers results s = (Ok results', s') /\
    timestamp results' = timestamp results /\
    p2p_data results' = p2p_data results /\
    exchange_rates results' = exchange_rates results /\
    total_ads_collected results' = total_ads_collected results /\
    errors results' = errors results ++ new /\
    (length new <= length scrapers)%nat /\
    Forall (fun msg => exists api e,
                In api (map fst scrapers) /\
                msg = "Error collecting " +:+ api +:+ " context: " +:+ exn_msg e) new /\
    (forall api, market_context results' !! api <> market_context results !! api ->
                 In api (map fst scrapers)).
Proof.
  revert results s. induction scrapers as [ | [api scraper] scrapers IH ]; intros results s.
  - exists results, s, []. cbn. rewrite app_nil_r. repeat split; auto.
  - cbn [collect_context].
    unfold mbind at 1, M_bind at 1, bind_m at 1, try_except.
    unfold mbind at 1, M_bind at 1, bind_m at 1.
    destruct (collect_crisis_context_data scraper s) as [[data | e] s1];
      cbn [mret M_ret ret is_Exception].
    + match goal with |- context [ collect_context scrapers ?r s1 ] =>
        destruct (IH r s1) as (results' & s' & new & -> & Ht & Hp & Hx & Hn & He & Hl & Hf & Hm)
      end.
      cbn [timestamp p2p_data exchange_rates total_ads_collected errors market_context] in *.
      exists results', s', new. repeat split; auto.
      * cbn [length]. lia.
      * eapply List.Forall_impl; [ | exact Hf ].
        intros msg (a & e & Ha & ->). exists a, e. split; [ now right | reflexivity ].
      * intros a Ha. cbn [map fst].
        destruct (String.eqb_spec api a) as [ -> | Hne ]; [ now left | right ].
        apply Hm. rewrite lookup_insert_ne by exact Hne. exact Ha.
    + match goal with |- context [ collect_context scrapers ?r s1 ] =>
        destruct (IH r s1) as (results' & s' & new & -> & Ht & Hp & Hx & Hn & He & Hl & Hf & Hm)
      end.
      cbn [timestamp p2p_data exchange_rates total_ads_collected errors market_context] in *.
      eexists results', s', (_ :: new). repeat split; auto.
      * rewrite He, <- List.app_assoc. reflexivity.
      * cbn [length]. lia.
      * constructor.
        -- exists api, e. split; [ now left | reflexivity ].
        -- eapply List.Forall_impl; [ | exact Hf ].
           intros msg (a & e' & Ha & ->). exists a, e'. split; [ now right | reflexivity ].
      * intros a Ha. right. apply Hm, Ha.
Qed.

(** X13: [collect_comprehensive_snapshot] always returns, and whatever
    the snapshot inside it collected, the total it reports is 0 and the
    exchange rates it reports are the empty dict: both are read from the
    snapshot's summary under keys ("total_ads", "exchange_rates") that the
    summary does not have.  The snapshot's own summary, with its true total
    and its errors, is passed on under p2p_data only: the error list of the
    result holds nothing but the failures of the market-context scrapers, at
    most one each. *)
Theorem comprehensive_snapshot_totals (countries : option (list string)) (s : State W) :
  exists results s',
    collect_comprehensive_snapshot self countries s = (Ok results, s') /\
    fst (Orchestrator.collect_current_snapshot (base self) countries
           (snd (ask now_isoformat s)))
    = Ok (p2p_data results) /\
    total_ads_collected results = INat 0 /\
    exchange_rates results = IEmptyDict /\
    (length (errors results) <= length (context_scrapers self))%nat /\
    Forall (fun msg => exists api e,
                In api (map fst (context_scrapers self)) /\
                msg = "Error collecting " +:+ api +:+ " context: " +:+ exn_msg e)
           (errors results) /\
    (forall api, is_Some (market_context results !! api) ->
                 In api (map fst (context_scrapers self))).
Proof.
  unfold collect_comprehensive_snapshot.
  unfold mbind at 1, M_bind at 1, bind_m at 1.
  destruct (ask now_isoformat s) as [r0 s0] eqn:E0.
  assert (exists now, r0 = Ok now) as [now ->].
  { revert E0. unfold ask. destruct (now_isoformat (world s)) as [now w].
    intros [= <- _]. eauto. }
  cbn [snd].
  unfold mbind at 1, M_bind at 1, bind_m at 1.
  destruct (collect_current_snapshot_returns countries s0) as (summary & s1 & ->).
  unfold mbind at 1, M_bind at 1, bind_m at 1.
  match goal with |- context [ collect_context ?c ?r s1 ] =>
    destruct (collect_context_returns c r s1)
      as (results' & s' & new & -> & Ht & Hp & Hx & Hn & He & Hl & Hf & Hm)
  end.
  cbn [timestamp p2p_data exchange_rates total_ads_collected errors market_context
       mret M_ret ret fst] in *.
  eexists _, _. split; [ reflexivity | ].
  cbn [timestamp p2p_data exchange_rates total_ads_collected errors market_context].
  repeat split.
  - now rewrite Hp.
  - exact Hn.
  - rewrite He. exact Hl.
  - rewrite He. exact Hf.
  - intros api [v Hv]. apply Hm. rewrite Hv, lookup_empty. discriminate.
Qed.

(** The loop over the platforms returns; the summary it builds is the
    one it started from plus one result per platform, in order. *)
Lemma collect_historical_outcome (platforms : list string)
    (country crisis_from crisis_to : string) (summary : CrisisSummary) (s : State W) :
  exists summary' s' rs,
    collect_historical self platforms country crisis_from crisis_to summary s
    = (Ok summary', s') /\
    Forall2 (recorded self) platforms rs /\
    country_code summary' = country_code summary /\
    country_name summary' = country_name summary /\
    crisis_start summary' = crisis_start summary /\
    crisis_end summary' = crisis_end summary /\
    platforms_attempted summary' = platforms_attempted summary /\
    exchange_rates_collected summary' = exchange_rates_collected summary /\
    total_historical_ads summary'
    = (total_historical_ads summary + sum_list (map ads_collected rs))%nat /\
    platform_results summary'
    = record_all (platform_results summary) (zip platforms rs) /\
    exists new, crisis_errors summary' = crisis_errors summary ++ new /\
                length new = length (failed rs).
Proof.
  revert summary s. induction platforms as [ | platform platforms IH ]; intros summary s.
  - exists summary, s, []. cbn. repeat split; auto.
    exists []. now rewrite app_nil_r.
  - cbn [collect_historical].
    unfold mbind at 1, M_bind at 1, bind_m at 1, try_except.
    unfold mbind at 1, M_bind at 1, bind_m at 1.
    assert (Hmiss : forall e s1,
               historical_ads self platform country crisis_from crisis_to s = (Raise e, s1) ->
               is_ok (scraper_of platform (Orchestrator.scrapers (base self))) = false ->
               exn_msg e = "'" +:+ platform +:+ "'").
    { intros e s1. unfold historical_ads, mbind, M_bind, bind_m, lift.
      destruct (scraper_of platform _) as [ sc | e0 ] eqn:Es; [ discriminate | ].
      intros [= <- _] _. clear -Es.
      induction (Orchestrator.scrapers (base self)) as [ | [n sc] l IHl ];
        cbn [scraper_of] in Es.
      - injection Es as <-. reflexivity.
      - destruct (String.eqb n platform); [ discriminate | auto ]. }
    assert (Hhit : forall ads s1,
               historical_ads self platform country crisis_from crisis_to s = (Ok ads, s1) ->
               is_ok (scraper_of platform (Orchestrator.scrapers (base self))) = true).
    { intros ads s1. unfold historical_ads, mbind, M_bind, bind_m, lift.
      destruct (scraper_of platform _); [ reflexivity | discriminate ]. }
    destruct (historical_ads self platform country crisis_from crisis_to s)
      as [[ads | e] s1]; cbn [mret M_ret ret is_Exception].
    + match goal with |- context [ collect_historical self platforms _ _ _ ?sm s1 ] =>
        destruct (IH sm s1)
          as (summary' & s' & rs & -> & Hrs & Hc & Hn & Ha & Hb & Hp & Hx & Ht & Hr
              & new & He & Hl)
      end.
      cbn [with_platform country_code country_name crisis_start crisis_end
           platforms_attempted exchange_rates_collected total_historical_ads
           platform_results crisis_errors ads_collected] in *.
      exists summary', s',
        ({| ads_collected := length ads;
            status := match ads with [] => "no_data" | _ => "success" end;
            error := None |} :: rs).
      split; [ reflexivity | ].
      split; [ constructor; [ | exact Hrs ] | ].
      { split.
        - destruct ads as [ | ad ads ]; cbn; [ right; left | left ]; repeat split; lia || reflexivity.
        - intros Hno. rewrite (Hhit _ _ eq_refl) in Hno. discriminate Hno. }
      repeat split; auto.
      * simpl. lia.
      * exists new. split; [ now rewrite He, app_nil_r | ].
        cbn [failed List.filter status]. destruct ads; exact Hl.
    + match goal with |- context [ collect_historical self platforms _ _ _ ?sm s1 ] =>
        destruct (IH sm s1)
          as (summary' & s' & rs & -> & Hrs & Hc & Hn & Ha & Hb & Hp & Hx & Ht & Hr
              & new & He & Hl)
      end.
      cbn [with_platform country_code country_name crisis_start crisis_end
           platforms_attempted exchange_rates_collected total_historical_ads
           platform_results crisis_errors ads_collected] in *.
      exists summary', s',
        ({| ads_collected := 0; status := "error"; error := Some (exn_msg e) |} :: rs).
      split; [ reflexivity | ].
      split; [ constructor; [ | exact Hrs ] | ].
      { split.
        - right; right. cbn. repeat split; eauto.
        - intros Hno. rewrite (Hmiss _ _ eq_refl Hno). reflexivity. }
      repeat split; auto.
      * simpl. lia.
      * eexists (_ :: new). split; [ rewrite He, <- List.app_assoc; reflexivity | ].
        cbn [failed List.filter status String.eqb Ascii.eqb Bool.eqb length].
        f_equal. exact Hl.
Qed.

(** X14: [collect_crisis_period_data].  For a country the table does not
    know it raises the ValueError of the lookup, before anything is asked or
    written: unlike the adapters it does not turn it into an empty result.
    For a known country it always returns: the summary names the country and
    the platforms of the run (the ones given, or all installed ones when none
    is given) and holds one result per platform of the run, "success" with a
    positive count, "no_data" with count 0, or "error" with count 0 and the
    message; a platform that is not installed gets the error of the failed
    lookup; a later result for the same platform replaces the earlier one;
    the total is the sum of the counts; the error list has one entry per
    failed platform, after the entry of the exchange-rate step if that
    raised (and then no rate is counted). *)
Theorem crisis_period_data_outcome (country crisis_from crisis_to : string)
    (platforms : option (list string)) (s : State W) :
  match get_profile_by_country_code load_profiles country with
  | Raise _ =>
      exists e,
        collect_crisis_period_data self country crisis_from crisis_to platforms s
        = (Raise e, s) /\
        exn_class e = ValueError
  | Ok p =>
      exists summary s' rs rate_errors,
        collect_crisis_period_data self country crisis_from crisis_to platforms s
        = (Ok summary, s') /\
        country_code summary = country /\
        country_name summary = name p /\
        crisis_start summary = crisis_from /\
        crisis_end summary = crisis_to /\
        platforms_attempted summary = platforms_or_all self platforms /\
        Forall2 (recorded self) (platforms_or_all self platforms) rs /\
        platform_results summary = record_all ∅ (zip (platforms_or_all self platforms) rs) /\
        total_historical_ads summary = sum_list (map ads_collected rs) /\
        (length rate_errors <= 1)%nat /\
        (rate_errors = [] \/ exchange_rates_collected summary = 0%nat) /\
        (exists new, crisis_errors summary = rate_errors ++ new /\
                     length new = length (failed rs))
  end.
Proof.
  unfold collect_crisis_period_data.
  unfold mbind at 1, M_bind at 1, bind_m at 1, lift.
  destruct (get_profile_by_country_code load_profiles country) as [ p | e ] eqn:Ep.
  2: { exists e. split; [ reflexivity | ]. revert Ep. unfold get_profile_by_country_code.
       destruct (List.find _ _); [ discriminate | ]. intros [= <-]. reflexivity. }
  unfold mbind at 1, M_bind at 1, bind_m at 1, try_except.
  unfold mbind at 1, M_bind at 1, bind_m at 1.
  destruct (collect_crisis_period_rates self country crisis_from crisis_to s)
    as [[rates | e] s1]; cbn [mret M_ret ret is_Exception].
  - match goal with |- context [ collect_historical self ?ps _ _ _ ?sm s1 ] =>
      destruct (collect_historical_outcome ps country crisis_from crisis_to sm s1)
        as (summary & s' & rs & -> & Hrs & Hc & Hn & Ha & Hb & Hp & Hx & Ht & Hr
            & new & He & Hl)
    end.
    cbn [country_code country_name crisis_start crisis_end platforms_attempted
         exchange_rates_collected total_historical_ads platform_results crisis_errors] in *.
    exists summary, s', rs, []. repeat split; auto.
    exists new. split; [ exact He | exact Hl ].
  - match goal with |- context [ collect_historical self ?ps _ _ _ ?sm s1 ] =>
      destruct (collect_historical_outcome ps country crisis_from crisis_to sm s1)
        as (summary & s' & rs & -> & Hrs & Hc & Hn & Ha & Hb & Hp & Hx & Ht & Hr
            & new & He & Hl)
    end.
    cbn [country_code country_name crisis_start crisis_end platforms_attempted
         exchange_rates_collected total_historical_ads platform_results crisis_errors] in *.
    exists summary, s', rs, ["Crisis exchange rates failed: " +:+ exn_msg e].
    repeat split; auto.
    exists new. split; [ exact He | exact Hl ].
Qed.

(** How [collect_crisis_period_data] ends, by the country. *)
Lemma collect_crisis_period_data_ends (country crisis_from crisis_to : string)
    (platforms : option (list string)) (s : State W) :
  if known country then
    exists summary s',
      collect_crisis_period_data self country crisis_from crisis_to platforms s
      = (Ok summary, s') /\
      country_code summary = country
  else
    collect_crisis_period_data self country crisis_from crisis_to platforms s
    = (Raise (Exn ValueError ("No profile found for country code: " +:+ country)), s).
Proof.
  unfold known, collect_crisis_period_data.
  unfold mbind at 1, M_bind at 1, bind_m at 1, lift.
  destruct (get_profile_by_country_code load_profiles country) as [ p | e ] eqn:Ep;
    cbn [is_ok].
  2: { revert Ep. unfold get_profile_by_country_code.
       destruct (List.find _ _); [ discriminate | ]. intros [= <-]. reflexivity. }
  unfold mbind at 1, M_bind at 1, bind_m at 1, try_except.
  unfold mbind at 1, M_bind at 1, bind_m at 1.
  destruct (collect_crisis_period_rates self country crisis_from crisis_to s)
    as [[rates | e] s1]; cbn [mret M_ret ret is_Exception];
    match goal with |- context [ collect_historical self ?ps _ _ _ ?sm s1 ] =>
      destruct (collect_historical_outcome ps country crisis_from crisis_to sm s1)
        as (summary & s' & rs & -> & _ & Hc & _)
    end; exists summary, s'; split; auto.
Qed.

(** The loop over the crisis periods returns: one summary per period
    whose country is known, one error entry per period whose country is
    not. *)
Lemma collect_crises_outcome (crises : list (string * string * string))
    (summary : ComprehensiveSummary) (s : State W) :
  exists summary' s' new,
    collect_crises self crises summary s = (Ok summary', s') /\
    current_snapshot summary' = current_snapshot summary /\
    all_countries_processed summary' = all_countries_processed summary /\
    historical_collections summary' = historical_collections summary ++ new /\
    map country_code new = List.filter known (map (fun c => fst (fst c)) crises) /\
    all_ads_collected summary'
    = (all_ads_collected summary + sum_list (map total_historical_ads new))%nat /\
    all_errors summary'
    = all_errors summary
      ++ map (fun country => "Crisis collection " +:+ country
                             +:+ " failed: No profile found for country code: "
                             +:+ country)
             (List.filter (fun country => negb (known country))
                          (map (fun c => fst (fst c)) crises)).
Proof.
  revert summary s. induction crises as [ | [[country from] to] crises IH ];
    intros summary s.
  - exists summary, s, []. cbn. rewrite !app_nil_r. repeat split; auto.
  - cbn [collect_crises].
    unfold mbind at 1, M_bind at 1, bind_m at 1, try_except.
    unfold mbind at 1, M_bind at 1, bind_m at 1.
    pose proof (collect_crisis_period_data_ends country from to None s) as Hend.
    cbn [map fst List.filter]. destruct (known country); cbn [negb].
    + destruct Hend as (crisis & s1 & -> & Hcc). cbn [mret M_ret ret].
      match goal with |- context [ collect_crises self crises ?sm s1 ] =>
        destruct (IH sm s1) as (summary' & s' & new & -> & Hs & Hp & Hh & Hm & Ha & He)
      end.
      cbn [current_snapshot all_countries_processed historical_collections
           all_ads_collected all_errors] in *.
      exists summary', s', (crisis :: new). repeat split; auto.
      * rewrite Hh, <- List.app_assoc. reflexivity.
      * cbn [map]. now rewrite Hcc, Hm.
      * simpl. lia.
    + rewrite Hend. cbn [mret M_ret ret is_Exception exn_msg].
      match goal with |- context [ collect_crises self crises ?sm s ] =>
        destruct (IH sm s) as (summary' & s' & new & -> & Hs & Hp & Hh & Hm & Ha & He)
      end.
      cbn [current_snapshot all_countries_processed historical_collections
           all_ads_collected all_errors] in *.
      exists summary', s', new. repeat split; auto.
      rewrite He, <- List.app_assoc. reflexivity.
Qed.

(** X15: [run_comprehensive_collection] always returns.  Its summary
    holds the snapshot; with include_historical, one crisis summary for each
    of the four priority periods whose country the table knows, in order, and
    one error entry "Crisis collection <code> failed: No profile found for
    country code: <code>" for each of the others; without it, neither.  The
    total is the snapshot's total plus the totals of the crisis summaries;
    countries_processed is the size of the country table, whatever was
    collected. *)
Theorem comprehensive_collection_accounting (include_historical : bool) (s : State W) :
  exists summary s' snapshot,
    run_comprehensive_collection self include_historical s = (Ok summary, s') /\
    current_snapshot summary = Some snapshot /\
    all_countries_processed summary = length (load_profiles (W := W)) /\
    map country_code (historical_collections summary)
    = (if include_historical
       then List.filter known (map (fun c => fst (fst c)) priority_crises)
       else []) /\
    all_errors summary
    = (if include_historical
       then map (fun country => "Crisis collection " +:+ country
                                +:+ " failed: No profile found for country code: "
                                +:+ country)
                (List.filter (fun country => negb (known country))
                             (map (fun c => fst (fst c)) priority_crises))
       else []) /\
    all_ads_collected summary
    = (Orchestrator.total_ads_collected snapshot
       + sum_list (map total_historical_ads (historical_collections summary)))%nat.
Proof.
  unfold run_comprehensive_collection.
  unfold mbind at 1, M_bind at 1, bind_m at 1, ask at 1.
  destruct (now_isoformat (world s)) as [now w1].
  set (s1 := MkState w1 (store s) (requested s)).
  unfold mbind at 1, M_bind at 1, bind_m at 1, try_except.
  unfold mbind at 1, M_bind at 1, bind_m at 1.
  destruct (collect_current_snapshot_returns None s1) as (snapshot & s2 & ->).
  cbn [mret M_ret ret].
  unfold mbind at 1, M_bind at 1, bind_m at 1.
  destruct include_historical.
  - match goal with |- context [ collect_crises self priority_crises ?sm s2 ] =>
      destruct (collect_crises_outcome priority_crises sm s2)
        as (summary' & s3 & new & -> & Hs & Hp & Hh & Hm & Ha & He)
    end.
    cbn [current_snapshot all_countries_processed historical_collections
         all_ads_collected all_errors app] in *.
    unfold mbind at 1, M_bind at 1, bind_m at 1, ask at 1.
    destruct (now_isoformat (world s3)) as [now' w4]. cbn [mret M_ret ret].
    eexists _, _, snapshot. split; [ reflexivity | ].
    cbn [current_snapshot all_countries_processed historical_collections
         all_ads_collected all_errors].
    rewrite Hh. repeat split; auto.
  - cbn [mret M_ret ret].
    unfold mbind at 1, M_bind at 1, bind_m at 1, ask at 1. cbn [world].
    destruct (now_isoformat (world s2)) as [now' w4]. cbn [mret M_ret ret].
    eexists _, _, snapshot. split; [ reflexivity | ].
    cbn [current_snapshot all_countries_processed historical_collections
         all_ads_collected all_errors]. repeat split; auto.
Qed.

End Run.
End OrchestrationExtras.

(** ** The other collections on the concrete world *)

Module OrchestrationRuns.
Import Py World Orchestration Demo DemoOrchestration.

(** Sudan on two platforms: four advertisements are collected and the
    snapshot says so, the result reports none. *)
Example comprehensive_snapshot_run :
  match fst (collect_comprehensive_snapshot collaborators (Some ["SD"]) start) with
  | Ok results =>
      Orchestrator.total_ads_collected (p2p_data results) = 4%nat /\
      total_ads_collected results = INat 0 /\
      exchange_rates results = IEmptyDict /\
      errors results
      = ["Error collecting cryptocompare context: 429 Too Many Requests"] /\
      market_context results !! "coingecko" = Some (VDict [])
  | Raise _ => False
  end.
Proof. vm_compute. repeat split; reflexivity. Qed.

(** A crisis collection for Sudan over an installed platform and one
    that is not. *)
Example crisis_period_data_run :
  match fst (collect_crisis_period_data collaborators "SD" "2021-10-01" "2021-10-31"
               (Some ["binance"; "paxful"]) start) with
  | Ok summary =>
      total_historical_ads summary = 3%nat /\
      platform_results summary !! "binance"
      = Some {| ads_collected := 3; status := "success"; error := None |} /\
      platform_results summary !! "paxful"
      = Some {| ads_collected := 0; status := "error"; error := Some "'paxful'" |} /\
      crisis_errors summary = ["Historical paxful collection failed: 'paxful'"]
  | Raise _ => False
  end.
Proof. vm_compute. repeat split; reflexivity. Qed.

(** The full run: Afghanistan is not in the table. *)
Example comprehensive_collection_run :
  match fst (run_comprehensive_collection collaborators true start) with
  | Ok summary =>
      map country_code (historical_collections summary) = ["SD"; "VE"; "NG"] /\
      all_errors summary
      = ["Crisis collection AF failed: No profile found for country code: AF"] /\
      all_countries_processed summary = 3%nat
  | Raise _ => False
  end.
Proof. vm_compute. repeat split; reflexivity. Qed.

End OrchestrationRuns.

(** ** Current rates for all countries *)

Module CurrentRatesExtras.
Import Py World Spec RunSpec MFacts Hoare CountryProfiles CSVDataManager ExchangeRates
       SamplingFacts AdapterFacts RateSourceExtras CrisisRatesExtras.

Section Collector.
Context `{Lib} {W : Type} `{Env W}.
Variable self : ExchangeRateCollector.

(** The loop of [collect_all_current_rates] over the countries: one
    record per country whose currency has a rate, in the order of the
    table. *)
Lemma current_rate_records (current_rates : gmap string Q) (collection_id : string)
    (countries done : list profile) (acc : M (State W) (list Rate.t)) :
  (forall s, exists data s',
      acc s = (Ok data, s') /\ store s' = store s /\
      map (fun r => (Rate.fiat_currency r, Rate.usd_rate r)) data
      = omap (fun p => (fun q => (fiat p, q)) <$> current_rates !! fiat p) done /\
      Forall (fun r => Rate.source r = "api_current" /\
                       Rate.collection_id r = collection_id) data) ->
  forall s, exists data s',
    foldl (fun acc country =>
             rates_data ← acc;
             match current_rates !! fiat country with
             | Some rate =>
                 now ← ask now_isoformat;
                 mret (rates_data ++
                       [Rate.Make (now +:+ "Z") (fiat country) rate "api_current"
                                  collection_id])
             | None => mret rates_data
             end)
          acc countries s
    = (Ok data, s') /\
    store s' = store s /\
    map (fun r => (Rate.fiat_currency r, Rate.usd_rate r)) data
    = omap (fun p => (fun q => (fiat p, q)) <$> current_rates !! fiat p) (done ++ countries) /\
    Forall (fun r => Rate.source r = "api_current" /\
                     Rate.collection_id r = collection_id) data.
Proof.
  revert done acc. induction countries as [ | country countries IH ]; intros done acc Hacc s.
  - cbn [foldl]. rewrite app_nil_r. apply Hacc.
  - cbn [foldl].
    replace (done ++ country :: countries) with ((done ++ [country]) ++ countries)
      by (now rewrite <- List.app_assoc).
    apply IH. clear s. intros s.
    unfold mbind at 1, M_bind at 1, bind_m at 1.
    destruct (Hacc s) as (data & s1 & -> & Hs & Hm & Hf).
    rewrite omap_app. cbn [omap list_omap].
    destruct (current_rates !! fiat country) as [ rate | ];
      cbn [fmap option_fmap option_map].
    + unfold mbind, M_bind, bind_m, ask. destruct (now_isoformat (world s1)) as [now w2].
      cbn [mret M_ret ret]. eexists _, _. split; [ reflexivity | ].
      split; [ exact Hs | ]. split.
      * rewrite map_app, Hm. reflexivity.
      * apply Forall_app. split; [ exact Hf | ]. repeat constructor.
    + cbn [mret M_ret ret]. exists data, s1. rewrite app_nil_r. auto.
Qed.

(** X16: [collect_all_current_rates] always returns.  With [current] the
    table [get_current_rates] gives, it returns one record per country of the
    table whose currency is in [current], in the order of the table, with that
    rate and the source "api_current"; all records share one collection id;
    advertisement files and collection log are untouched; a non-empty result
    is appended to the rate file of the day, an empty one writes nothing. *)
Theorem current_rates_records (s : State W) :
  exists current s1 rates s',
    get_current_rates self "USD" s = (Ok current, s1) /\
    collect_all_current_rates self s = (Ok rates, s') /\
    map (fun r => (Rate.fiat_currency r, Rate.usd_rate r)) rates
    = omap (fun p => (fun q => (fiat p, q)) <$> current !! fiat p) load_profiles /\
    Forall (fun r => Rate.source r = "api_current") rates /\
    (exists cid, Forall (fun r => Rate.collection_id r = cid) rates) /\
    raw_files (store s') = raw_files (store s) /\
    collection_log (store s') = collection_log (store s) /\
    match rates with
    | [] => rate_files (store s') = rate_files (store s)
    | _ :: _ =>
        exists today,
          rate_files (store s')
          = <[ "rates_" +:+ today +:+ ".csv"
               := default [] (rate_files (store s) !! ("rates_" +:+ today +:+ ".csv"))
                  ++ rates ]> (rate_files (store s))
    end.
Proof.
  destruct (get_current_rates_store self "USD" s) as (current & s1 & Ecur & Hs1).
  exists current, s1. unfold collect_all_current_rates.
  unfold mbind at 1, M_bind at 1, bind_m at 1. rewrite Ecur.
  unfold mbind at 1, M_bind at 1, bind_m at 1.
  unfold generate_collection_id at 1, mbind at 1, M_bind at 1, bind_m at 1, ask at 1.
  destruct (now_stamp (world s1)) as [stamp w2]. cbn [mret M_ret ret].
  unfold mbind at 1, M_bind at 1, bind_m at 1.
  set (s2 := MkState w2 (store s1) (requested s1)).
  match goal with |- context [ foldl ?f (mret []) ?l s2 ] =>
    destruct (current_rate_records current ("collection_" +:+ stamp) l [] (mret [])
                ltac:(intros s0; exists [], s0; repeat split; constructor) s2)
      as (data & s3 & -> & Hs3 & Hm & Hf)
  end.
  cbn [app] in Hm. unfold list_supported_countries in Hm.
  assert (Hst : store s3 = store s) by (rewrite Hs3; exact Hs1).
  destruct data as [ | r data ].
  - exists [], s3. cbn [mret M_ret ret]. rewrite Hst. repeat split; auto.
    exists EmptyString. constructor.
  - unfold save_exchange_rates, collection_id_or_new, generate_collection_id,
      mbind, M_bind, bind_m, ask, get_store, put_store.
    destruct (now_stamp (world s3)) as [stamp' w4].
    cbn [mret M_ret ret world store requested].
    destruct (today_str w4) as [today w5]. cbn [world store requested].
    exists (map (Rate.set_collection_id ("collection_" +:+ stamp')) (r :: data)).
    eexists. split; [ reflexivity | ]. split; [ reflexivity | ].
    cbn [store raw_files collection_log rate_files]. rewrite Hst.
    split; [ rewrite map_map; exact Hm | ].
    split.
    { apply Forall_map. eapply List.Forall_impl; [ | exact Hf ]. intros x [Hx _]. exact Hx. }
    split.
    { exists ("collection_" +:+ stamp').
      apply Forall_map, List.Forall_forall. intros x _. reflexivity. }
    split; [ reflexivity | ]. split; [ reflexivity | ].
    cbn [map]. exists today. reflexivity.
Qed.

End Collector.
End CurrentRatesExtras.

(** ** The market pattern of a country *)

Module MarketStructureExtras.
Import Py RunSpec MarketStructure.

(** A ratio of counts against a threshold given as a fraction. *)
Lemma ratio_le (sell total : nat) (a : Z) (b : positive) :
  (0 < total)%nat ->
  Qle_bool (inject_Z (Z.of_nat sell) / inject_Z (Z.of_nat total)) (a # b) = true
  <-> (Z.of_nat sell * Zpos b <= a * Z.of_nat total)%Z.
Proof.
  intros Ht. rewrite Qle_bool_iff.
  destruct total as [ | n ]; [ lia | ].
  unfold Qle, Qdiv, Qmult, Qinv, inject_Z. cbn.
  rewrite ?Z.mul_1_r, ?Pos.mul_1_l, ?Pos.mul_1_r. reflexivity.
Qed.

Lemma ratio_ge (sell total : nat) (a : Z) (b : positive) :
  (0 < total)%nat ->
  Qle_bool (a # b) (inject_Z (Z.of_nat sell) / inject_Z (Z.of_nat total)) = true
  <-> (a * Z.of_nat total <= Z.of_nat sell * Zpos b)%Z.
Proof.
  intros Ht. rewrite Qle_bool_iff.
  destruct total as [ | n ]; [ lia | ].
  unfold Qle, Qdiv, Qmult, Qinv, inject_Z. cbn.
  rewrite ?Z.mul_1_r, ?Pos.mul_1_l, ?Pos.mul_1_r. reflexivity.
Qed.

(** X17: the market pattern of a country with [total] advertisements, of
    which [sell] are SELL, in whole numbers.  It is "heavy_sell_pressure"
    (indicator "high") when 5 sell > 4 total, "moderate_sell_pressure"
    ("medium") when 3 total < 5 sell <= 4 total, "buy_pressure" ("low")
    when 10 sell < 3 total, and "balanced" ("low") otherwise: a share of
    exactly 80% is moderate, of exactly 60% or 30% balanced. *)
Theorem market_pattern_thresholds (sell total : nat) :
  (0 < total)%nat ->
  market_pattern (sell_ratio sell total)
  = if decide (4 * total < 5 * sell)%nat then ("heavy_sell_pressure", "high")
    else if decide (3 * total < 5 * sell)%nat then ("moderate_sell_pressure", "medium")
    else if decide (10 * sell < 3 * total)%nat then ("buy_pressure", "low")
    else ("balanced", "low").
Proof.
  intros Ht. unfold market_pattern, sell_ratio, fgt, flt.
  assert (E : (0 <? total)%nat = true) by (apply Nat.ltb_lt; exact Ht). rewrite E.
  pose proof (ratio_le sell total 8 10 Ht) as H8.
  pose proof (ratio_le sell total 6 10 Ht) as H6.
  pose proof (ratio_ge sell total 3 10 Ht) as H3.
  destruct (Qle_bool _ (8 # 10)); cbn [negb].
  - destruct (decide (4 * total < 5 * sell)%nat) as [ Hgt | _ ];
      [ pose proof (proj1 H8 eq_refl); lia | ].
    destruct (Qle_bool _ (6 # 10)); cbn [negb].
    + destruct (decide (3 * total < 5 * sell)%nat) as [ Hgt | _ ];
        [ pose proof (proj1 H6 eq_refl); lia | ].
      destruct (Qle_bool (3 # 10) _); cbn [negb].
      * destruct (decide (10 * sell < 3 * total)%nat) as [ Hlt | _ ];
          [ pose proof (proj1 H3 eq_refl); lia | reflexivity ].
      * destruct (decide (10 * sell < 3 * total)%nat) as [ _ | Hge ]; [ reflexivity | ].
        assert (false = true) by (apply H3; lia). discriminate.
    + destruct (decide (3 * total < 5 * sell)%nat) as [ _ | Hle ]; [ reflexivity | ].
      assert (false = true) by (apply H6; lia). discriminate.
  - destruct (decide (4 * total < 5 * sell)%nat) as [ _ | Hle ]; [ reflexivity | ].
    assert (false = true) by (apply H8; lia). discriminate.
Qed.

Lemma market_pattern_thresholds_witness :
  market_pattern (sell_ratio 4 5) = ("moderate_sell_pressure", "medium") /\
  market_pattern (sell_ratio 3 5) = ("balanced", "low") /\
  market_pattern (sell_ratio 3 10) = ("balanced", "low").
Proof.
  rewrite (market_pattern_thresholds 4 5), (market_pattern_thresholds 3 5),
    (market_pattern_thresholds 3 10) by lia.
  repeat split.
Defined.

End MarketStructureExtras.

(** ** Binance: the capability probe and the collection of all countries *)

Module BinanceRestExtras.
Import Py World Spec RunSpec Hoare CountryProfiles CSVDataManager AdapterFacts
       AdapterRunExtras BinanceRest.

Lemma sum_list_app (l1 l2 : list nat) :
  sum_list (l1 ++ l2) = (sum_list l1 + sum_list l2)%nat.
Proof. induction l1 as [ | n l1 IH ]; simpl; [ reflexivity | rewrite IH; lia ]. Qed.

Section Scraper.
Context `{Lib} {W : Type} `{Env W}.

Lemma probe_keep (P : State W -> Prop) (fiat : string) (timestamp : option string) :
  world_blind P -> triple P (probe fiat timestamp) (fun _ => P) P.
Proof.
  intros HP. unfold probe.
  eapply triple_bind; [ apply binance_get_ads_keep, HP | intros response ].
  destruct (truthy response); [ | apply triple_ret; auto ].
  eapply triple_bind; [ apply triple_lift_keep | intros data ].
  destruct (truthy data); [ | apply triple_ret; auto ].
  eapply triple_bind; [ apply triple_lift_keep | intros n ].
  destruct (_ && _); [ | apply triple_ret; auto ].
  eapply triple_bind; [ apply triple_lift_keep | intros first ].
  eapply triple_bind; [ apply triple_lift_keep | intros sample_ad ].
  eapply triple_bind; [ apply triple_lift_keep | intros price ].
  apply triple_ret. auto.
Qed.

Lemma probe_all_keep (P : State W -> Prop) (fiat : string)
    (timestamps : list (option string)) :
  world_blind P -> triple P (probe_all fiat timestamps) (fun _ => P) P.
Proof.
  intros HP. induction timestamps as [ | t ts IH ]; cbn [probe_all].
  - apply triple_ret. auto.
  - eapply triple_bind; [ apply probe_keep, HP | intros u; exact IH ].
Qed.

(** X18: [test_historical_capability] answers False whatever Binance
    answers: for every country code, known or not, and every behaviour of the
    network it returns normally, with False, and writes nothing. *)
Theorem historical_capability_never_found (country_code : string) (s : State W) :
  exists s',
    test_historical_capability country_code s = (Ok false, s') /\
    store s' = store s /\ requested s' = requested s.
Proof.
  assert (Ht : triple (same_store s) (test_historical_capability country_code)
                 (fun b s' => same_store s s' /\ b = false) (fun _ => False)).
  { unfold test_historical_capability.
    intros s0 Hs0. unfold try_except.
    assert (Hb : triple (same_store s)
                   (profile ← lift (get_profile_by_country_code load_profiles country_code);
                    _ ← probe_all (fiat profile) test_timestamps;
                    mret false)
                   (fun b s' => same_store s s' /\ b = false) (same_store s)).
    { eapply triple_bind; [ apply triple_lift_keep | intros profile ].
      eapply triple_bind; [ apply probe_all_keep, same_store_blind | intros u ].
      apply triple_ret. auto. }
    specialize (Hb s0 Hs0).
    destruct ((profile ← lift (get_profile_by_country_code load_profiles country_code);
               _ ← probe_all (fiat profile) test_timestamps;
               mret false) s0) as [[b | e] s1]; [ exact Hb | ].
    cbn. split; [ exact Hb | reflexivity ]. }
  specialize (Ht s (same_store_refl s)).
  destruct (test_historical_capability country_code s) as [[b | e] s']; [ | contradiction ].
  destruct Ht as [[Hst Hrq] ->]. exists s'. auto.
Qed.

(** One Binance run, as the loop over the countries sees it: the rows it
    adds to the collection log count the advertisements it returns. *)
Lemma binance_run_logged (country_code : string) (s : State W) :
  match BinanceP2P.collect_country_data country_code "USDT" true s with
  | (Ok ads, s') =>
      exists rows,
        collection_log (store s') = collection_log (store s) ++ rows /\
        sum_list (map LogEntry.ads_collected rows) = length ads /\
        (length rows <= 1)%nat /\
        Forall (fun row => LogEntry.platform row = "binance" /\
                           LogEntry.country_code row = country_code /\
                           LogEntry.status row = "success" /\
                           (0 < LogEntry.ads_collected row)%nat) rows /\
        Forall (fun ad => Ad.platform ad = "binance" /\
                          Ad.country_code ad = country_code) ads /\
        rate_files (store s') = rate_files (store s)
  | (Raise e, s') => is_ValueError e = false
  end.
Proof.
  pose proof (run_contract "binance"
                (fun p => BinanceP2P.collect_sides ["BUY"; "SELL"] "USDT" (fiat p) country_code
                            (BinanceP2P.Counters [] 0 0))
                country_code true s
                (fun p s0 => binance_collect_sides_tallied (same_store s0) "USDT" (fiat p)
                               country_code (same_store_blind s0))) as Hrun.
  change (run_outcome "binance" country_code true s
            (BinanceP2P.collect_country_data country_code "USDT" true s)) in Hrun.
  destruct (BinanceP2P.collect_country_data country_code "USDT" true s) as [[ads | e] s'].
  - destruct Hrun as (Hrates & _ & Hads). cbn [fst snd] in *.
    destruct ads as [ | ad ads ].
    + exists []. rewrite Hads, app_nil_r. repeat split; auto.
    + destruct Hads as (Hshape & p & cid & today & now & _ & _ & _ & Hlog).
      eexists [_]. split; [ exact Hlog | ]. cbn [map LogEntry.ads_collected].
      split; [ simpl; lia | ]. split; [ cbn; lia | ]. split.
      * constructor; [ | constructor ]. cbn. repeat split. lia.
      * split; [ | exact Hrates ].
        eapply List.Forall_impl; [ | exact Hshape ]. intros x (? & ? & _). auto.
  - apply Hrun.
Qed.

Lemma collect_countries_logged (countries : list profile) (all_data : list Ad.t)
    (s : State W) :
  Forall (fun ad => Ad.platform ad = "binance") all_data ->
  match collect_countries countries all_data s with
  | (Ok all, s') =>
      exists rows,
        collection_log (store s') = collection_log (store s) ++ rows /\
        (length all_data + sum_list (map LogEntry.ads_collected rows))%nat = length all /\
        (length rows <= length countries)%nat /\
        Forall (fun row => LogEntry.platform row = "binance" /\
                           In (LogEntry.country_code row) (map country_code countries) /\
                           LogEntry.status row = "success" /\
                           (0 < LogEntry.ads_collected row)%nat) rows /\
        Forall (fun ad => Ad.platform ad = "binance") all /\
        rate_files (store s') = rate_files (store s)
  | (Raise e, s') => is_ValueError e = false
  end.
Proof.
  revert all_data s. induction countries as [ | country countries IH ]; intros all_data s Hall.
  - cbn. exists []. rewrite app_nil_r. repeat split; auto.
  - cbn [collect_countries]. unfold mbind at 1, M_bind at 1, bind_m at 1.
    pose proof (binance_run_logged (country_code country) s) as Hrun.
    destruct (BinanceP2P.collect_country_data (country_code country) "USDT" true s)
      as [[ads | e] s1]; [ | exact Hrun ].
    destruct Hrun as (rows1 & Hlog1 & Hsum1 & Hlen1 & Hrows1 & Hads1 & Hrates1).
    assert (Hall' : Forall (fun ad => Ad.platform ad = "binance") (all_data ++ ads)).
    { apply Forall_app. split; [ exact Hall | ].
      eapply List.Forall_impl; [ | exact Hads1 ]. intros x [? _]. auto. }
    specialize (IH (all_data ++ ads) s1 Hall').
    destruct (collect_countries countries (all_data ++ ads) s1) as [[all | e] s2];
      [ | exact IH ].
    destruct IH as (rows2 & Hlog2 & Hsum2 & Hlen2 & Hrows2 & Hall2 & Hrates2).
    exists (rows1 ++ rows2). split; [ rewrite Hlog2, Hlog1, <- List.app_assoc; reflexivity | ].
    split.
    { rewrite map_app, sum_list_app. rewrite length_app in Hsum2. lia. }
    split; [ rewrite length_app; cbn [length]; lia | ].
    split.
    { apply Forall_app. split.
      - eapply List.Forall_impl; [ | exact Hrows1 ].
        intros row (? & Hc & ? & ?). repeat split; auto. cbn [map]. now left.
      - eapply List.Forall_impl; [ | exact Hrows2 ].
        intros row (? & Hc & ? & ?). repeat split; auto. cbn [map]. now right. }
    split; [ exact Hall2 | congruence ].
Qed.

(** X19: [collect_all_countries] and the collection log.  When it
    returns, the rows it has appended to the log, at most one per country of
    the table and none for a country without advertisements, are "success"
    rows of Binance for countries of the table, and their ads_collected add
    up to the number of advertisements it returns; the rate files are
    untouched.  It never ends with a ValueError. *)
Theorem collect_all_countries_logged (s : State W) :
  match collect_all_countries s with
  | (Ok all, s') =>
      exists rows,
        collection_log (store s') = collection_log (store s) ++ rows /\
        sum_list (map LogEntry.ads_collected rows) = length all /\
        (length rows <= length (load_profiles (W := W)))%nat /\
        Forall (fun row => LogEntry.platform row = "binance" /\
                           In (LogEntry.country_code row)
                              (map country_code (load_profiles (W := W))) /\
                           LogEntry.status row = "success" /\
                           (0 < LogEntry.ads_collected row)%nat) rows /\
        Forall (fun ad => Ad.platform ad = "binance") all /\
        rate_files (store s') = rate_files (store s)
  | (Raise e, s') => is_ValueError e = false
  end.
Proof.
  unfold collect_all_countries, list_supported_countries.
  pose proof (collect_countries_logged load_profiles [] s (List.Forall_nil _)) as Hrun.
  destruct (collect_countries load_profiles [] s) as [[all | e] s']; [ | exact Hrun ].
  destruct Hrun as (rows & Hlog & Hsum & Hlen & Hrows & Hall & Hrates).
  exists rows. cbn [length] in Hsum. repeat split; auto.
Qed.

End Scraper.

Import Demo.

(** On the concrete world: Sudan has three advertisements, Venezuela is
    unreachable, and Nigeria's body is not a dict, which ends the whole
    collection with an AttributeError. *)
Example collect_all_countries_run :
  exists e s',
    collect_all_countries Demo.start = (Raise e, s') /\
    exn_class e = AttributeError /\
    map LogEntry.ads_collected (collection_log (store s')) = [3%nat].
Proof. eexists _, _. vm_compute. repeat split. Qed.

End BinanceRestExtras.

(** ** Saving twice *)

Module SaveAgainExtras.
Import Py World CSVDataManager.

Section Manager.
Context `{Lib} {W : Type} `{Env W}.

(** A record that went through [save_raw_ads] no longer holds a list of
    payment methods. *)
Lemma tag_ad_encoded (cid : string) (ad : Ad.t) :
  forall l, Ad.payment_methods (tag_ad cid ad) <> VList l.
Proof.
  intros l. unfold tag_ad. destruct ad as [? ? ? ? ? ? ? ? ? ? pm ? ? ? ? ? ?].
  destruct pm; cbn; discriminate.
Qed.

(** On such a record [save_raw_ads] only sets the collection id. *)
Lemma tag_ad_again (cid cid' : string) (ad : Ad.t) :
  tag_ad cid' (tag_ad cid ad) = Ad.set_collection_id cid' (tag_ad cid ad).
Proof.
  pose proof (tag_ad_encoded cid ad) as Henc.
  unfold tag_ad at 1. cbn [Ad.set_collection_id Ad.payment_methods].
  destruct (Ad.payment_methods (tag_ad cid ad)) as [ | | | | | l | ] eqn:E;
    try reflexivity.
  exfalso. apply (Henc l). reflexivity.
Qed.

Lemma save_raw_ads_result (ads : list Ad.t) (platform country_code : string)
    (collection_id : option string) (s : State W) :
  exists cid path s',
    save_raw_ads ads platform country_code collection_id s
    = (Ok (path, map (tag_ad cid) ads), s') /\
    raw_files (store s') !! path = Some (map (tag_ad cid) ads).
Proof.
  unfold save_raw_ads, _write_csv, mbind, M_bind, bind_m, ask, get_store, put_store.
  destruct (collection_id_or_new collection_id s) as [[cid | e] s1] eqn:Ecid.
  2: { exfalso. revert Ecid. unfold collection_id_or_new, generate_collection_id,
         mbind, M_bind, bind_m, ask, mret, M_ret, ret.
       destruct collection_id as [ given | ];
         [ destruct (String.eqb given EmptyString) | ];
         try destruct (now_stamp (world s)); discriminate. }
  destruct (today_str (world s1)) as [today w2]. cbn [mret M_ret ret].
  eexists cid, _, _. split; [ reflexivity | ]. cbn. apply lookup_insert_eq.
Qed.

(** X20: saving again what [save_raw_ads] has returned changes nothing
    but the collection id: the payment methods, encoded as JSON text by the
    first call, are not encoded a second time, so the cell written by the
    second call is the cell written by the first. *)
Theorem save_raw_ads_again (ads : list Ad.t) (platform country_code : string)
    (first_id second_id : option string) (s : State W) :
  exists path saved s1 path' cid' s2,
    save_raw_ads ads platform country_code first_id s = (Ok (path, saved), s1) /\
    save_raw_ads saved platform country_code second_id s1
    = (Ok (path', map (Ad.set_collection_id cid') saved), s2) /\
    raw_files (store s2) !! path' = Some (map (Ad.set_collection_id cid') saved) /\
    map (fun ad => csv_text (Ad.payment_methods ad)) (map (Ad.set_collection_id cid') saved)
    = map (fun ad => csv_text (Ad.payment_methods ad)) saved.
Proof.
  destruct (save_raw_ads_result ads platform country_code first_id s)
    as (cid & path & s1 & E1 & _).
  destruct (save_raw_ads_result (map (tag_ad cid) ads) platform country_code second_id s1)
    as (cid' & path' & s2 & E2 & Hfile).
  assert (Hagain : map (tag_ad cid') (map (tag_ad cid) ads)
                   = map (Ad.set_collection_id cid') (map (tag_ad cid) ads)).
  { rewrite !map_map. apply map_ext. intros ad. apply tag_ad_again. }
  rewrite Hagain in E2, Hfile.
  exists path, (map (tag_ad cid) ads), s1, path', cid', s2.
  split; [ exact E1 | ]. split; [ exact E2 | ]. split; [ exact Hfile | ].
  rewrite map_map. reflexivity.
Qed.

End Manager.
End SaveAgainExtras.

(** ** The crisis timeline: events by country and by priority *)

From Stdlib Require Import Sorting.Sorted.

Module CrisisTimelineExtras.
Import Py CrisisTimeline.

Section Sorting.
Context {A : Type} (lt : A -> A -> bool).

Hypothesis lt_asym : forall a b, lt a b = true -> lt b a = false.

Lemma insert_perm (x : A) (l : list A) : Permutation (insert lt x l) (x :: l).
Proof.
  induction l as [ | y l IH ]; cbn [insert]; [ reflexivity | ].
  destruct (lt y x); [ | reflexivity ].
  rewrite IH. apply perm_swap.
Qed.

Lemma sorted_perm (l : list A) : Permutation (sorted lt l) l.
Proof.
  induction l as [ | x l IH ]; cbn [sorted fold_right]; [ reflexivity | ].
  fold (sorted lt l). rewrite insert_perm. now constructor.
Qed.

Lemma insert_hd (x a : A) (l : list A) :
  ordered lt a x -> HdRel (ordered lt) a l -> HdRel (ordered lt) a (insert lt x l).
Proof.
  intros Hax Hl. destruct l as [ | y l ]; cbn [insert]; [ now constructor | ].
  destruct (lt y x); constructor; [ now inversion Hl | exact Hax ].
Qed.

Lemma insert_sorted (x : A) (l : list A) :
  Sorted (ordered lt) l -> Sorted (ordered lt) (insert lt x l).
Proof.
  induction 1 as [ | y l Hs IH Hhd ]; cbn [insert].
  - repeat constructor.
  - destruct (lt y x) eqn:E.
    + constructor; [ exact IH | ]. apply insert_hd; [ | exact Hhd ].
      unfold ordered. now apply lt_asym.
    + constructor; [ now constructor | ]. constructor. exact E.
Qed.

Lemma sorted_sorted (l : list A) : Sorted (ordered lt) (sorted lt l).
Proof.
  induction l as [ | x l IH ]; cbn [sorted fold_right]; [ constructor | ].
  now apply insert_sorted.
Qed.

End Sorting.

Lemma sorted_snoc {A} (R : A -> A -> Prop) (l : list A) (y : A) :
  Sorted R l -> (forall z, List.last (map Some l) None = Some z -> R z y) ->
  Sorted R (l ++ [y]).
Proof.
  induction 1 as [ | x l Hs IH Hhd ]; intros Hlast; cbn [app].
  - repeat constructor.
  - constructor.
    + apply IH. intros z Hz. apply Hlast. cbn [map].
      destruct l as [ | x' l ]; [ discriminate Hz | exact Hz ].
    + destruct l as [ | x' l ]; cbn [app]; constructor.
      * apply Hlast. reflexivity.
      * now inversion Hhd.
Qed.

(** A sorted list read backwards is sorted the other way round. *)
Lemma sorted_rev {A} (R : A -> A -> Prop) (l : list A) :
  Sorted R l -> Sorted (fun a b => R b a) (rev l).
Proof.
  induction 1 as [ | x l Hs IH Hhd ]; cbn [rev]; [ constructor | ].
  apply sorted_snoc; [ exact IH | ].
  intros z Hz. destruct l as [ | x' l ]; [ discriminate Hz | ].
  inversion Hhd as [ | ? ? Hx ]; subst.
  assert (z = x'); [ | now subst ].
  revert Hz. cbn [rev]. rewrite map_app. cbn [map]. rewrite List.last_last.
  now intros [= <-].
Qed.

Lemma ltb_asym (a b : string) : String.ltb a b = true -> String.ltb b a = false.
Proof.
  unfold String.ltb. rewrite (String.compare_antisym a b).
  destruct (String.compare b a); cbn; congruence.
Qed.

(** On texts "not smaller" is "at least". *)
Lemma ltb_false_leb (a b : string) : String.ltb b a = false <-> String.leb a b = true.
Proof.
  unfold String.ltb, String.leb. rewrite (String.compare_antisym a b).
  destruct (String.compare b a); cbn; split; congruence.
Qed.

Lemma date_lt_asym (a b : CrisisEvent) : date_lt a b = true -> date_lt b a = false.
Proof. apply ltb_asym. Qed.

Lemma priority_lt_asym (a b : CrisisEvent) :
  priority_lt a b = true -> priority_lt b a = false.
Proof.
  unfold priority_lt. intros Hab.
  apply orb_true_iff in Hab. apply orb_false_iff.
  destruct Hab as [ Hlt | Heq ].
  - apply Z.ltb_lt in Hlt. split; [ apply Z.ltb_ge; lia | ].
    apply andb_false_iff. left. apply Z.eqb_neq. lia.
  - apply andb_true_iff in Heq. destruct Heq as [Heq Hd]. apply Z.eqb_eq in Heq.
    split; [ apply Z.ltb_ge; lia | ].
    apply andb_false_iff. right. now apply ltb_asym.
Qed.

Lemma sorted_impl {A} (R S : A -> A -> Prop) (l : list A) :
  (forall a b, R a b -> S a b) -> Sorted R l -> Sorted S l.
Proof.
  intros HRS. induction 1 as [ | x l Hs IH Hhd ]; constructor; [ exact IH | ].
  destruct Hhd; constructor. now apply HRS.
Qed.

Section Manager.
Variable crisis_events : list CrisisEvent.

(** The files of the country timelines: one per country that has an
    event. *)
Lemma country_files (f : string -> list CrisisEvent) (events : list CrisisEvent)
    (country : string) :
  fold_right (fun e files => <[country_code e := f (country_code e)]> files)
             (∅ : gmap string (list CrisisEvent)) events
  !! country
  = if existsb (fun e => String.eqb (country_code e) country) events
    then Some (f country) else None.
Proof.
  induction events as [ | e events IH ]; cbn [fold_right existsb].
  - apply lookup_empty.
  - destruct (String.eqb_spec (country_code e) country) as [ <- | Hne ]; cbn [orb].
    + apply lookup_insert_eq.
    + rewrite lookup_insert_ne by exact Hne. exact IH.
Qed.

(** Every event is in the file of its country and in no other. *)
Lemma by_country_partition (countries : list string) (events : list CrisisEvent) :
  NoDup countries ->
  Forall (fun e => In (country_code e) countries) events ->
  Permutation
    (concat (map (fun c => List.filter (fun e => String.eqb (country_code e) c) events)
                 countries))
    events.
Proof.
  intros Hnd. induction events as [ | e events IH ]; intros Hall.
  - clear. induction countries as [ | c cs IHc ]; [ reflexivity | exact IHc ].
  - apply Forall_cons in Hall. destruct Hall as [He Hall]. specialize (IH Hall).
    etransitivity; [ | apply perm_skip, IH ]. clear IH Hall.
    induction Hnd as [ | c cs Hc Hnd IHc ]; [ destruct He | ].
    cbn [map concat List.filter].
    destruct (String.eqb_spec (country_code e) c) as [ Heq | Hne ].
    + cbn [app]. constructor. apply Permutation_app_head.
      clear IHc He. subst c.
      induction cs as [ | c' cs IHcs ]; [ reflexivity | ].
      cbn [map concat List.filter].
      destruct (String.eqb_spec (country_code e) c') as [ Heq | _ ].
      * exfalso. apply Hc. rewrite <- Heq. now left.
      * apply Permutation_app_head, IHcs.
        -- intros Hin. apply Hc. now right.
        -- now inversion Hnd.
    + destruct He as [ He | He ]; [ congruence | ].
      rewrite (IHc He). symmetry. apply Permutation_middle.
Qed.

(** X21: [get_events_by_country] returns exactly the events of the
    country, each once, in the order of their dates (as texts, earliest
    first).  [generate_country_timelines] writes one file per country that
    has an event, holding that list; over any list of distinct country codes
    that covers the catalogue, the country lists together hold every event
    of the catalogue exactly once. *)
Theorem events_by_country_sorted (country : string) :
  let events := get_events_by_country crisis_events country in
  Permutation events
    (List.filter (fun e => String.eqb (country_code e) country) crisis_events) /\
  Forall (fun e => country_code e = country) events /\
  Sorted (fun a b => String.leb (date a) (date b) = true) events /\
  generate_country_timelines crisis_events !! country
  = (if existsb (fun e => String.eqb (country_code e) country) crisis_events
     then Some events else None) /\
  (forall countries,
     NoDup countries ->
     Forall (fun e => In (country_code e) countries) crisis_events ->
     Permutation (concat (map (get_events_by_country crisis_events) countries))
                 crisis_events).
Proof.
  cbn zeta. unfold get_events_by_country.
  assert (Hperm : forall c,
             Permutation
               (sorted date_lt
                  (List.filter (fun e => String.eqb (country_code e) c) crisis_events))
               (List.filter (fun e => String.eqb (country_code e) c) crisis_events))
    by (intros c; apply sorted_perm).
  split; [ apply Hperm | ]. split.
  { apply List.Forall_forall. intros e He.
    apply (Permutation_in _ (Hperm country)) in He.
    apply filter_In in He. destruct He as [_ He]. now apply String.eqb_eq in He. }
  split.
  { eapply sorted_impl; [ | apply (sorted_sorted date_lt date_lt_asym) ].
    intros a b Hab. apply ltb_false_leb. exact Hab. }
  split.
  { unfold generate_country_timelines, get_events_by_country.
    apply (country_files
             (fun c => sorted date_lt
                         (List.filter (fun e => String.eqb (country_code e) c)
                                      crisis_events))). }
  intros countries Hnd Hall.
  etransitivity; [ | apply (by_country_partition countries crisis_events Hnd Hall) ].
  clear Hnd Hall. induction countries as [ | c cs IHc ]; [ reflexivity | ].
  cbn [map concat]. apply Permutation_app; [ apply Hperm | exact IHc ].
Qed.

(** X22: [get_priority_events] returns exactly the events whose priority
    is at least the one asked for, each once, highest priority first and,
    within one priority, latest date first. *)
Theorem priority_events_sorted (min_priority : Z) :
  let events := get_priority_events crisis_events min_priority in
  Permutation events
    (List.filter (fun e => (min_priority <=? data_collection_priority e)%Z) crisis_events) /\
  Forall (fun e => (min_priority <= data_collection_priority e)%Z) events /\
  Sorted (fun a b =>
            (data_collection_priority b < data_collection_priority a)%Z \/
            (data_collection_priority b = data_collection_priority a /\
             String.leb (date b) (date a) = true))
         events.
Proof.
  cbn zeta. unfold get_priority_events, sorted_reverse.
  set (chosen := List.filter (fun e => (min_priority <=? data_collection_priority e)%Z)
                             crisis_events).
  assert (Hperm : Permutation (rev (sorted priority_lt (rev chosen))) chosen).
  { rewrite <- Permutation_rev, sorted_perm, <- Permutation_rev. reflexivity. }
  split; [ exact Hperm | ]. split.
  { apply List.Forall_forall. intros e He.
    apply (Permutation_in _ Hperm) in He.
    apply filter_In in He. destruct He as [_ He]. now apply Z.leb_le in He. }
  eapply sorted_impl; [ | apply sorted_rev, (sorted_sorted priority_lt priority_lt_asym) ].
  intros a b Hab. cbn beta in Hab. unfold ordered, priority_lt in Hab.
  apply orb_false_iff in Hab. destruct Hab as [Hlt Heq].
  apply Z.ltb_ge in Hlt. apply andb_false_iff in Heq.
  destruct (Z.eq_dec (data_collection_priority b) (data_collection_priority a)) as [ E | Hne ];
    [ right | left; lia ].
  split; [ exact E | ]. destruct Heq as [ Heq | Hd ].
  - apply Z.eqb_neq in Heq. congruence.
  - apply ltb_false_leb. exact Hd.
Qed.

End Manager.

End CrisisTimelineExtras.

(** ** The phase-3 analysis and the order of the rows *)

Module AnalysisOrderExtras.
Import Py Analysis AnalysisSpec AnalysisFacts.

Lemma feq_refl (a : fnum) : feq a a.
Proof. destruct a; cbn; [ reflexivity | exact I ]. Qed.

Lemma fsub_feq (a a' b b' : fnum) : feq a a' -> feq b b' -> feq (fsub a b) (fsub a' b').
Proof.
  destruct a, a', b, b'; cbn; try tauto. intros E1 E2. now rewrite E1, E2.
Qed.

Lemma fmul_feq (a a' b b' : fnum) : feq a a' -> feq b b' -> feq (fmul a b) (fmul a' b').
Proof.
  destruct a, a', b, b'; cbn; try tauto. intros E1 E2. now rewrite E1, E2.
Qed.

Lemma fdiv_feq (a a' b b' : fnum) : feq a a' -> feq b b' -> feq (fdiv a b) (fdiv a' b').
Proof.
  destruct a as [ x | ], a' as [ x' | ], b as [ y | ], b' as [ y' | ]; cbn; try tauto.
  intros E1 E2.
  assert (Hz : Qeq_bool y 0 = Qeq_bool y' 0).
  { destruct (Qeq_bool y 0) eqn:Ey, (Qeq_bool y' 0) eqn:Ey'; try reflexivity.
    - apply Qeq_bool_iff in Ey. rewrite E2 in Ey. apply Qeq_bool_iff in Ey. congruence.
    - apply Qeq_bool_iff in Ey'. rewrite <- E2 in Ey'. apply Qeq_bool_iff in Ey'.
      congruence. }
  rewrite Hz. destruct (Qeq_bool y' 0); cbn; [ exact I | ]. now rewrite E1, E2.
Qed.

Lemma qsum_perm (xs ys : list Q) : Permutation xs ys -> (qsum xs == qsum ys)%Q.
Proof.
  induction 1 as [ | x xs ys Hp IH | x y xs | xs ys zs H1 IH1 H2 IH2 ]; cbn [qsum fold_right].
  - reflexivity.
  - fold (qsum xs) (qsum ys). now rewrite IH.
  - fold (qsum xs). ring.
  - now rewrite IH1.
Qed.

Lemma mean_perm (xs ys : list Q) : Permutation xs ys -> feq (mean xs) (mean ys).
Proof.
  intros Hp. pose proof (Permutation_length Hp) as Hl.
  pose proof (qsum_perm xs ys Hp) as Hs.
  destruct xs as [ | x xs ], ys as [ | y ys ]; try discriminate Hl; [ exact I | ].
  cbn [mean feq]. rewrite Hs, Hl. reflexivity.
Qed.

Lemma filter_perm {A} (f : A -> bool) (l l' : list A) :
  Permutation l l' -> Permutation (List.filter f l) (List.filter f l').
Proof.
  induction 1 as [ | x l l' Hp IH | x y l | l l' l'' H1 IH1 H2 IH2 ]; cbn [List.filter].
  - reflexivity.
  - destruct (f x); [ now constructor | exact IH ].
  - destruct (f x), (f y); try reflexivity. apply perm_swap.
  - now rewrite IH1.
Qed.

Section Windows.
Context `{Lib}.

(** X23: the prices [analyze_crisis_correlations] reports do not depend
    on the order of the rows of the price file: for two files with the same
    rows in any order, either both give no row for the crisis, or both give a
    row with the same pre and post mean price, the same price change and the
    same number of data points. *)
Theorem analyze_crisis_order_free (crisis_date : Z) (data data' : series) :
  Permutation data data' ->
  match analyze_crisis crisis_date data, analyze_crisis crisis_date data' with
  | Some r, Some r' =>
      feq (pre_crisis_price r) (pre_crisis_price r') /\
      feq (post_crisis_price r) (post_crisis_price r') /\
      feq (price_change_pct r) (price_change_pct r') /\
      data_points r = data_points r'
  | None, None => True
  | _, _ => False
  end.
Proof.
  intros Hp. unfold analyze_crisis. cbn zeta.
  set (lo := (crisis_date - 30)%Z). set (hi := (crisis_date + 30)%Z).
  assert (Hw : Permutation (between lo hi data) (between lo hi data'))
    by (apply filter_perm, Hp).
  assert (Hpre : Permutation (closes (before crisis_date (between lo hi data)))
                             (closes (before crisis_date (between lo hi data'))))
    by (apply Permutation_map, filter_perm, Hw).
  assert (Hpost : Permutation (closes (from crisis_date (between lo hi data)))
                              (closes (from crisis_date (between lo hi data'))))
    by (apply Permutation_map, filter_perm, Hw).
  rewrite <- (Permutation_length Hw).
  destruct (10 <? length (between lo hi data))%nat; [ | exact I ].
  pose proof (mean_perm _ _ Hpre) as Hmpre. pose proof (mean_perm _ _ Hpost) as Hmpost.
  pose proof (Permutation_length Hpre) as Hlpre.
  pose proof (Permutation_length Hpost) as Hlpost.
  destruct (closes (before crisis_date (between lo hi data))) as [ | x pre ],
           (closes (before crisis_date (between lo hi data'))) as [ | x' pre' ];
    try discriminate Hlpre; [ exact I | ].
  destruct (closes (from crisis_date (between lo hi data))) as [ | y post ],
           (closes (from crisis_date (between lo hi data'))) as [ | y' post' ];
    try discriminate Hlpost; [ exact I | ].
  cbn [pre_crisis_price post_crisis_price price_change_pct data_points].
  split; [ exact Hmpre | ]. split; [ exact Hmpost | ]. split; [ | reflexivity ].
  apply fmul_feq; [ | apply feq_refl ].
  apply fdiv_feq; [ | exact Hmpre ]. apply fsub_feq; assumption.
Qed.

End Windows.

Import Demo.

Lemma analyze_crisis_order_free_witness :
  match analyze_crisis 1000 flat_series, analyze_crisis 1000 (rev flat_series) with
  | Some r, Some r' =>
      feq (price_change_pct r) (price_change_pct r') /\ data_points r = 20%nat
  | _, _ => False
  end.
Proof.
  pose proof (analyze_crisis_order_free 1000 flat_series (rev flat_series)
                (Permutation_rev flat_series)) as Hfree.
  destruct (analyze_crisis 1000 flat_series) as [ r | ] eqn:E;
    [ | vm_compute in E; discriminate E ].
  destruct (analyze_crisis 1000 (rev flat_series)) as [ r' | ]; [ | exact Hfree ].
  destruct Hfree as (_ & _ & Hc & _). split; [ exact Hc | ].
  vm_compute in E. injection E as <-. reflexivity.
Defined.

End AnalysisOrderExtras.
